(** * FactoryRecourcesOptimization: cost models and plan optimizer

    A shallow embedding of [Costs.py] and [Optimization.py].

    Numbers.  Python floats and numpy [float64] values are modelled as exact
    rationals ([Q]); rounding error of the binary representation is not
    modelled, and no product or power overflows.  The IEEE special values
    are modelled where the program can observe them without overflow:
    numpy's division and [np.mean] return [inf]/[nan] instead of raising,
    and [int()] raises on them.  What is proved over [Q] about a run that
    returns is about the values the code computes up to that rounding; a
    run of the code can moreover raise [OverflowError] where the exact
    model returns.  Module [Binary64] follows the storage model in IEEE 754
    binary64, where the rounding of the mean shows in the report.

    Effects.  A raised Python exception is [None].  The process-wide random
    generator of [np.random] is an explicit state threaded through every
    model; the caller's inventory dictionary, which [calculate_total_cost]
    mutates in place, is a cell of the store. *)

From Stdlib Require Import QArith Qround Qminmax Qpower Lqa.
From Stdlib Require Import ZArith List String Bool Lia.
From Stdlib Require Floats.PrimFloat Numbers.Cyclic.Int63.Uint63.
Import ListNotations.

Open Scope Q_scope.

(** ** Python and numpy primitives *)

Module Py.

(** A [dict] with string keys and numeric values.  Python dictionaries keep
    insertion order and [for k in d] follows it, so the entries are kept as
    an ordered association list; keys of a real dictionary are distinct. *)
Definition dict := list (string * Q).

Fixpoint dict_get (k : string) (d : dict) : option Q :=
  match d with
  | [] => None
  | (k', v) :: d' => if String.eqb k k' then Some v else dict_get k d'
  end.

(** [d.get(k, default)] *)
Definition dict_get_default (k : string) (dflt : Q) (d : dict) : Q :=
  match dict_get k d with
  | Some v => v
  | None => dflt
  end.

(** [d[k] = v]: an existing key keeps its position, a new key is appended. *)
Fixpoint dict_set (k : string) (v : Q) (d : dict) : dict :=
  match d with
  | [] => [(k, v)]
  | (k', v') :: d' =>
      if String.eqb k k' then (k', v) :: d' else (k', v') :: dict_set k v d'
  end.

Definition keys (d : dict) : list string := map fst d.
Definition values (d : dict) : list Q := map snd d.

(** The builtin [sum] (and [np.sum] on a finite vector). *)
Definition sum (l : list Q) : Q := fold_left Qplus l 0.

(** [a < b] and [a <= b] as Python evaluates them. *)
Definition ltb (a b : Q) : bool := negb (Qle_bool b a).
Definition leb (a b : Q) : bool := Qle_bool a b.

(** [min(a, b)] and [max(a, b)] return the first argument unless the second
    is strictly smaller (larger). *)
Definition min (a b : Q) : Q := if ltb b a then b else a.
Definition max (a b : Q) : Q := if ltb a b then b else a.

(** [a / b] on builtin numbers raises [ZeroDivisionError]. *)
Definition div (a b : Q) : option Q :=
  if Qeq_bool b 0 then None else Some (a / b).

(** [int(x)] on a finite number truncates toward zero. *)
Definition int (x : Q) : Z := if ltb x 0 then Qceiling x else Qfloor x.

(** Round half to even on the integers, the rule of both [round] and
    [np.round]. *)
Definition rint (x : Q) : Z :=
  let f := Qfloor x in
  let r := x - inject_Z f in
  if ltb r (1 # 2) then f
  else if ltb (1 # 2) r then (f + 1)%Z
  else if Z.even f then f else (f + 1)%Z.

(** [round(x, ndigits)], of the exact rational.  The code rounds a binary
    float, so the two can differ where the exact decimal product is a tie
    ([0.0015 * 100] is just below [0.15] in binary). *)
Definition round (x : Q) (ndigits : nat) : Q :=
  let scale := inject_Z (10 ^ Z.of_nat ndigits) in
  inject_Z (rint (x * scale)) / scale.

(** A number used where Python wants an [int] ([range], the exponent of a
    month): integer-valued rationals stand for the integers.  A rational
    does not tell the float [1.0] from the integer [1]: on an
    integer-valued float the code's [range] raises [TypeError], which this
    function does not follow. *)
Definition as_int (x : Q) : option Z :=
  if Qeq_bool (inject_Z (Qfloor x)) x then Some (Qfloor x) else None.

(** [range(a, b)] for [a <= b + 1], as the list of its values. *)
Definition range (a b : Z) : list Z :=
  map (fun i => (a + Z.of_nat i)%Z) (seq 0 (Z.to_nat (b - a))).

(** *** Keyword-argument binding

    A call that passes some arguments by name and unpacks a dictionary [d]
    for the others raises [TypeError] when [d] has a key that is not a
    parameter of the function or that is also passed by name, and when a
    parameter without default is missing. *)
Definition kwargs_ok (allowed : list string) (d : dict) : bool :=
  forallb (fun kv => existsb (String.eqb (fst kv)) allowed) d.

End Py.

(** ** numpy scalars *)

Module Np.

(** A [float64] result: a finite value or one of the IEEE special values. *)
Inductive float64 : Type :=
| Finite (q : Q)
| PosInf
| NegInf
| NaN.

(** numpy's true division of two finite scalars.  Division by zero does
    not raise: it gives [inf], [-inf] or [nan] (with a [RuntimeWarning]). *)
Definition true_divide (a b : Q) : float64 :=
  if Qeq_bool b 0 then
    if Py.ltb 0 a then PosInf
    else if Py.ltb a 0 then NegInf
    else NaN
  else Finite (a / b).

Definition add (a b : float64) : float64 :=
  match a, b with
  | Finite x, Finite y => Finite (x + y)
  | NaN, _ | _, NaN => NaN
  | PosInf, NegInf | NegInf, PosInf => NaN
  | PosInf, _ | _, PosInf => PosInf
  | NegInf, _ | _, NegInf => NegInf
  end.

Definition neg (a : float64) : float64 :=
  match a with
  | Finite x => Finite (- x)
  | PosInf => NegInf
  | NegInf => PosInf
  | NaN => NaN
  end.

Definition sub (a b : float64) : float64 := add a (neg b).

(** Multiplication by a finite scalar. *)
Definition scale (a : float64) (k : Q) : float64 :=
  match a with
  | Finite x => Finite (x * k)
  | NaN => NaN
  | PosInf =>
      if Py.ltb 0 k then PosInf else if Py.ltb k 0 then NegInf else NaN
  | NegInf =>
      if Py.ltb 0 k then NegInf else if Py.ltb k 0 then PosInf else NaN
  end.

(** Division by a non-zero finite constant. *)
Definition div_const (a : float64) (k : Q) : float64 := scale a (/ k).

(** [a > 0], false on [nan]. *)
Definition is_positive (a : float64) : bool :=
  match a with
  | Finite x => Py.ltb 0 x
  | PosInf => true
  | NegInf | NaN => false
  end.

(** The builtin [max(0, a)]: the integer [0] unless [a > 0]. *)
Definition max0 (a : float64) : float64 :=
  if is_positive a then a else Finite 0.

(** [np.mean]: [nan] on an empty vector. *)
Definition mean (l : list Q) : float64 :=
  true_divide (Py.sum l) (inject_Z (Z.of_nat (List.length l))).

(** [np.min] and [np.max] (also named [np.amin], [np.amax]) raise
    [ValueError] on an empty vector. *)
Definition amin (l : list Q) : option Q :=
  match l with
  | [] => None
  | x :: l' => Some (fold_left Qmin l' x)
  end.

Definition amax (l : list Q) : option Q :=
  match l with
  | [] => None
  | x :: l' => Some (fold_left Qmax l' x)
  end.

(** [np.ceil] *)
Definition ceil (a : float64) : float64 :=
  match a with
  | Finite x => Finite (inject_Z (Qceiling x))
  | _ => a
  end.

(** [int(a)] raises [ValueError] on [nan] and [OverflowError] on [inf].
    An [inf] arises here from a division by zero only: a cost that
    overflows the range of a double, on which the code's [int] raises too,
    has a finite value in the exact model. *)
Definition to_int (a : float64) : option Z :=
  match a with
  | Finite x => Some (Py.int x)
  | _ => None
  end.

End Np.

(** ** Effects: exceptions and threaded state *)

Module Effect.

(** A computation over a state [S] that returns a value or raises. *)
Definition M (S A : Type) : Type := S -> option (A * S).

Definition ret {S A : Type} (a : A) : M S A := fun s => Some (a, s).

Definition bind {S A B : Type} (m : M S A) (f : A -> M S B) : M S B :=
  fun s =>
    match m s with
    | Some (a, s') => f a s'
    | None => None
    end.

Definition raise {S A : Type} : M S A := fun _ => None.

(** A value that may be missing ([KeyError], [IndexError], ...) *)
Definition lift {S A : Type} (o : option A) : M S A :=
  fun s =>
    match o with
    | Some a => Some (a, s)
    | None => None
    end.

Declare Scope eff_scope.
Delimit Scope eff_scope with eff.

Notation "x <- m ;; k" := (bind m (fun x => k))
  (at level 100, m at next level, right associativity) : eff_scope.
Notation "' p <- m ;; k" := (bind m (fun x => match x with p => k end))
  (at level 100, p pattern, m at next level, right associativity) : eff_scope.

Open Scope eff_scope.

(** [for a in l: acc = body(acc, a)] *)
Fixpoint for_each {S A B : Type} (l : list A) (body : B -> A -> M S B)
    (acc : B) : M S B :=
  match l with
  | [] => ret acc
  | a :: l' => acc' <- body acc a ;; for_each l' body acc'
  end.

(** [for _ in range(n): acc = body(acc)] *)
Fixpoint repeat_n {S B : Type} (n : nat) (body : B -> M S B) (acc : B)
    : M S B :=
  match n with
  | O => ret acc
  | S n' => acc' <- body acc ;; repeat_n n' body acc'
  end.

(** The same loops for code that can raise but has no state. *)
Definition obind {A B : Type} (o : option A) (f : A -> option B) : option B :=
  match o with
  | Some a => f a
  | None => None
  end.

Notation "x <-? o ;; k" := (obind o (fun x => k))
  (at level 100, o at next level, right associativity) : eff_scope.

Fixpoint ofold {A B : Type} (l : list A) (body : B -> A -> option B)
    (acc : B) : option B :=
  match l with
  | [] => Some acc
  | a :: l' => obind (body acc a) (ofold l' body)
  end.

End Effect.

(** The random generator behind [np.random.normal] and [np.random.rand]:
    an external collaborator.  Each draw returns a value and the next
    generator state; nothing is assumed about the values drawn. *)
Class RandomSource (G : Type) : Type := {
  draw_normal : Q -> Q -> G -> Q * G;
  draw_uniform : G -> Q * G
}.

Module Random.
Import Effect.

Section Draws.
Context {G : Type} `{RandomSource G}.

(** [np.random.normal(loc, scale)] raises [ValueError] when [scale < 0]. *)
Definition normal (loc scale : Q) : M G Q :=
  if Py.ltb scale 0 then raise
  else fun g => Some (draw_normal loc scale g).

(** [np.random.rand()] *)
Definition rand : M G Q := fun g => Some (draw_uniform g).

End Draws.
End Random.

(** ** Costs.py *)

Module Costs.
Import Effect.

(** Result of [calculate_raw_material_costs]. *)
Record raw_material_result : Type := {
  rm_expected_cost : Z;
  rm_min_cost : Z;
  rm_max_cost : Z;
  rm_risk_above_budget : Q;
  rm_safety_stock : Py.dict
}.

(** Keyword arguments of [calculate_production_costs] other than
    [target_boxes] and [n_simulations]. *)
Record production_args : Type := {
  energy_per_box : Q;
  maintenance_per_box : Q;
  rent : Q;
  utilities : Q;
  equipment_depreciation : Q;
  certification : Q;
  internal_logistics : Q;
  it_infrastructure : Q;
  waste_disposal : Q;
  production_tax : Q;
  equipment_insurance : Q;
  energy_price_mean : Q;
  energy_price_std : Q;
  equipment_failure_rate : Q;
  failure_extra_cost : Q
}.

Record production_result : Type := {
  pc_total_cost : Z;
  pc_min_cost : Z;
  pc_max_cost : Z;
  pc_failure_risk : Q;
  pc_cost_breakdown : list (string * Z)
}.

(** Keyword arguments of [calculate_storage_costs] other than
    [inventory_value] and [n_simulations]. *)
Record storage_args : Type := {
  storage_volume : Q;
  used_volume : Q;
  rent_per_month : Q;
  security_systems_cost : Q;
  wms_cost : Q;
  utilities_cost : Q;
  insurance_rate : Q;
  depreciation_cost : Q;
  storage_cost_per_m3 : Q;
  internal_logistics_cost : Q;
  spoilage_rate : Q;
  rent_volatility : Q;
  spoilage_risk : Q;
  security_breach_risk : Q
}.

(** The [risk_breakdown] dictionary of the storage model. *)
Record storage_risks : Type := {
  rent_increase : Q;
  extra_spoilage : Q;
  security_incidents : Q
}.

Record storage_result : Type := {
  sc_base_cost : Q;
  sc_avg_total_cost : Q;
  sc_min_cost : Q;
  sc_max_cost : Q;
  sc_risk_breakdown : storage_risks;
  sc_fixed_costs : Py.dict;
  sc_variable_costs : Py.dict;
  sc_risk_costs : Py.dict
}.

(** Keyword arguments of [calculate_logistics_costs] other than the two
    volumes and [n_simulations]. *)
Record logistics_args : Type := {
  distance_supplier : Q;
  distance_customer : Q;
  truck_capacity : Q;
  truck_cost_per_km : Q;
  truck_fixed_cost : Q;
  contractor_cost_per_m3 : Q;
  contractor_delay_risk : Q;
  fuel_price_mean : Q;
  fuel_price_std : Q;
  damage_risk : Q;
  damage_cost_per_m3 : Q
}.

(** The two values of [optimal_strategy]: the own fleet and the contractor.
    The source names them, and the keys of the two breakdowns, in Russian;
    the breakdown keys are given English names here. *)
Inductive strategy : Type := OwnFleet | Contractor.

Record logistics_result : Type := {
  lc_total_cost : Z;
  lc_min_cost : Z;
  lc_max_cost : Z;
  lc_optimal_strategy : strategy;
  lc_delay_risk : Q;
  lc_damage_risk : Q;
  lc_own_breakdown : list (string * Q);
  lc_contractor_breakdown : list (string * Z)
}.

(** Keyword arguments of [calculate_labor_vs_automation] other than
    [target_boxes]. *)
Record labor_args : Type := {
  workers_productivity : Q;
  worker_salary : Q;
  worker_tax_rate : Q;
  worker_training_cost : Q;
  robot_productivity : Q;
  robot_cost : Q;
  robot_lifespan : Q;
  robot_maintenance : Q;
  robot_software_cost : Q;
  discount_rate : Q;
  n_years : Z;
  risk_adjustment : Q
}.

(** The two values of [optimal_solution], ["labor"] and ["automation"]. *)
Inductive solution : Type := Labor | Automation.

Record labor_result : Type := {
  optimal_solution : solution;
  labor_cost : Z;
  automation_cost : Z;
  break_even_months : option Z
}.

Section Models.
Context {G : Type} `{RandomSource G}.

(** *** calculate_raw_material_costs *)

Section RawMaterial.
Variables (target_boxes : Q) (material_per_box base_prices price_volatility : Py.dict).
Variables (defect_rate delivery_risk safety_stock_days : Q) (n_simulations : nat).

Definition adjusted_boxes : Q := target_boxes * (1 + defect_rate).

Definition required_materials : Py.dict :=
  map (fun '(material, amount) => (material, adjusted_boxes * amount))
      material_per_box.

Definition daily_usage : Py.dict :=
  map (fun '(material, amount) => (material, amount / 30)) required_materials.

Definition safety_stock : Py.dict :=
  map (fun '(material, usage) => (material, usage * safety_stock_days))
      daily_usage.

(** One pass of the inner loop: the price is drawn first, then the delay. *)
Definition material_trial (total_cost : Q) (material : string) : M G Q :=
  base <- lift (Py.dict_get material base_prices) ;;
  volatility <- lift (Py.dict_get material price_volatility) ;;
  price <- Random.normal base (base * volatility) ;;
  u <- Random.rand ;;
  amount <-
    (if Py.ltb u delivery_risk then
       required <- lift (Py.dict_get material required_materials) ;;
       extra <- lift (Py.dict_get material safety_stock) ;;
       ret (required + extra)
     else lift (Py.dict_get material required_materials)) ;;
  ret (total_cost + price * amount).

(** One scenario; the scenarios are collected in order. *)
Definition raw_material_trial (simulated_costs : list Q) : M G (list Q) :=
  total_cost <- for_each (Py.keys base_prices) material_trial 0 ;;
  ret (simulated_costs ++ [total_cost]).

Definition base_budget : option Q :=
  ofold (Py.keys base_prices)
    (fun acc material =>
       base <-? Py.dict_get material base_prices ;;
       required <-? Py.dict_get material required_materials ;;
       Some (acc + base * required))
    0.

(** [np.mean(simulated_costs > base_budget)]: the share of scenarios above
    the budget. *)
Definition share_above (budget : Q) (simulated_costs : list Q) : Np.float64 :=
  Np.mean (map (fun c => if Py.ltb budget c then 1 else 0) simulated_costs).

(** The Monte Carlo loop: the costs of the scenarios, in order. *)
Definition simulate_raw_material : M G (list Q) :=
  repeat_n n_simulations raw_material_trial [].

Definition calculate_raw_material_costs : M G raw_material_result :=
  simulated_costs <- simulate_raw_material ;;
  budget <- lift base_budget ;;
  expected <- lift (Np.to_int (Np.mean simulated_costs)) ;;
  lo <- lift (Np.amin simulated_costs) ;;
  hi <- lift (Np.amax simulated_costs) ;;
  match share_above budget simulated_costs with
  | Np.Finite share =>
      ret {| rm_expected_cost := expected;
             rm_min_cost := Py.int lo;
             rm_max_cost := Py.int hi;
             rm_risk_above_budget := Py.round (100 * share) 1;
             rm_safety_stock := safety_stock |}
  | _ => raise (* no scenario: [int] has already raised on the mean *)
  end.

End RawMaterial.

(** *** calculate_production_costs *)

Section Production.
Variables (target_boxes : Q) (a : production_args) (n_simulations : nat).

Definition fixed_costs : Q :=
  rent a + utilities a + equipment_depreciation a
  + certification a + internal_logistics a + it_infrastructure a
  + waste_disposal a + production_tax a + equipment_insurance a.

Definition production_trial (simulated_costs : list Q) : M G (list Q) :=
  energy_price <- Random.normal (energy_price_mean a) (energy_price_std a) ;;
  let energy_cost := energy_per_box a * target_boxes * energy_price in
  u <- Random.rand ;;
  let extra_cost :=
    if Py.ltb u (equipment_failure_rate a) then failure_extra_cost a else 0 in
  let total_cost :=
    energy_cost + maintenance_per_box a * target_boxes + fixed_costs
    + extra_cost in
  ret (simulated_costs ++ [total_cost]).

Definition production_breakdown : list (string * Q) :=
  [ ("energy"%string, energy_per_box a * target_boxes * energy_price_mean a);
    ("maintenance"%string, maintenance_per_box a * target_boxes);
    ("rent"%string, rent a);
    ("utilities"%string, utilities a);
    ("depreciation"%string, equipment_depreciation a);
    ("certification"%string, certification a);
    ("logistics"%string, internal_logistics a);
    ("it"%string, it_infrastructure a);
    ("waste"%string, waste_disposal a);
    ("tax"%string, production_tax a);
    ("insurance"%string, equipment_insurance a);
    ("failure_risk_cost"%string,
       failure_extra_cost a * equipment_failure_rate a) ].

Definition simulate_production : M G (list Q) :=
  repeat_n n_simulations production_trial [].

Definition calculate_production_costs : M G production_result :=
  simulated_costs <- simulate_production ;;
  total <- lift (Np.to_int (Np.mean simulated_costs)) ;;
  lo <- lift (Np.amin simulated_costs) ;;
  hi <- lift (Np.amax simulated_costs) ;;
  ret {| pc_total_cost := total;
         pc_min_cost := Py.int lo;
         pc_max_cost := Py.int hi;
         pc_failure_risk := Py.round (equipment_failure_rate a * 100) 1;
         pc_cost_breakdown :=
           map (fun '(k, v) => (k, Py.int v)) production_breakdown |}.

End Production.

(** *** calculate_storage_costs

    Over exact rationals the mean of the samples lies between the least
    and the greatest, and one [Py.round] stands for the builtin [round]
    (on [base_cost]) and for numpy's (on the three statistics).  The code
    takes the mean in binary64 and rounds each statistic on its own:
    [Binary64.calculate_storage_costs] follows that arithmetic. *)

Section Storage.
Variables (a : storage_args) (inventory_value : Q) (n_simulations : nat).

Definition base_fixed_costs : Q :=
  rent_per_month a + security_systems_cost a + wms_cost a + utilities_cost a
  + inventory_value * insurance_rate a / 12
  + depreciation_cost a.

Definition base_variable_costs : Q :=
  used_volume a * storage_cost_per_m3 a
  + internal_logistics_cost a
  + inventory_value * spoilage_rate a.

Definition base_cost : Q := base_fixed_costs + base_variable_costs.

(** The loop runs only for [n_simulations >= 1], so the divisions by
    [n_simulations] in its body never see a zero. *)
Definition per_trial (x : Q) : Q :=
  x / inject_Z (Z.of_nat n_simulations).

(** One scenario: three independent draws, in this order. *)
Definition storage_trial (st : list Q * storage_risks)
    : M G (list Q * storage_risks) :=
  let '(simulated_costs, risks) := st in
  let additional_costs := 0 in
  u1 <- Random.rand ;;
  let '(additional_costs, risks) :=
    if Py.ltb u1 (1 # 10) then
      let inc := rent_per_month a * rent_volatility a in
      (additional_costs + inc,
       {| rent_increase := rent_increase risks + per_trial inc;
          extra_spoilage := extra_spoilage risks;
          security_incidents := security_incidents risks |})
    else (additional_costs, risks) in
  u2 <- Random.rand ;;
  let '(additional_costs, risks) :=
    if Py.ltb u2 (spoilage_risk a) then
      let extra := inventory_value * spoilage_rate a * 2 in
      (additional_costs + extra,
       {| rent_increase := rent_increase risks;
          extra_spoilage := extra_spoilage risks + per_trial extra;
          security_incidents := security_incidents risks |})
    else (additional_costs, risks) in
  u3 <- Random.rand ;;
  let '(additional_costs, risks) :=
    if Py.ltb u3 (security_breach_risk a) then
      let loss := inventory_value * (1 # 100) in
      (additional_costs + loss,
       {| rent_increase := rent_increase risks;
          extra_spoilage := extra_spoilage risks;
          security_incidents := security_incidents risks + per_trial loss |})
    else (additional_costs, risks) in
  ret (simulated_costs ++ [base_cost + additional_costs], risks).

Definition no_risks : storage_risks :=
  {| rent_increase := 0; extra_spoilage := 0; security_incidents := 0 |}.

Definition simulate_storage : M G (list Q * storage_risks) :=
  repeat_n n_simulations storage_trial ([], no_risks).

Definition calculate_storage_costs : M G storage_result :=
  '(simulated_costs, risks) <- simulate_storage ;;
  let avg_total_cost := Np.mean simulated_costs in
  min_cost <- lift (Np.amin simulated_costs) ;;
  max_cost <- lift (Np.amax simulated_costs) ;;
  match avg_total_cost with
  | Np.Finite avg =>
      ret {| sc_base_cost := Py.round base_cost 2;
             sc_avg_total_cost := Py.round avg 2;
             sc_min_cost := Py.round min_cost 2;
             sc_max_cost := Py.round max_cost 2;
             sc_risk_breakdown := risks;
             sc_fixed_costs :=
               [ ("rent"%string, rent_per_month a);
                 ("security"%string, security_systems_cost a);
                 ("wms"%string, wms_cost a);
                 ("utilities"%string, utilities_cost a);
                 ("insurance"%string, inventory_value * insurance_rate a / 12);
                 ("depreciation"%string, depreciation_cost a) ];
             sc_variable_costs :=
               [ ("storage"%string, used_volume a * storage_cost_per_m3 a);
                 ("logistics"%string, internal_logistics_cost a);
                 ("spoilage"%string, inventory_value * spoilage_rate a) ];
             sc_risk_costs :=
               [ ("rent_increase"%string, Py.round (rent_increase risks) 2);
                 ("extra_spoilage"%string, Py.round (extra_spoilage risks) 2);
                 ("security_incidents"%string,
                    Py.round (security_incidents risks) 2) ] |}
  | _ => raise (* no scenario: [np.min] has already raised *)
  end.

End Storage.

(** *** calculate_logistics_costs *)

Section Logistics.
Variables (raw_material_volume finished_goods_volume : Q).
Variables (a : logistics_args) (n_simulations : nat).

Definition total_volume : Q := raw_material_volume + finished_goods_volume.

(** [int(np.ceil(total_volume / truck_capacity))]: a zero capacity makes the
    quotient infinite or undefined and [int] raises. *)
Definition trucks_needed : option Z :=
  Np.to_int (Np.ceil (Np.true_divide total_volume (truck_capacity a))).

Definition route : Q := distance_supplier a + distance_customer a.

(** One scenario: both strategies are costed on the same three draws. *)
Definition logistics_trial (trucks : Z) (st : list Q * list Q)
    : M G (list Q * list Q) :=
  let '(simulated_own_costs, simulated_contractor_costs) := st in
  fuel_price <- Random.normal (fuel_price_mean a) (fuel_price_std a) ;;
  u1 <- Random.rand ;;
  let is_delayed := Py.ltb u1 (contractor_delay_risk a) in
  u2 <- Random.rand ;;
  let is_damaged := Py.ltb u2 (damage_risk a) in
  let own_cost :=
    truck_cost_per_km a * route * inject_Z trucks
    + truck_fixed_cost a * inject_Z trucks
    + fuel_price * (1 # 10) * route * inject_Z trucks in
  let own_cost :=
    if is_damaged
    then own_cost + damage_cost_per_m3 a * total_volume * (1 # 2)
    else own_cost in
  let contractor_cost := contractor_cost_per_m3 a * total_volume in
  let contractor_cost :=
    if is_delayed then contractor_cost * (12 # 10) else contractor_cost in
  let contractor_cost :=
    if is_damaged
    then contractor_cost + damage_cost_per_m3 a * total_volume * (3 # 10)
    else contractor_cost in
  ret (simulated_own_costs ++ [own_cost],
       simulated_contractor_costs ++ [contractor_cost]).

(** The samples of the own fleet and of the contractor. *)
Definition simulate_logistics (trucks : Z) : M G (list Q * list Q) :=
  repeat_n n_simulations (logistics_trial trucks) ([], []).

Definition calculate_logistics_costs : M G logistics_result :=
  trucks <- lift trucks_needed ;;
  '(own, contractor) <- simulate_logistics trucks ;;
  match Np.mean own, Np.mean contractor with
  | Np.Finite mean_own_cost, Np.Finite mean_contractor_cost =>
      min_own <- lift (Np.amin own) ;;
      min_contractor <- lift (Np.amin contractor) ;;
      max_own <- lift (Np.amax own) ;;
      max_contractor <- lift (Np.amax contractor) ;;
      ret {| lc_total_cost := Py.int (Py.min mean_own_cost mean_contractor_cost);
             lc_min_cost := Py.int (Py.min min_own min_contractor);
             lc_max_cost := Py.int (Py.max max_own max_contractor);
             lc_optimal_strategy :=
               if Py.ltb mean_own_cost mean_contractor_cost
               then OwnFleet else Contractor;
             lc_delay_risk := Py.round (contractor_delay_risk a * 100) 1;
             lc_damage_risk := Py.round (damage_risk a * 100) 1;
             lc_own_breakdown :=
               [ ("transport"%string,
                    inject_Z (Py.int (truck_cost_per_km a * route * inject_Z trucks)));
                 ("fixed"%string, truck_fixed_cost a * inject_Z trucks);
                 ("fuel"%string,
                    inject_Z (Py.int (fuel_price_mean a * (1 # 10) * route
                                      * inject_Z trucks))) ];
             lc_contractor_breakdown :=
               [ ("transport"%string,
                    Py.int (contractor_cost_per_m3 a * total_volume));
                 ("delay_penalties"%string,
                    Py.int (contractor_cost_per_m3 a * total_volume * (2 # 10)
                            * contractor_delay_risk a)) ] |}
  | _, _ => raise (* no scenario: [int] raises on the undefined mean *)
  end.

End Logistics.

End Models.

(** *** calculate_labor_vs_automation (deterministic) *)

Section Labor.
Variables (target_boxes : Q) (a : labor_args).

Definition n_months : Z := (n_years a * 12)%Z.

(** The months [1 .. n_months] of [range(1, n_months + 1)]. *)
Definition months : list Z := Py.range 1 (n_months + 1).

(** The discount factor of a month.  The exact power is always defined;
    the code's float power raises [OverflowError] when it leaves the range
    of a double. *)
Definition discount (month : Z) : Q := (1 + discount_rate a / 12) ^ month.

(** [acc += monthly_cost / discount ** month] over all months. *)
Definition npv (start monthly_cost : Q) : option Q :=
  ofold months
    (fun acc month =>
       d <-? Py.div monthly_cost (discount month) ;; Some (acc + d))
    start.

(** The loop that looks for the first month at which the discounted savings
    cover the investment; it stops at that month. *)
Fixpoint break_even_from (ms : list Z) (cumulative_savings monthly_savings
    initial_robot_cost : Q) : option (option Z) :=
  match ms with
  | [] => Some None
  | month :: ms' =>
      d <-? Py.div monthly_savings (discount month) ;;
      let cumulative_savings := cumulative_savings + d in
      if Py.leb initial_robot_cost cumulative_savings then Some (Some month)
      else break_even_from ms' cumulative_savings monthly_savings
             initial_robot_cost
  end.

Definition calculate_labor_vs_automation : option labor_result :=
  n_workers <-?
    Np.to_int (Np.ceil (Np.true_divide target_boxes (workers_productivity a))) ;;
  let monthly_labor_cost :=
    inject_Z n_workers * worker_salary a * (1 + worker_tax_rate a) in
  let annual_training := worker_training_cost a * inject_Z n_workers / 12 in
  labor_cost_npv <-? npv 0 (monthly_labor_cost + annual_training) ;;
  n_robots <-?
    Np.to_int (Np.ceil (Np.true_divide target_boxes (robot_productivity a))) ;;
  let initial_robot_cost := inject_Z n_robots * robot_cost a in
  depreciation <-? Py.div initial_robot_cost (robot_lifespan a) ;;
  let monthly_robot_cost :=
    robot_maintenance a * inject_Z n_robots + robot_software_cost a
    + depreciation in
  automation_cost_npv <-? npv initial_robot_cost monthly_robot_cost ;;
  let automation_cost_npv := automation_cost_npv * (1 + risk_adjustment a) in
  let best :=
    if Py.ltb labor_cost_npv automation_cost_npv then Labor else Automation in
  break_even <-?
    match best with
    | Automation =>
        break_even_from months 0 (monthly_labor_cost - monthly_robot_cost)
          initial_robot_cost
    | Labor => Some None
    end ;;
  Some {| optimal_solution := best;
          labor_cost := Py.int labor_cost_npv;
          automation_cost := Py.int automation_cost_npv;
          break_even_months := break_even |}.

End Labor.

End Costs.

(** ** Costs.py in binary floating point

    The statistics that [calculate_storage_costs] reports are rounded to two
    decimals after the mean was taken in floating point.  This module
    follows the scenario loop and the three reported statistics of that
    function in IEEE 754 binary64, the arithmetic of Python's [float] and
    of numpy's [float64], operation by operation and in the order of the
    source.  The other entries of the report ([base_cost] and
    [cost_breakdown], rounded by the builtin [round]) are left to the exact
    model. *)

Module Binary64.
Import Effect PrimFloat.
Local Open Scope float_scope.

(** [float(n)] for an integer [0 <= n < 2^63]. *)
Definition of_nat (n : nat) : float := of_uint63 (Uint63.of_Z (Z.of_nat n)).

(** The literals [0.1] and [0.01] are the doubles nearest to one tenth and
    one hundredth, which the correctly rounded quotients give. *)
Definition tenth : float := 1 / 10.
Definition hundredth : float := 1 / 100.

(** *** numpy on vectors of doubles *)

(** [res += a[i]] over a vector, from left to right. *)
Definition add_all (a : list float) (res : float) : float := fold_left add a res.

(** [r[j] += a[i + j]] for [j = 0 .. 7], over the given number of blocks
    of eight entries; what is left of the vector is returned with the eight
    partial sums. *)
Fixpoint add_blocks (blocks : nat) (r a : list float)
    : list float * list float :=
  match blocks with
  | O => (r, a)
  | S blocks' =>
      add_blocks blocks'
        (map (fun '(x, y) => x + y) (combine r (firstn 8 a))) (skipn 8 a)
  end.

(** The summation of numpy's [add.reduce] on a contiguous vector of
    doubles: fewer than eight entries are added one by one; up to 128
    entries are added in eight interleaved partial sums, which are then
    combined in pairs, and the entries past the last full block of eight
    are added one by one; a longer vector is split in two parts, the first
    of a length that is a multiple of eight.  The sign of a zero sum is not
    followed. *)
Fixpoint pairwise_sum (fuel : nat) (a : list float) : float :=
  let n := List.length a in
  if Nat.ltb n 8 then add_all a 0
  else if Nat.leb n 128 then
    let '(r, rest) := add_blocks (n / 8 - 1) (firstn 8 a) (skipn 8 a) in
    match r with
    | [r0; r1; r2; r3; r4; r5; r6; r7] =>
        add_all rest (((r0 + r1) + (r2 + r3)) + ((r4 + r5) + (r6 + r7)))
    | _ => nan (* not reached: the vector has at least eight entries *)
    end
  else
    match fuel with
    | O => nan (* not reached: the fuel is the length of the vector *)
    | S fuel' =>
        let n2 := (n / 2 - (n / 2) mod 8)%nat in
        pairwise_sum fuel' (firstn n2 a) + pairwise_sum fuel' (skipn n2 a)
    end.

(** [np.mean]: the sum over the number of entries, [nan] on an empty
    vector. *)
Definition mean (a : list float) : float :=
  (0 + pairwise_sum (List.length a) a) / of_nat (List.length a).

(** [np.min] and [np.max]: a [nan] entry is returned as it is; an empty
    vector raises [ValueError]. *)
Definition minimum (x y : float) : float :=
  if is_nan x then x else if is_nan y then y else if y <? x then y else x.
Definition maximum (x y : float) : float :=
  if is_nan x then x else if is_nan y then y else if x <? y then y else x.

Definition amin (a : list float) : option float :=
  match a with
  | [] => None
  | x :: a' => Some (fold_left minimum a' x)
  end.

Definition amax (a : list float) : option float :=
  match a with
  | [] => None
  | x :: a' => Some (fold_left maximum a' x)
  end.

(** [np.rint]: the nearest integer, ties to even.  Below [2^52] in
    magnitude, adding and subtracting [2^52] rounds to it; from [2^52] on
    every double is an integer. *)
Definition two52 : float := 4503599627370496.

Definition rint (y : float) : float :=
  if is_nan y then y
  else if y =? 0 then y
  else if y <? 0 then
    (if - y <? two52 then - ((- y + two52) - two52) else y)
  else (if y <? two52 then (y + two52) - two52 else y).

(** [round(x, 2)] on a numpy [float64], which is what [np.mean], [np.min]
    and [np.max] return: numpy multiplies by 100, rounds to the nearest
    integer and divides by 100. *)
Definition round2 (x : float) : float := rint (x * 100) / 100.

(** *** calculate_storage_costs *)

(** [np.random.rand()]: the collaborator that draws the uniform numbers. *)
Class Uniforms (G : Type) : Type := { rand : G -> float * G }.

Record storage_args : Type := {
  storage_volume : float;
  used_volume : float;
  rent_per_month : float;
  security_systems_cost : float;
  wms_cost : float;
  utilities_cost : float;
  insurance_rate : float;
  depreciation_cost : float;
  storage_cost_per_m3 : float;
  internal_logistics_cost : float;
  spoilage_rate : float;
  rent_volatility : float;
  spoilage_risk : float;
  security_breach_risk : float
}.

Record storage_risks : Type := {
  rent_increase : float;
  extra_spoilage : float;
  security_incidents : float
}.

(** The statistics of the report. *)
Record storage_statistics : Type := {
  avg_total_cost : float;
  min_cost : float;
  max_cost : float;
  risk_breakdown : storage_risks
}.

Section Storage.
Context {G : Type} `{Uniforms G}.
Variables (a : storage_args) (inventory_value : float) (n_simulations : nat).

Definition base_fixed_costs : float :=
  rent_per_month a + security_systems_cost a + wms_cost a + utilities_cost a
  + inventory_value * insurance_rate a / 12
  + depreciation_cost a.

Definition base_variable_costs : float :=
  used_volume a * storage_cost_per_m3 a
  + internal_logistics_cost a
  + inventory_value * spoilage_rate a.

Definition base_cost : float := base_fixed_costs + base_variable_costs.

Definition per_trial (x : float) : float := x / of_nat n_simulations.

(** One scenario: three draws, in this order. *)
Definition storage_trial (st : list float * storage_risks)
    : M G (list float * storage_risks) :=
  fun g =>
    let '(simulated_costs, risks) := st in
    let additional_costs := 0 in
    let '(u1, g) := rand g in
    let '(additional_costs, risks) :=
      if u1 <? tenth then
        let inc := rent_per_month a * rent_volatility a in
        (additional_costs + inc,
         {| rent_increase := rent_increase risks + per_trial inc;
            extra_spoilage := extra_spoilage risks;
            security_incidents := security_incidents risks |})
      else (additional_costs, risks) in
    let '(u2, g) := rand g in
    let '(additional_costs, risks) :=
      if u2 <? spoilage_risk a then
        let extra := inventory_value * spoilage_rate a * 2 in
        (additional_costs + extra,
         {| rent_increase := rent_increase risks;
            extra_spoilage := extra_spoilage risks + per_trial extra;
            security_incidents := security_incidents risks |})
      else (additional_costs, risks) in
    let '(u3, g) := rand g in
    let '(additional_costs, risks) :=
      if u3 <? security_breach_risk a then
        let loss := inventory_value * hundredth in
        (additional_costs + loss,
         {| rent_increase := rent_increase risks;
            extra_spoilage := extra_spoilage risks;
            security_incidents := security_incidents risks + per_trial loss |})
      else (additional_costs, risks) in
    Some ((simulated_costs ++ [base_cost + additional_costs])%list, risks, g).

Definition no_risks : storage_risks :=
  {| rent_increase := 0; extra_spoilage := 0; security_incidents := 0 |}.

Definition simulate_storage : M G (list float * storage_risks) :=
  repeat_n n_simulations storage_trial ([], no_risks).

Definition calculate_storage_costs : M G storage_statistics :=
  ('(simulated_costs, risks) <- simulate_storage ;;
   let avg := mean simulated_costs in
   lo <- lift (amin simulated_costs) ;;
   hi <- lift (amax simulated_costs) ;;
   ret {| avg_total_cost := round2 avg;
          min_cost := round2 lo;
          max_cost := round2 hi;
          risk_breakdown := risks |})%eff.

End Storage.

(** The uniform draws of the counter generator of the exact model,
    [((37 g + 11) mod 100) / 100]. *)
#[global] Instance counter_uniforms : Uniforms Z := {|
  rand := fun g =>
    (of_uint63 (Uint63.of_Z ((g * 37 + 11) mod 100)) / 100, (g + 1)%Z)
|}.

(** The storage parameters of the script's example, with a rent of
    [500000.155] a month. *)
Definition storage_example : storage_args :=
  {| storage_volume := 1000; used_volume := 800;
     rent_per_month := 500000155 / 1000;
     security_systems_cost := 30000; wms_cost := 15000;
     utilities_cost := 20000; insurance_rate := 12 / 1000;
     depreciation_cost := 25000; storage_cost_per_m3 := 50;
     internal_logistics_cost := 50000; spoilage_rate := 1 / 100;
     rent_volatility := 15 / 100; spoilage_risk := 5 / 100;
     security_breach_risk := 2 / 100 |}.



End Binary64.

(** ** Optimization.py *)

Module Optimization.
Import Effect Costs.

Local Open Scope string_scope.

(** *** Binding the parameter dictionaries to keyword arguments *)

Definition production_required : list string :=
  [ "energy_per_box"; "maintenance_per_box"; "rent"; "utilities";
    "equipment_depreciation"; "certification"; "internal_logistics";
    "it_infrastructure"; "waste_disposal"; "production_tax";
    "equipment_insurance" ].

Definition production_optional : list string :=
  [ "energy_price_mean"; "energy_price_std"; "equipment_failure_rate";
    "failure_extra_cost" ].

Definition bind_production_args (d : Py.dict) : option production_args :=
  if Py.kwargs_ok (production_required ++ production_optional) d then
    energy_per_box <-? Py.dict_get "energy_per_box" d ;;
    maintenance_per_box <-? Py.dict_get "maintenance_per_box" d ;;
    rent <-? Py.dict_get "rent" d ;;
    utilities <-? Py.dict_get "utilities" d ;;
    equipment_depreciation <-? Py.dict_get "equipment_depreciation" d ;;
    certification <-? Py.dict_get "certification" d ;;
    internal_logistics <-? Py.dict_get "internal_logistics" d ;;
    it_infrastructure <-? Py.dict_get "it_infrastructure" d ;;
    waste_disposal <-? Py.dict_get "waste_disposal" d ;;
    production_tax <-? Py.dict_get "production_tax" d ;;
    equipment_insurance <-? Py.dict_get "equipment_insurance" d ;;
    Some {| energy_per_box := energy_per_box;
            maintenance_per_box := maintenance_per_box;
            rent := rent;
            utilities := utilities;
            equipment_depreciation := equipment_depreciation;
            certification := certification;
            internal_logistics := internal_logistics;
            it_infrastructure := it_infrastructure;
            waste_disposal := waste_disposal;
            production_tax := production_tax;
            equipment_insurance := equipment_insurance;
            energy_price_mean := Py.dict_get_default "energy_price_mean" 8 d;
            energy_price_std := Py.dict_get_default "energy_price_std" (1 # 2) d;
            equipment_failure_rate :=
              Py.dict_get_default "equipment_failure_rate" (5 # 100) d;
            failure_extra_cost :=
              Py.dict_get_default "failure_extra_cost" 100000 d |}
  else None.

Definition storage_required : list string :=
  [ "storage_volume"; "used_volume"; "rent_per_month";
    "security_systems_cost"; "wms_cost"; "utilities_cost"; "insurance_rate";
    "depreciation_cost"; "storage_cost_per_m3"; "internal_logistics_cost";
    "spoilage_rate" ].

Definition storage_optional : list string :=
  [ "rent_volatility"; "spoilage_risk"; "security_breach_risk" ].

Definition bind_storage_args (d : Py.dict) : option storage_args :=
  if Py.kwargs_ok (storage_required ++ storage_optional) d then
    storage_volume <-? Py.dict_get "storage_volume" d ;;
    used_volume <-? Py.dict_get "used_volume" d ;;
    rent_per_month <-? Py.dict_get "rent_per_month" d ;;
    security_systems_cost <-? Py.dict_get "security_systems_cost" d ;;
    wms_cost <-? Py.dict_get "wms_cost" d ;;
    utilities_cost <-? Py.dict_get "utilities_cost" d ;;
    insurance_rate <-? Py.dict_get "insurance_rate" d ;;
    depreciation_cost <-? Py.dict_get "depreciation_cost" d ;;
    storage_cost_per_m3 <-? Py.dict_get "storage_cost_per_m3" d ;;
    internal_logistics_cost <-? Py.dict_get "internal_logistics_cost" d ;;
    spoilage_rate <-? Py.dict_get "spoilage_rate" d ;;
    Some {| storage_volume := storage_volume;
            used_volume := used_volume;
            rent_per_month := rent_per_month;
            security_systems_cost := security_systems_cost;
            wms_cost := wms_cost;
            utilities_cost := utilities_cost;
            insurance_rate := insurance_rate;
            depreciation_cost := depreciation_cost;
            storage_cost_per_m3 := storage_cost_per_m3;
            internal_logistics_cost := internal_logistics_cost;
            spoilage_rate := spoilage_rate;
            rent_volatility := Py.dict_get_default "rent_volatility" (1 # 10) d;
            spoilage_risk := Py.dict_get_default "spoilage_risk" (5 # 100) d;
            security_breach_risk :=
              Py.dict_get_default "security_breach_risk" (2 # 100) d |}
  else None.

Definition logistics_required : list string :=
  [ "distance_supplier"; "distance_customer" ].

Definition logistics_optional : list string :=
  [ "truck_capacity"; "truck_cost_per_km"; "truck_fixed_cost";
    "contractor_cost_per_m3"; "contractor_delay_risk"; "fuel_price_mean";
    "fuel_price_std"; "damage_risk"; "damage_cost_per_m3" ].

Definition bind_logistics_args (d : Py.dict) : option logistics_args :=
  if Py.kwargs_ok (logistics_required ++ logistics_optional) d then
    distance_supplier <-? Py.dict_get "distance_supplier" d ;;
    distance_customer <-? Py.dict_get "distance_customer" d ;;
    Some {| distance_supplier := distance_supplier;
            distance_customer := distance_customer;
            truck_capacity := Py.dict_get_default "truck_capacity" 10 d;
            truck_cost_per_km := Py.dict_get_default "truck_cost_per_km" 50 d;
            truck_fixed_cost := Py.dict_get_default "truck_fixed_cost" 100000 d;
            contractor_cost_per_m3 :=
              Py.dict_get_default "contractor_cost_per_m3" 500 d;
            contractor_delay_risk :=
              Py.dict_get_default "contractor_delay_risk" (1 # 10) d;
            fuel_price_mean := Py.dict_get_default "fuel_price_mean" 60 d;
            fuel_price_std := Py.dict_get_default "fuel_price_std" 5 d;
            damage_risk := Py.dict_get_default "damage_risk" (5 # 100) d;
            damage_cost_per_m3 :=
              Py.dict_get_default "damage_cost_per_m3" 1000 d |}
  else None.

Definition labor_optional : list string :=
  [ "workers_productivity"; "worker_salary"; "worker_tax_rate";
    "worker_training_cost"; "robot_productivity"; "robot_cost";
    "robot_lifespan"; "robot_maintenance"; "robot_software_cost";
    "discount_rate"; "n_years"; "risk_adjustment" ].

(** [n_years] feeds [range]: it has to be an integer (see [Py.as_int] for
    the integer-valued floats, which this binding lets through). *)
Definition bind_labor_args (d : Py.dict) : option labor_args :=
  if Py.kwargs_ok labor_optional d then
    n_years <-? Py.as_int (Py.dict_get_default "n_years" 5 d) ;;
    Some {| workers_productivity :=
              Py.dict_get_default "workers_productivity" 100 d;
            worker_salary := Py.dict_get_default "worker_salary" 50000 d;
            worker_tax_rate := Py.dict_get_default "worker_tax_rate" (3 # 10) d;
            worker_training_cost :=
              Py.dict_get_default "worker_training_cost" 20000 d;
            robot_productivity := Py.dict_get_default "robot_productivity" 500 d;
            robot_cost := Py.dict_get_default "robot_cost" 1000000 d;
            robot_lifespan := Py.dict_get_default "robot_lifespan" 60 d;
            robot_maintenance := Py.dict_get_default "robot_maintenance" 20000 d;
            robot_software_cost :=
              Py.dict_get_default "robot_software_cost" 50000 d;
            discount_rate := Py.dict_get_default "discount_rate" (12 # 100) d;
            n_years := n_years;
            risk_adjustment := Py.dict_get_default "risk_adjustment" (1 # 10) d |}
  else None.

(** *** Results *)

Record cost_breakdown : Type := {
  raw_materials : Q;
  production : Q;
  storage : Q;
  logistics : Q;
  labor : Q
}.

Record risk_metrics : Type := {
  supply_risk : Q;
  production_risk : Q;
  demand_risk : Np.float64;
  total_risk : Np.float64
}.

Record total_cost_result : Type := {
  total_cost : Q;
  breakdown : cost_breakdown;
  risks : risk_metrics
}.

Record inventory_projection : Type := {
  raw_material : list Q;
  finished_goods : list Q
}.

(** *** project_inventory *)

Section ProjectInventory.
Variables (production_plan raw_material_orders : list Q).
Variables (current_inventory material_per_box : Py.dict).

Definition project_month (st : Q * Q * inventory_projection) (month : nat)
    : option (Q * Q * inventory_projection) :=
  let '(current_raw, current_goods, projection) := st in
  produced <-? nth_error production_plan month ;;
  let materials_needed := produced * Py.sum (Py.values material_per_box) in
  ordered <-? nth_error raw_material_orders month ;;
  let current_raw := current_raw + (ordered - materials_needed) in
  let current_raw := Py.max 0 current_raw in
  let sales := produced * (9 # 10) in
  let current_goods := current_goods + (produced - sales) in
  let current_goods := Py.max 0 current_goods in
  Some (current_raw, current_goods,
        {| raw_material := raw_material projection ++ [current_raw];
           finished_goods := finished_goods projection ++ [current_goods] |}).

Definition project_inventory : option inventory_projection :=
  let current_raw := Py.dict_get_default "raw_material" 0 current_inventory in
  let current_goods := Py.dict_get_default "goods" 0 current_inventory in
  st <-? ofold (seq 0 (List.length production_plan)) project_month
           (current_raw, current_goods,
            {| raw_material := []; finished_goods := [] |}) ;;
  Some (snd st).

End ProjectInventory.

(** *** The store

    [current_inventory] is one dictionary object, created by the caller and
    passed by reference to every evaluation; together with the random
    generator it is the state that the calls share. *)
Record store (G : Type) : Type := {
  inventory : Py.dict;
  gen : G
}.
Arguments inventory {G} _.
Arguments gen {G} _.

Section Aggregator.
Context {G : Type} `{RandomSource G}.

(** A cost model runs on the generator and leaves the inventory alone. *)
Definition with_gen {A : Type} (m : M G A) : M (store G) A :=
  fun st =>
    match m (gen st) with
    | Some (a, g') => Some (a, {| inventory := inventory st; gen := g' |})
    | None => None
    end.

(** [current_inventory[k]] *)
Definition inventory_get (k : string) : M (store G) Q :=
  fun st =>
    match Py.dict_get k (inventory st) with
    | Some v => Some (v, st)
    | None => None
    end.

(** [current_inventory[k] += delta] *)
Definition inventory_add (k : string) (delta : Q) : M (store G) unit :=
  old <- inventory_get k ;;
  fun st =>
    Some (tt, {| inventory := Py.dict_set k (old + delta) (inventory st);
                 gen := gen st |}).

(** *** calculate_total_cost *)

Section TotalCost.
Variables (production_plan raw_material_orders : list Q).
Variables (material_per_box base_prices price_volatility : Py.dict).
Variables (defect_rate delivery_risk safety_stock_days : Q).
Variable (n_simulations : nat).
Variables (production_params storage_params logistics_params labor_params
           : Py.dict).

Definition total_months : nat := List.length production_plan.

(** The running totals of the month loop. *)
Record totals : Type := {
  total_raw_material_cost : Q;
  total_production_cost : Q;
  total_storage_cost : Q;
  total_logistics_cost : Q;
  acc_supply_risk : Q;
  acc_production_risk : Q
}.

Definition zero_totals : totals :=
  {| total_raw_material_cost := 0;
     total_production_cost := 0;
     total_storage_cost := 0;
     total_logistics_cost := 0;
     acc_supply_risk := 0;
     acc_production_risk := 0 |}.

(** The share of one month in a risk that is averaged over the horizon;
    the loop body runs only when [total_months >= 1]. *)
Definition per_month (x : Q) : Q := x / inject_Z (Z.of_nat total_months).

(** The body of [for month in range(total_months)]. *)
Definition month_body (t : totals) (month : nat) : M (store G) totals :=
  (* 1. raw materials *)
  ordered <- lift (nth_error raw_material_orders month) ;;
  raw_material_cost <-
    with_gen (calculate_raw_material_costs ordered material_per_box
                base_prices price_volatility defect_rate delivery_risk
                safety_stock_days n_simulations) ;;
  (* 2. production *)
  produced <- lift (nth_error production_plan month) ;;
  production_args <- lift (bind_production_args production_params) ;;
  production_cost <-
    with_gen (calculate_production_costs produced production_args
                n_simulations) ;;
  (* 3. storage *)
  stock_raw <- inventory_get "raw_material" ;;
  plastic <- lift (Py.dict_get "plastic" base_prices) ;;
  stock_goods <- inventory_get "goods" ;;
  let inventory_value :=
    stock_raw * plastic
    + stock_goods * Py.dict_get_default "product_value" 1000 production_params in
  storage_args <- lift (bind_storage_args storage_params) ;;
  storage_cost <-
    with_gen (calculate_storage_costs storage_args inventory_value
                n_simulations) ;;
  (* 4. logistics *)
  logistics_args <- lift (bind_logistics_args logistics_params) ;;
  logistics_cost <-
    with_gen (calculate_logistics_costs
                (ordered * Py.sum (Py.values material_per_box) / 1000)
                (produced * (1 # 100))
                logistics_args n_simulations) ;;
  (* inventory update *)
  _ <- inventory_add "raw_material"
         (ordered - produced * Py.sum (Py.values material_per_box)) ;;
  _ <- inventory_add "goods"
         (produced
          - Py.dict_get_default "estimated_sales" (produced * (9 # 10))
              logistics_params) ;;
  ret {| total_raw_material_cost :=
           total_raw_material_cost t
           + inject_Z (rm_expected_cost raw_material_cost);
         total_production_cost :=
           total_production_cost t + inject_Z (pc_total_cost production_cost);
         total_storage_cost :=
           total_storage_cost t + sc_avg_total_cost storage_cost;
         total_logistics_cost :=
           total_logistics_cost t + inject_Z (lc_total_cost logistics_cost);
         acc_supply_risk :=
           acc_supply_risk t
           + per_month (rm_risk_above_budget raw_material_cost);
         acc_production_risk :=
           acc_production_risk t
           + per_month (pc_failure_risk production_cost) |}.

(** The baseline that cumulative production is compared with. *)
Definition target_baseline : Q :=
  inject_Z (Z.of_nat total_months)
  * Py.dict_get_default "target_boxes" 10000 production_params.

(** [max(0, (np.sum(plan) - baseline) / np.sum(plan))].  [np.sum] returns a
    numpy scalar, so the division is numpy's and does not raise on zero. *)
Definition demand_risk_of_plan : Np.float64 :=
  Np.max0 (Np.true_divide (Py.sum production_plan - target_baseline)
                          (Py.sum production_plan)).

Definition calculate_total_cost : M (store G) total_cost_result :=
  t <- for_each (seq 0 total_months) month_body zero_totals ;;
  (* 5. labor or automation, once, for the mean volume; on an empty plan
        the mean is undefined and the labor model raises on it *)
  match Np.mean production_plan with
  | Np.Finite avg_production =>
      labor_args <- lift (bind_labor_args labor_params) ;;
      labor_cost <- lift (calculate_labor_vs_automation avg_production
                            labor_args) ;;
      let chosen_cost :=
        match optimal_solution labor_cost with
        | Labor => Costs.labor_cost labor_cost
        | Automation => automation_cost labor_cost
        end in
      total_labor_cost <-
        lift (Py.div (inject_Z chosen_cost)
                     (inject_Z (Z.of_nat total_months))) ;;
      let demand := demand_risk_of_plan in
      let total :=
        Np.div_const
          (Np.add (Np.Finite (acc_supply_risk t + acc_production_risk t))
                  demand)
          3 in
      ret {| total_cost :=
               total_raw_material_cost t + total_production_cost t
               + total_storage_cost t + total_logistics_cost t
               + total_labor_cost;
             breakdown :=
               {| raw_materials := total_raw_material_cost t;
                  production := total_production_cost t;
                  storage := total_storage_cost t;
                  logistics := total_logistics_cost t;
                  labor := total_labor_cost |};
             risks :=
               {| supply_risk := acc_supply_risk t;
                  production_risk := acc_production_risk t;
                  demand_risk := demand;
                  total_risk := total |} |}
  | _ => raise
  end.

End TotalCost.

(** *** optimize_business_costs *)

(** [x[a:b]] for [0 <= a <= b] *)
Definition slice {A : Type} (a b : nat) (x : list A) : list A :=
  firstn (b - a) (skipn a x).

(** An entry of the [constraints] list.  The minimizer treats the value of
    [fun] as a vector (a scalar is a vector of length one) and requires
    every component to be non-negative when [type] is ["ineq"]. *)
Record constraint : Type := {
  ctype : string;
  cfun : list Q -> M (store G) (list Q)
}.

(** What the minimizer returns: [result.x], [result.success],
    [result.message]. *)
Record minimize_result : Type := {
  res_x : list Q;
  res_success : bool;
  res_message : string
}.

(** The dictionary returned by [optimize_business_costs]. *)
Record optimization_result : Type := {
  optimal_production : list Z;
  raw_material_orders : list Z;
  opt_total_cost : Q;
  opt_cost_breakdown : cost_breakdown;
  risk_analysis : risk_metrics;
  projection : inventory_projection;
  optimization_success : bool;
  message : string
}.

Section Optimizer.

(** [scipy.optimize.minimize(objective, initial_guess, method, bounds,
    constraints, options = maxiter)]: an external collaborator.  It may
    evaluate the objective and the constraints any number of times, each
    evaluation acting on the store. *)
Variable minimize :
  (list Q -> M (store G) Np.float64) -> list Q -> string ->
  list (Q * option Q) -> list constraint -> nat -> M (store G) minimize_result.

Variables (target_boxes : Q).
Variables (material_per_box base_prices price_volatility : Py.dict).
Variables (defect_rate delivery_risk safety_stock_days : Q).
Variable (n_simulations : nat).
Variables (production_params storage_params logistics_params labor_params
           : Py.dict).
Variables (n_months : nat) (risk_tolerance : Q).
Variable (budget_constraint : option Q).

(** [calculate_total_cost] on the two halves of a decision vector, with the
    caller's parameters. *)
Definition total_cost_of (x : list Q) : M (store G) total_cost_result :=
  calculate_total_cost (slice 0 n_months x) (slice n_months (2 * n_months) x)
    material_per_box base_prices price_volatility
    defect_rate delivery_risk safety_stock_days n_simulations
    production_params storage_params logistics_params labor_params.

Definition initial_guess : option (list Q) :=
  per_month_purchase <-?
    Py.div (target_boxes * Py.sum (Py.values material_per_box))
           (inject_Z (Z.of_nat n_months)) ;;
  Some (repeat target_boxes n_months ++ repeat per_month_purchase n_months)%list.

Definition production_nonnegative : constraint :=
  {| ctype := "ineq"; cfun := fun x => ret (slice 0 n_months x) |}.

Definition purchases_nonnegative : constraint :=
  {| ctype := "ineq";
     cfun := fun x => ret (slice n_months (2 * n_months) x) |}.

Definition within_budget (budget : Q) : constraint :=
  {| ctype := "ineq";
     cfun := fun x => r <- total_cost_of x ;; ret [budget - total_cost r] |}.

(** [if budget_constraint:] is the truth value of the argument: [None] is
    false and so is the number zero. *)
Definition truthy (budget : option Q) : bool :=
  match budget with
  | None => false
  | Some b => negb (Qeq_bool b 0)
  end.

Definition constraints : list constraint :=
  let constraints := [production_nonnegative; purchases_nonnegative] in
  if truthy budget_constraint then
    match budget_constraint with
    | Some budget => (constraints ++ [within_budget budget])%list
    | None => constraints
    end
  else constraints.

Definition target_deviation_penalty (production : list Q) : Q :=
  Py.sum (map (fun p => (p - target_boxes) ^ 2) production) * 100.

Definition risk_penalty (r : total_cost_result) : Np.float64 :=
  Np.scale (Np.max0 (Np.sub (total_risk (risks r)) (Np.Finite risk_tolerance)))
           1000000.

Definition objective (x : list Q) : M (store G) Np.float64 :=
  let production := slice 0 n_months x in
  cost_result <- total_cost_of x ;;
  ret (Np.add
         (Np.Finite (total_cost cost_result
                     + target_deviation_penalty production))
         (risk_penalty cost_result)).

Definition bounds : list (Q * option Q) := repeat (0, None) (2 * n_months).

(** Step 5: the report on the plan the minimizer returned.  The costs are
    computed once more, and the projection starts from the inventory as all
    the evaluations have left it.  The rounded plan is a list of unbounded
    integers; the code's [.astype(int)] wraps past the 64-bit range. *)
Definition report (result : minimize_result) : M (store G) optimization_result :=
  let optimal := slice 0 n_months (res_x result) in
  let orders := slice n_months (2 * n_months) (res_x result) in
  final_cost <- total_cost_of (res_x result) ;;
  inventory_projection <-
    (fun st =>
       lift (project_inventory optimal orders (inventory st) material_per_box)
            st) ;;
  ret {| optimal_production := map Py.rint optimal;
         raw_material_orders := map Py.rint orders;
         opt_total_cost := total_cost final_cost;
         opt_cost_breakdown := breakdown final_cost;
         risk_analysis := risks final_cost;
         projection := inventory_projection;
         optimization_success := res_success result;
         message := res_message result |}.

Definition optimize_business_costs : M (store G) optimization_result :=
  guess <- lift initial_guess ;;
  result <- minimize objective guess "SLSQP" bounds constraints 1000%nat ;;
  report result.

End Optimizer.

End Aggregator.

End Optimization.

(** ** A concrete run

    A deterministic generator and the parameter set of the script's own
    example (with a short horizon and few scenarios), to evaluate the models
    on. *)

Module Example.
Import Effect Costs Optimization.

Local Open Scope string_scope.

(** A generator whose state is a counter: the uniform draws cycle through
    hundredths, the normal draws through [loc + scale * k / 3] for
    [k = -3 .. 3]. *)
#[export] Instance counter_source : RandomSource Z := {|
  draw_normal := fun loc scale g =>
    (loc + scale * inject_Z ((g * 5 + 2) mod 7 - 3) / 3, (g + 1)%Z);
  draw_uniform := fun g =>
    (inject_Z ((g * 37 + 11) mod 100) / 100, (g + 1)%Z)
|}.

Definition material_per_box : Py.dict :=
  [("plastic", 2); ("dye", 1 # 2); ("packaging", 1 # 10)].
Definition base_prices : Py.dict :=
  [("plastic", 100); ("dye", 200); ("packaging", 50)].
Definition price_volatility : Py.dict :=
  [("plastic", 15 # 100); ("dye", 10 # 100); ("packaging", 5 # 100)].

Definition production_params : Py.dict :=
  [ ("energy_per_box", 25 # 10); ("maintenance_per_box", 30);
    ("rent", 500000); ("utilities", 200000);
    ("equipment_depreciation", 250000); ("certification", 50000);
    ("internal_logistics", 100000); ("it_infrastructure", 150000);
    ("waste_disposal", 30000); ("production_tax", 50000);
    ("equipment_insurance", 100000); ("energy_price_mean", 8);
    ("energy_price_std", 8 # 10); ("equipment_failure_rate", 5 # 100);
    ("failure_extra_cost", 200000) ].

Definition storage_params : Py.dict :=
  [ ("storage_volume", 1000); ("used_volume", 800);
    ("rent_per_month", 500000); ("security_systems_cost", 30000);
    ("wms_cost", 15000); ("utilities_cost", 20000);
    ("insurance_rate", 12 # 1000); ("depreciation_cost", 25000);
    ("storage_cost_per_m3", 50); ("internal_logistics_cost", 50000);
    ("spoilage_rate", 1 # 100); ("rent_volatility", 15 # 100);
    ("spoilage_risk", 5 # 100); ("security_breach_risk", 2 # 100) ].

Definition logistics_params : Py.dict :=
  [ ("distance_supplier", 300); ("distance_customer", 200);
    ("truck_capacity", 12); ("truck_cost_per_km", 45);
    ("truck_fixed_cost", 80000); ("contractor_cost_per_m3", 550);
    ("contractor_delay_risk", 15 # 100); ("fuel_price_mean", 60);
    ("fuel_price_std", 5); ("damage_risk", 5 # 100);
    ("damage_cost_per_m3", 1000) ].

Definition labor_params : Py.dict :=
  [ ("workers_productivity", 120); ("worker_salary", 60000);
    ("worker_tax_rate", 3 # 10); ("worker_training_cost", 20000);
    ("robot_productivity", 600); ("robot_cost", 1200000);
    ("robot_lifespan", 84); ("robot_maintenance", 20000);
    ("robot_software_cost", 50000); ("discount_rate", 12 # 100);
    ("n_years", 1); ("risk_adjustment", 1 # 10) ].

Definition current_inventory : Py.dict :=
  [("raw_material", 5000); ("goods", 2000)].

Definition initial_store : store Z :=
  {| inventory := current_inventory; gen := 0%Z |}.

(** [calculate_total_cost] on a plan, with the example's parameters and
    three scenarios per model. *)
Abbreviation total_cost_on plan orders st :=
  (calculate_total_cost plan orders material_per_box base_prices
     price_volatility (5 # 100) (1 # 10) 7 3%nat
     production_params storage_params logistics_params labor_params st).

(** The objective of [optimize_business_costs] for a target of 10000 boxes
    over [n_months] months, with a risk tolerance of 0.15. *)
Abbreviation objective_on n_months x st :=
  (objective 10000 material_per_box base_prices price_volatility
     (5 # 100) (1 # 10) 7 3%nat
     production_params storage_params logistics_params labor_params
     n_months (15 # 100) x st).


Definition storage_example : storage_args :=
  {| storage_volume := 1000; used_volume := 800; rent_per_month := 500000;
     security_systems_cost := 30000; wms_cost := 15000;
     utilities_cost := 20000; insurance_rate := 12 # 1000;
     depreciation_cost := 25000; storage_cost_per_m3 := 50;
     internal_logistics_cost := 50000; spoilage_rate := 1 # 100;
     rent_volatility := 15 # 100; spoilage_risk := 5 # 100;
     security_breach_risk := 2 # 100 |}.

Definition logistics_example : logistics_args :=
  {| distance_supplier := 300; distance_customer := 200;
     truck_capacity := 12; truck_cost_per_km := 45;
     truck_fixed_cost := 80000; contractor_cost_per_m3 := 550;
     contractor_delay_risk := 15 # 100; fuel_price_mean := 60;
     fuel_price_std := 5; damage_risk := 5 # 100;
     damage_cost_per_m3 := 1000 |}.

Definition labor_example : labor_args :=
  {| workers_productivity := 120; worker_salary := 60000;
     worker_tax_rate := 3 # 10; worker_training_cost := 20000;
     robot_productivity := 600; robot_cost := 1200000;
     robot_lifespan := 84; robot_maintenance := 20000;
     robot_software_cost := 50000; discount_rate := 12 # 100;
     n_years := 1; risk_adjustment := 1 # 10 |}.

(** A minimizer that evaluates the objective at the initial guess and
    returns the guess. *)
Definition one_step_minimize
    (objective : list Q -> M (store Z) Np.float64) (guess : list Q)
    (method : string) (bounds : list (Q * option Q))
    (constraints : list (@constraint Z)) (maxiter : nat)
    : M (store Z) minimize_result :=
  _ <- objective guess ;;
  ret {| res_x := guess; res_success := true; res_message := "one step" |}.

End Example.


(** ** Vocabulary of the statements *)

Module Spec.
Import Costs Optimization.

Local Open Scope string_scope.

(** The number of samples of a vector, as a rational. *)
Definition count (l : list Q) : Q := inject_Z (Z.of_nat (List.length l)).

(** The parameter sets on which the raw-material model raises nothing:
    every priced material has a volatility and a consumption rate, and no
    standard deviation is negative. *)
Definition priced_materials (mpb bp pv : Py.dict) : Prop :=
  Forall (fun m => exists b v q,
            Py.dict_get m bp = Some b /\ Py.dict_get m pv = Some v
            /\ 0 <= b * v /\ Py.dict_get m mpb = Some q)
         (Py.keys bp).

(** Net change of the two stocks in one month: purchases minus the raw
    material that the month's production consumes, and production minus
    the assumed sales of nine tenths of it. *)
Definition raw_delta (production_plan raw_material_orders : list Q)
    (material_per_box : Py.dict) (month : nat) : Q :=
  nth month raw_material_orders 0
  - nth month production_plan 0 * Py.sum (Py.values material_per_box).

Definition goods_delta (production_plan : list Q) (month : nat) : Q :=
  nth month production_plan 0 - nth month production_plan 0 * (9 # 10).

(** The baseline of a run that returns: the number of months times the
    default target of 10000 boxes. *)
Definition default_baseline (production_plan : list Q) : Q :=
  inject_Z (Z.of_nat (List.length production_plan)) * 10000.

(** Every level of a projection is non-negative. *)
Definition nonnegative_levels (p : inventory_projection) : Prop :=
  Forall (fun level => 0 <= level) (raw_material p)
  /\ Forall (fun level => 0 <= level) (finished_goods p).

(** The parameter sets on which [calculate_total_cost] raises nothing: a
    plan of at least one month with an order for every month, at least one
    scenario, priced materials among which is plastic, and parameter
    dictionaries that bind to keyword arguments without a negative standard
    deviation or a zero divisor. *)
Definition runnable (plan orders : list Q) (mpb bp pv : Py.dict) (n : nat)
    (pp sp lp lap : Py.dict) : Prop :=
  plan <> []
  /\ (List.length plan <= List.length orders)%nat
  /\ (1 <= n)%nat
  /\ priced_materials mpb bp pv
  /\ (exists plastic, Py.dict_get "plastic" bp = Some plastic)
  /\ (exists a, bind_production_args pp = Some a /\ 0 <= energy_price_std a)
  /\ (exists a, bind_storage_args sp = Some a)
  /\ (exists a, bind_logistics_args lp = Some a
                /\ 0 <= fuel_price_std a /\ ~ truck_capacity a == 0)
  /\ (exists a, bind_labor_args lap = Some a
                /\ ~ workers_productivity a == 0
                /\ ~ robot_productivity a == 0
                /\ ~ robot_lifespan a == 0
                /\ ~ 1 + discount_rate a / 12 == 0).

(** The parameter sets on which [calculate_total_cost] raises nothing,
    exactly: as [runnable], but the discount factor has to be non-zero only
    when the horizon of the labor model has a month. *)
Definition accepted (plan orders : list Q) (mpb bp pv : Py.dict) (n : nat)
    (pp sp lp lap : Py.dict) : Prop :=
  plan <> []
  /\ (List.length plan <= List.length orders)%nat
  /\ (1 <= n)%nat
  /\ priced_materials mpb bp pv
  /\ (exists plastic, Py.dict_get "plastic" bp = Some plastic)
  /\ (exists a, bind_production_args pp = Some a /\ 0 <= energy_price_std a)
  /\ (exists a, bind_storage_args sp = Some a)
  /\ (exists a, bind_logistics_args lp = Some a
                /\ 0 <= fuel_price_std a /\ ~ truck_capacity a == 0)
  /\ (exists a, bind_labor_args lap = Some a
                /\ ~ workers_productivity a == 0
                /\ ~ robot_productivity a == 0
                /\ ~ robot_lifespan a == 0
                /\ ((1 <= n_years a)%Z -> ~ 1 + discount_rate a / 12 == 0)).

(** An inventory that has both stocks. *)
Definition stocked (inv : Py.dict) : Prop :=
  (exists raw, Py.dict_get "raw_material" inv = Some raw)
  /\ (exists goods, Py.dict_get "goods" inv = Some goods).

(** The three surcharges that a scenario of the storage model can add to
    the base cost: the rent increase, the extra spoilage and the security
    loss. *)
Definition rent_surcharge (a : storage_args) : Q :=
  rent_per_month a * rent_volatility a.

Definition spoilage_surcharge (a : storage_args) (inventory_value : Q) : Q :=
  inventory_value * spoilage_rate a * 2.

Definition security_surcharge (inventory_value : Q) : Q :=
  inventory_value * (1 # 100).

(** The three events of one storage scenario (a higher rent, more
    spoilage, a security incident), as three uniform draws decide them in
    this order, and the generator that the scenario leaves. *)
Definition scenario_events {G : Type} `{RandomSource G} (a : storage_args)
    (g : G) : (bool * bool * bool) * G :=
  let '(u1, g1) := draw_uniform g in
  let '(u2, g2) := draw_uniform g1 in
  let '(u3, g3) := draw_uniform g2 in
  ((Py.ltb u1 (1 # 10), Py.ltb u2 (spoilage_risk a),
    Py.ltb u3 (security_breach_risk a)), g3).

(** The events of [n] scenarios in a row, from the generator [g]. *)
Fixpoint storage_events {G : Type} `{RandomSource G} (a : storage_args)
    (n : nat) (g : G) : list (bool * bool * bool) :=
  match n with
  | O => []
  | S n' =>
      let '(e, g') := scenario_events a g in e :: storage_events a n' g'
  end.

Definition rent_hit (e : bool * bool * bool) : bool := fst (fst e).
Definition spoilage_hit (e : bool * bool * bool) : bool := snd (fst e).
Definition security_hit (e : bool * bool * bool) : bool := snd e.

(** The number of scenarios in which an event happened. *)
Definition hits (event : bool * bool * bool -> bool)
    (events : list (bool * bool * bool)) : nat :=
  List.length (filter event events).

(** The discounted savings of the first [j] months of a list. *)
Definition saved (a : labor_args) (savings : Q) (ms : list Z) (j : nat) : Q :=
  Py.sum (map (fun month => savings / discount a month) (firstn j ms)).

(** The discounted savings of the first [k] months of the horizon, as the
    break-even loop accumulates them. *)
Definition cumulative_savings (a : labor_args) (monthly_savings : Q)
    (k : nat) : Q :=
  Py.sum (map (fun month => monthly_savings / discount a month)
              (firstn k (months a))).

(** The quantities that [calculate_labor_vs_automation] computes on its
    way, under the names the source gives them. *)
Definition n_workers (target_boxes : Q) (a : labor_args) : option Z :=
  Np.to_int (Np.ceil (Np.true_divide target_boxes (workers_productivity a))).

Definition n_robots (target_boxes : Q) (a : labor_args) : option Z :=
  Np.to_int (Np.ceil (Np.true_divide target_boxes (robot_productivity a))).

Definition monthly_labor_cost (a : labor_args) (workers : Z) : Q :=
  inject_Z workers * worker_salary a * (1 + worker_tax_rate a).

Definition annual_training (a : labor_args) (workers : Z) : Q :=
  worker_training_cost a * inject_Z workers / 12.

Definition initial_robot_cost (a : labor_args) (robots : Z) : Q :=
  inject_Z robots * robot_cost a.

Definition monthly_robot_cost (a : labor_args) (robots : Z) : Q :=
  robot_maintenance a * inject_Z robots + robot_software_cost a
  + initial_robot_cost a robots / robot_lifespan a.

(** A natural number as a rational. *)
Definition qnat (k : nat) : Q := inject_Z (Z.of_nat k).

(** The surcharge of a risk event that has or has not happened. *)
Definition pick (hit : bool) (surcharge : Q) : Q := if hit then surcharge else 0.

(** The finished-goods levels of a plan from a starting stock, month after
    month: a tenth of the month's production is added (the sales are nine
    tenths of it) and the level is clipped at zero. *)
Fixpoint goods_levels (production_plan : list Q) (goods : Q) : list Q :=
  match production_plan with
  | [] => []
  | produced :: plan' =>
      let level := Py.max 0 (goods + (produced - produced * (9 # 10))) in
      level :: goods_levels plan' level
  end.

(** A vector whose entries never decrease. *)
Fixpoint nondecreasing (l : list Q) : Prop :=
  match l with
  | [] => True
  | x :: l' =>
      match l' with
      | [] => True
      | y :: _ => x <= y /\ nondecreasing l'
      end
  end.

End Spec.

(** * Properties *)

(** ** Arithmetic of the primitives *)

Module PyFacts.

Lemma ltb_true (a b : Q) : Py.ltb a b = true <-> a < b.
Proof.
  unfold Py.ltb. rewrite negb_true_iff. split; intro Hab.
  - apply Qnot_le_lt. intro Hle. apply Qle_bool_iff in Hle. congruence.
  - destruct (Qle_bool b a) eqn:E; [|reflexivity].
    apply Qle_bool_iff in E. lra.
Qed.

Lemma ltb_false (a b : Q) : Py.ltb a b = false <-> b <= a.
Proof.
  unfold Py.ltb. rewrite negb_false_iff. apply Qle_bool_iff.
Qed.

(** Case analysis on a Python comparison. *)
Ltac case_ltb a b :=
  let E := fresh "E" in
  destruct (Py.ltb a b) eqn:E;
  [apply ltb_true in E | apply ltb_false in E].

Lemma max_spec (a b : Q) : Py.max a b == Qmax a b.
Proof.
  unfold Py.max. case_ltb a b.
  - symmetry. apply Q.max_r. lra.
  - symmetry. apply Q.max_l. lra.
Qed.

Lemma min_spec (a b : Q) : Py.min a b == Qmin a b.
Proof.
  unfold Py.min. case_ltb b a.
  - symmetry. apply Q.min_r. lra.
  - symmetry. apply Q.min_l. lra.
Qed.

Lemma max_nonneg (x : Q) : 0 <= Py.max 0 x.
Proof. unfold Py.max. case_ltb 0 x; lra. Qed.

(** [int] respects equality of rationals and is monotone. *)
Lemma int_comp (a b : Q) : a == b -> Py.int a = Py.int b.
Proof.
  intro Hab. unfold Py.int.
  case_ltb a 0; case_ltb b 0; try lra.
  - now apply Qceiling_comp.
  - now apply Qfloor_comp.
Qed.

Lemma floor_nonneg (a : Q) : 0 <= a -> (0 <= Qfloor a)%Z.
Proof.
  intro Ha. change 0%Z with (Qfloor 0). now apply Qfloor_resp_le.
Qed.

Lemma ceiling_nonpos (a : Q) : a <= 0 -> (Qceiling a <= 0)%Z.
Proof.
  intro Ha. change 0%Z with (Qceiling 0). now apply Qceiling_resp_le.
Qed.

Lemma int_mono (a b : Q) : a <= b -> (Py.int a <= Py.int b)%Z.
Proof.
  intro Hab. unfold Py.int.
  case_ltb a 0; case_ltb b 0.
  - now apply Qceiling_resp_le.
  - transitivity 0%Z; [apply ceiling_nonpos; lra | now apply floor_nonneg].
  - lra.
  - now apply Qfloor_resp_le.
Qed.

(** The fractional part that [rint] looks at. *)
Lemma frac_bounds (x : Q) :
  0 <= x - inject_Z (Qfloor x) /\ x - inject_Z (Qfloor x) < 1.
Proof.
  pose proof (Qfloor_le x) as Hlo. pose proof (Qlt_floor x) as Hhi.
  rewrite inject_Z_plus in Hhi. change (inject_Z 1) with 1 in Hhi.
  split; lra.
Qed.

Lemma rint_bounds (x : Q) : (Qfloor x <= Py.rint x <= Qfloor x + 1)%Z.
Proof.
  unfold Py.rint. cbv zeta.
  destruct (Py.ltb _ _); [lia|].
  destruct (Py.ltb _ _); [lia|].
  destruct (Z.even _); lia.
Qed.

Lemma rint_mono (a b : Q) : a <= b -> (Py.rint a <= Py.rint b)%Z.
Proof.
  intro Hab.
  pose proof (Qfloor_resp_le _ _ Hab) as Hfl.
  destruct (Z.eq_dec (Qfloor a) (Qfloor b)) as [Heq | Hne].
  - unfold Py.rint. cbv zeta. rewrite Heq.
    assert (Hfrac : a - inject_Z (Qfloor b) <= b - inject_Z (Qfloor b)) by lra.
    case_ltb (a - inject_Z (Qfloor b)) (1 # 2);
      case_ltb (b - inject_Z (Qfloor b)) (1 # 2); try lia; try lra.
    + case_ltb (1 # 2) (b - inject_Z (Qfloor b)); [lia|].
      destruct (Z.even (Qfloor b)); lia.
    + case_ltb (1 # 2) (a - inject_Z (Qfloor b));
        case_ltb (1 # 2) (b - inject_Z (Qfloor b)); try lia; try lra.
      destruct (Z.even (Qfloor b)); lia.
  - pose proof (rint_bounds a). pose proof (rint_bounds b). lia.
Qed.

Lemma scale_pos (n : nat) : 0 < inject_Z (10 ^ Z.of_nat n).
Proof.
  change 0 with (inject_Z 0). rewrite <- Zlt_Qlt.
  apply Z.pow_pos_nonneg; lia.
Qed.

Lemma round_mono (a b : Q) (n : nat) : a <= b -> Py.round a n <= Py.round b n.
Proof.
  intro Hab. unfold Py.round. cbv zeta.
  pose proof (scale_pos n) as Hs.
  set (s := inject_Z (10 ^ Z.of_nat n)) in *.
  assert (Hm : a * s <= b * s) by (apply Qmult_le_compat_r; lra).
  apply rint_mono in Hm. rewrite Zle_Qle in Hm.
  unfold Qdiv. apply Qmult_le_compat_r; [exact Hm|].
  apply Qlt_le_weak, Qinv_lt_0_compat, Hs.
Qed.

End PyFacts.

(** ** Sums, extrema and means of sample vectors *)

Module NpFacts.
Import PyFacts Spec.

Lemma fold_plus_acc (l : list Q) (a : Q) :
  fold_left Qplus l a == a + fold_left Qplus l 0.
Proof.
  revert a. induction l as [|x l IH]; intro a; simpl.
  - lra.
  - rewrite IH. rewrite (IH (0 + x)). lra.
Qed.

Lemma sum_nil : Py.sum [] == 0.
Proof. reflexivity. Qed.

Lemma sum_cons (x : Q) (l : list Q) : Py.sum (x :: l) == x + Py.sum l.
Proof. unfold Py.sum. simpl. rewrite fold_plus_acc. lra. Qed.

Lemma fold_min_le_acc (l : list Q) (a : Q) : fold_left Qmin l a <= a.
Proof.
  revert a. induction l as [|x l IH]; intro a; simpl.
  - lra.
  - eapply Qle_trans; [apply IH | apply Q.le_min_l].
Qed.

Lemma fold_min_lower (l : list Q) (a : Q) :
  Forall (fun y => fold_left Qmin l a <= y) l.
Proof.
  revert a. induction l as [|x l IH]; intro a; simpl; constructor.
  - eapply Qle_trans; [apply fold_min_le_acc | apply Q.le_min_r].
  - apply IH.
Qed.

Lemma fold_max_ge_acc (l : list Q) (a : Q) : a <= fold_left Qmax l a.
Proof.
  revert a. induction l as [|x l IH]; intro a; simpl.
  - lra.
  - eapply Qle_trans; [apply Q.le_max_l | apply IH].
Qed.

Lemma fold_max_upper (l : list Q) (a : Q) :
  Forall (fun y => y <= fold_left Qmax l a) l.
Proof.
  revert a. induction l as [|x l IH]; intro a; simpl; constructor.
  - eapply Qle_trans; [apply Q.le_max_r | apply fold_max_ge_acc].
  - apply IH.
Qed.

Lemma min_lower (l : list Q) (lo : Q) :
  Np.amin l = Some lo -> Forall (fun y => lo <= y) l.
Proof.
  destruct l as [|x l]; simpl; [discriminate|].
  intros [= <-]. constructor.
  - apply fold_min_le_acc.
  - apply fold_min_lower.
Qed.

Lemma max_upper (l : list Q) (hi : Q) :
  Np.amax l = Some hi -> Forall (fun y => y <= hi) l.
Proof.
  destruct l as [|x l]; simpl; [discriminate|].
  intros [= <-]. constructor.
  - apply fold_max_ge_acc.
  - apply fold_max_upper.
Qed.

Lemma count_cons (x : Q) (l : list Q) : count (x :: l) == 1 + count l.
Proof.
  unfold count. simpl List.length. rewrite Nat2Z.inj_succ.
  unfold Z.succ. rewrite inject_Z_plus. change (inject_Z 1) with 1. lra.
Qed.

Lemma count_nonneg (l : list Q) : 0 <= count l.
Proof.
  unfold count. change 0 with (inject_Z 0). rewrite <- Zle_Qle. lia.
Qed.

Lemma sum_lower (l : list Q) (lo : Q) :
  Forall (fun y => lo <= y) l -> count l * lo <= Py.sum l.
Proof.
  induction 1 as [|x l Hx _ IH].
  - rewrite sum_nil. change (count []) with 0. lra.
  - rewrite sum_cons, count_cons. lra.
Qed.

Lemma sum_upper (l : list Q) (hi : Q) :
  Forall (fun y => y <= hi) l -> Py.sum l <= count l * hi.
Proof.
  induction 1 as [|x l Hx _ IH].
  - rewrite sum_nil. change (count []) with 0. lra.
  - rewrite sum_cons, count_cons. lra.
Qed.

Lemma count_pos (l : list Q) : l <> [] -> 0 < count l.
Proof.
  destruct l as [|x l]; [congruence|]. intros _.
  rewrite count_cons. pose proof (count_nonneg l). lra.
Qed.

(** The mean of a non-empty vector is finite and is the sum over the
    number of samples. *)
Lemma mean_finite (l : list Q) :
  l <> [] -> Np.mean l = Np.Finite (Py.sum l / count l).
Proof.
  intro Hl. unfold Np.mean, Np.true_divide. fold (count l).
  destruct (Qeq_bool (count l) 0) eqn:E; [|reflexivity].
  apply Qeq_bool_eq in E. pose proof (count_pos l Hl). lra.
Qed.

Lemma mean_finite_inv (l : list Q) (m : Q) :
  Np.mean l = Np.Finite m -> l <> [] /\ m = Py.sum l / count l.
Proof.
  intro Hm. destruct l as [|x l]; [discriminate|].
  rewrite mean_finite in Hm by discriminate.
  split; [discriminate | congruence].
Qed.


(** Extrema of the union of two sample vectors. *)
Lemma fold_min_comp (l : list Q) (a a' : Q) :
  a == a' -> fold_left Qmin l a == fold_left Qmin l a'.
Proof.
  revert a a'. induction l as [|x l IH]; intros a a' Ha; simpl.
  - exact Ha.
  - apply IH. now rewrite Ha.
Qed.

Lemma fold_min_min (l : list Q) (a b : Q) :
  fold_left Qmin l (Qmin a b) == Qmin a (fold_left Qmin l b).
Proof.
  revert b. induction l as [|x l IH]; intro b; simpl.
  - reflexivity.
  - rewrite <- IH. apply fold_min_comp. symmetry. apply Q.min_assoc.
Qed.

Lemma fold_max_comp (l : list Q) (a a' : Q) :
  a == a' -> fold_left Qmax l a == fold_left Qmax l a'.
Proof.
  revert a a'. induction l as [|x l IH]; intros a a' Ha; simpl.
  - exact Ha.
  - apply IH. now rewrite Ha.
Qed.

Lemma fold_max_max (l : list Q) (a b : Q) :
  fold_left Qmax l (Qmax a b) == Qmax a (fold_left Qmax l b).
Proof.
  revert b. induction l as [|x l IH]; intro b; simpl.
  - reflexivity.
  - rewrite <- IH. apply fold_max_comp. symmetry. apply Q.max_assoc.
Qed.

Lemma min_union (l1 l2 : list Q) (lo1 lo2 : Q) :
  Np.amin l1 = Some lo1 -> Np.amin l2 = Some lo2 ->
  exists lo, Np.amin (l1 ++ l2) = Some lo /\ Py.min lo1 lo2 == lo.
Proof.
  destruct l1 as [|x1 l1]; [discriminate|].
  destruct l2 as [|x2 l2]; [discriminate|].
  simpl. intros [= <-] [= <-]. eexists. split; [reflexivity|].
  rewrite min_spec, fold_left_app. simpl. now rewrite fold_min_min.
Qed.

Lemma max_union (l1 l2 : list Q) (hi1 hi2 : Q) :
  Np.amax l1 = Some hi1 -> Np.amax l2 = Some hi2 ->
  exists hi, Np.amax (l1 ++ l2) = Some hi /\ Py.max hi1 hi2 == hi.
Proof.
  destruct l1 as [|x1 l1]; [discriminate|].
  destruct l2 as [|x2 l2]; [discriminate|].
  simpl. intros [= <-] [= <-]. eexists. split; [reflexivity|].
  rewrite max_spec, fold_left_app. simpl. now rewrite fold_max_max.
Qed.

End NpFacts.

(** ** Reasoning about computations that return *)

Module EffectFacts.
Import Effect.

Section Inversion.
Context {S A B : Type}.

Lemma bind_inv (m : M S A) (f : A -> M S B) (s s' : S) (b : B) :
  bind m f s = Some (b, s') ->
  exists a s1, m s = Some (a, s1) /\ f a s1 = Some (b, s').
Proof.
  unfold bind. destruct (m s) as [[a s1]|]; [|discriminate].
  intro Hf. now exists a, s1.
Qed.

Lemma ret_inv (a b : A) (s s' : S) :
  ret a s = Some (b, s') -> b = a /\ s' = s.
Proof. unfold ret. intros [= -> ->]. now split. Qed.

Lemma lift_inv (o : option A) (a : A) (s s' : S) :
  lift o s = Some (a, s') -> o = Some a /\ s' = s.
Proof. unfold lift. destruct o; [|discriminate]. intros [= -> ->]. now split. Qed.

Lemma raise_inv (r : A * S) (s : S) : @raise S A s = Some r -> False.
Proof. discriminate. Qed.

Lemma obind_inv (o : option A) (f : A -> option B) (b : B) :
  obind o f = Some b -> exists a, o = Some a /\ f a = Some b.
Proof. destruct o as [a|]; [|discriminate]. intro Hf. now exists a. Qed.

End Inversion.

(** Break a successful run into the runs of its steps. *)
Ltac inv_run :=
  repeat match goal with
  | H : bind _ _ _ = Some (_, _) |- _ =>
      let a := fresh "a" in
      let s := fresh "s" in
      let Hm := fresh "Hm" in
      apply bind_inv in H; destruct H as (a & s & Hm & H)
  | H : ret _ _ = Some (_, _) |- _ =>
      apply ret_inv in H; destruct H as [? ?]; subst
  | H : lift _ _ = Some (_, _) |- _ =>
      apply lift_inv in H; destruct H as [H ?]; subst
  | H : raise _ = Some _ |- _ => exfalso; exact (raise_inv _ _ H)
  | H : obind _ _ = Some _ |- _ =>
      let a := fresh "a" in
      let Ho := fresh "Ho" in
      apply obind_inv in H; destruct H as (a & Ho & H)
  | H : Some _ = Some _ |- _ => injection H as H; subst
  | H : None = Some _ |- _ => discriminate H
  end.

End EffectFacts.

(** ** The Monte Carlo cost models *)

Module CostsFacts.
Import Effect EffectFacts Costs PyFacts NpFacts Spec.

Section Models.
Context {G : Type} `{RandomSource G}.

(** Every scenario loop appends one sample per round. *)
Lemma repeat_n_length {B : Type} (samples : B -> list Q) (body : B -> M G B)
    (Hbody : forall b g b' g',
        body b g = Some (b', g') ->
        List.length (samples b') = Datatypes.S (List.length (samples b)))
    (n : nat) :
  forall b g b' g',
    repeat_n n body b g = Some (b', g') ->
    List.length (samples b') = (n + List.length (samples b))%nat.
Proof.
  induction n as [|n IH]; intros b g b' g' Hrun; simpl in Hrun.
  - inv_run. reflexivity.
  - inv_run. apply Hbody in Hm. apply IH in Hrun. rewrite Hrun, Hm. lia.
Qed.

(** A loop whose body always returns, returns. *)
Lemma repeat_n_returns {B : Type} (body : B -> M G B)
    (Hbody : forall b g, exists b' g', body b g = Some (b', g'))
    (n : nat) :
  forall b g, exists b' g', repeat_n n body b g = Some (b', g').
Proof.
  induction n as [|n IH]; intros b g; simpl.
  - now exists b, g.
  - destruct (Hbody b g) as (b1 & g1 & Hb). unfold bind. rewrite Hb. apply IH.
Qed.

Lemma for_each_returns {A B : Type} (body : B -> A -> M G B) (l : list A) :
  Forall (fun a => forall b g, exists b' g', body b a g = Some (b', g')) l ->
  forall b g, exists b' g', for_each l body b g = Some (b', g').
Proof.
  induction 1 as [|a l Ha _ IH]; intros b g; simpl.
  - now exists b, g.
  - destruct (Ha b g) as (b1 & g1 & Hb). unfold bind. rewrite Hb. apply IH.
Qed.

Lemma nonempty_of_length (l : list Q) (n : nat) :
  List.length l = n -> (1 <= n)%nat -> l <> [].
Proof. destruct l; simpl; [lia | discriminate]. Qed.

Lemma min_returns (l : list Q) : l <> [] -> exists lo, Np.amin l = Some lo.
Proof. destruct l; [congruence | eexists; reflexivity]. Qed.

Lemma max_returns (l : list Q) : l <> [] -> exists hi, Np.amax l = Some hi.
Proof. destruct l; [congruence | eexists; reflexivity]. Qed.

Lemma normal_returns (loc scale : Q) (g : G) :
  0 <= scale -> exists x g', Random.normal loc scale g = Some (x, g').
Proof.
  intro Hs. unfold Random.normal.
  destruct (Py.ltb scale 0) eqn:E.
  - apply ltb_true in E. lra.
  - destruct (draw_normal loc scale g) as [x g']. now exists x, g'.
Qed.

Lemma rand_returns (g : G) : exists u g', Random.rand g = Some (u, g').
Proof.
  unfold Random.rand. destruct (draw_uniform g) as [u g']. now exists u, g'.
Qed.

(** *** calculate_production_costs *)


Lemma production_trial_returns tb a (l : list Q) (g : G) :
  0 <= energy_price_std a ->
  exists l' g', production_trial tb a l g = Some (l', g').
Proof.
  intro Hs. unfold production_trial, bind.
  destruct (normal_returns (energy_price_mean a) _ g Hs) as (x & g1 & ->).
  destruct (rand_returns g1) as (u & g2 & ->).
  eexists _, _. reflexivity.
Qed.

Lemma production_trial_length tb a (l : list Q) (g : G) (l' : list Q) (g' : G) :
  production_trial tb a l g = Some (l', g') ->
  List.length l' = Datatypes.S (List.length l).
Proof.
  unfold production_trial. intro Hrun. inv_run.
  rewrite length_app. simpl. lia.
Qed.

Lemma production_returns tb a n (g : G) :
  (1 <= n)%nat -> 0 <= energy_price_std a ->
  exists r g', calculate_production_costs tb a n g = Some (r, g').
Proof.
  intros Hn Hs. unfold calculate_production_costs, simulate_production.
  destruct (repeat_n_returns (production_trial tb a)
              (fun l g => production_trial_returns tb a l g Hs) n [] g)
    as (sims & g1 & Hsims).
  pose proof (repeat_n_length (fun l => l) _
                (production_trial_length tb a) n _ _ _ _ Hsims) as Hlen.
  simpl in Hlen. rewrite Nat.add_0_r in Hlen.
  pose proof (nonempty_of_length _ _ Hlen Hn) as Hne.
  destruct (min_returns _ Hne) as (lo & Hlo).
  destruct (max_returns _ Hne) as (hi & Hhi).
  unfold bind. rewrite Hsims. unfold lift.
  rewrite (mean_finite _ Hne). simpl. rewrite Hlo, Hhi.
  eexists _, _. reflexivity.
Qed.

(** *** calculate_raw_material_costs *)


Lemma dict_get_map_values (f : Q -> Q) (d : Py.dict) (k : string) :
  Py.dict_get k (map (fun '(m, v) => (m, f v)) d)
  = option_map f (Py.dict_get k d).
Proof.
  induction d as [|[m v] d IH]; simpl; [reflexivity|].
  destruct (String.eqb k m); [reflexivity | exact IH].
Qed.

Lemma material_trial_returns tb mpb bp pv dr dlr days m :
  (exists b v q,
      Py.dict_get m bp = Some b /\ Py.dict_get m pv = Some v
      /\ 0 <= b * v /\ Py.dict_get m mpb = Some q) ->
  forall acc (g : G), exists acc' g',
    material_trial tb mpb bp pv dr dlr days acc m g = Some (acc', g').
Proof.
  intros (b & v & q & Hb & Hv & Hs & Hq) acc g.
  unfold material_trial, bind, lift. rewrite Hb, Hv.
  destruct (normal_returns b (b * v) g Hs) as (x & g1 & ->).
  destruct (rand_returns g1) as (u & g2 & ->).
  unfold safety_stock, daily_usage, required_materials.
  rewrite !dict_get_map_values, Hq. simpl.
  destruct (Py.ltb u dlr); simpl; eexists _, _; reflexivity.
Qed.

Lemma raw_material_trial_returns tb mpb bp pv dr dlr days :
  priced_materials mpb bp pv ->
  forall l (g : G), exists l' g',
    raw_material_trial tb mpb bp pv dr dlr days l g = Some (l', g').
Proof.
  intros Hp l g. unfold raw_material_trial, bind.
  destruct (for_each_returns (material_trial tb mpb bp pv dr dlr days)
              (Py.keys bp)) with (b := 0) (g := g) as (c & g1 & ->).
  - eapply Forall_impl; [|exact Hp]. intros m Hm.
    now apply material_trial_returns.
  - eexists _, _. reflexivity.
Qed.

Lemma raw_material_trial_length tb mpb bp pv dr dlr days
    (l : list Q) (g : G) (l' : list Q) (g' : G) :
  raw_material_trial tb mpb bp pv dr dlr days l g = Some (l', g') ->
  List.length l' = Datatypes.S (List.length l).
Proof.
  unfold raw_material_trial. intro Hrun. inv_run.
  rewrite length_app. simpl. lia.
Qed.

Lemma base_budget_returns tb mpb bp pv dr :
  priced_materials mpb bp pv -> exists b, base_budget tb mpb bp dr = Some b.
Proof.
  unfold priced_materials, base_budget. intro Hp.
  generalize 0 as start.
  induction Hp as [|m ms (b & v & q & Hb & Hv & Hs & Hq) _ IH];
    intro start; simpl.
  - now exists start.
  - rewrite Hb. simpl. unfold required_materials at 1.
    rewrite dict_get_map_values, Hq. simpl. apply IH.
Qed.

Lemma raw_material_returns tb mpb bp pv dr dlr days n (g : G) :
  (1 <= n)%nat -> priced_materials mpb bp pv ->
  exists r g',
    calculate_raw_material_costs tb mpb bp pv dr dlr days n g = Some (r, g').
Proof.
  intros Hn Hp. unfold calculate_raw_material_costs, simulate_raw_material.
  destruct (repeat_n_returns (raw_material_trial tb mpb bp pv dr dlr days)
              (raw_material_trial_returns tb mpb bp pv dr dlr days Hp) n [] g)
    as (sims & g1 & Hsims).
  pose proof (repeat_n_length (fun l => l) _
                (raw_material_trial_length tb mpb bp pv dr dlr days)
                n _ _ _ _ Hsims) as Hlen.
  simpl in Hlen. rewrite Nat.add_0_r in Hlen.
  pose proof (nonempty_of_length _ _ Hlen Hn) as Hne.
  destruct (min_returns _ Hne) as (lo & Hlo).
  destruct (max_returns _ Hne) as (hi & Hhi).
  destruct (base_budget_returns tb mpb bp pv dr Hp) as (budget & Hb).
  unfold bind. rewrite Hsims. unfold lift. rewrite Hb.
  rewrite (mean_finite _ Hne). simpl. rewrite Hlo, Hhi.
  unfold share_above. rewrite mean_finite.
  - eexists _, _. reflexivity.
  - destruct sims; [congruence | discriminate].
Qed.

(** *** calculate_storage_costs *)


Lemma storage_trial_returns a value n (st : list Q * storage_risks) (g : G) :
  exists st' g', storage_trial a value n st g = Some (st', g').
Proof.
  destruct st as [l risks]. unfold storage_trial, bind.
  destruct (rand_returns g) as (u1 & g1 & ->).
  destruct (Py.ltb u1 (1 # 10));
    destruct (rand_returns g1) as (u2 & g2 & ->);
    destruct (Py.ltb u2 (spoilage_risk a));
    destruct (rand_returns g2) as (u3 & g3 & ->);
    destruct (Py.ltb u3 (security_breach_risk a));
    eexists _, _; reflexivity.
Qed.

Lemma storage_trial_length a value n
    (st : list Q * storage_risks) (g : G) (st' : list Q * storage_risks) (g' : G) :
  storage_trial a value n st g = Some (st', g') ->
  List.length (fst st') = Datatypes.S (List.length (fst st)).
Proof.
  destruct st as [l risks]. unfold storage_trial. intro Hrun. inv_run.
  destruct (Py.ltb a0 (1 # 10)); inv_run;
    destruct (Py.ltb a1 (spoilage_risk a)); inv_run;
    destruct (Py.ltb a2 (security_breach_risk a)); inv_run;
    simpl; rewrite length_app; simpl; lia.
Qed.

Lemma storage_returns a value n (g : G) :
  (1 <= n)%nat ->
  exists r g', calculate_storage_costs a value n g = Some (r, g').
Proof.
  intros Hn. unfold calculate_storage_costs, simulate_storage.
  destruct (repeat_n_returns (storage_trial a value n)
              (storage_trial_returns a value n) n ([], no_risks) g)
    as ([sims risks] & g1 & Hsims).
  pose proof (repeat_n_length fst _ (storage_trial_length a value n)
                n _ _ _ _ Hsims) as Hlen.
  simpl in Hlen. rewrite Nat.add_0_r in Hlen.
  pose proof (nonempty_of_length _ _ Hlen Hn) as Hne.
  destruct (min_returns _ Hne) as (lo & Hlo).
  destruct (max_returns _ Hne) as (hi & Hhi).
  unfold bind. rewrite Hsims. unfold lift. rewrite Hlo, Hhi.
  rewrite (mean_finite _ Hne).
  eexists _, _. reflexivity.
Qed.

(** *** calculate_logistics_costs *)

(** What the logistics model reports, in terms of the two sample vectors
    of one run. *)
Lemma logistics_report rv fv a n (g g' : G) r :
  calculate_logistics_costs rv fv a n g = Some (r, g') ->
  exists trucks own contractor mean_own mean_contractor lo hi,
    trucks_needed rv fv a = Some trucks
    /\ simulate_logistics rv fv a n trucks g = Some ((own, contractor), g')
    /\ Np.mean own = Np.Finite mean_own
    /\ Np.mean contractor = Np.Finite mean_contractor
    /\ Np.amin (own ++ contractor) = Some lo
    /\ Np.amax (own ++ contractor) = Some hi
    /\ lc_optimal_strategy r
       = (if Py.ltb mean_own mean_contractor then OwnFleet else Contractor)
    /\ lc_total_cost r = Py.int (Py.min mean_own mean_contractor)
    /\ lc_min_cost r = Py.int lo
    /\ lc_max_cost r = Py.int hi.
Proof.
  unfold calculate_logistics_costs. intro Hrun. inv_run.
  destruct a1 as [own contractor].
  destruct (Np.mean own) as [mo| | |] eqn:Emo; inv_run.
  destruct (Np.mean contractor) as [mc| | |] eqn:Emc; inv_run.
  destruct (min_union _ _ _ _ Hm1 Hm2) as (lo & Hlo & Elo).
  destruct (max_union _ _ _ _ Hm3 Hm4) as (hi & Hhi & Ehi).
  exists a0, own, contractor, mo, mc, lo, hi. simpl.
  repeat split; try assumption; try reflexivity.
  - now apply int_comp.
  - now apply int_comp.
Qed.

Lemma logistics_trial_lengths rv fv a trucks
    (st : list Q * list Q) (g : G) (st' : list Q * list Q) (g' : G) :
  logistics_trial rv fv a trucks st g = Some (st', g') ->
  List.length (fst st') = Datatypes.S (List.length (fst st))
  /\ List.length (snd st') = Datatypes.S (List.length (snd st)).
Proof.
  destruct st as [own contractor]. unfold logistics_trial. intro Hrun. inv_run.
  simpl. rewrite !length_app. simpl. lia.
Qed.

Lemma logistics_trial_returns rv fv a trucks (st : list Q * list Q) (g : G) :
  0 <= fuel_price_std a ->
  exists st' g', logistics_trial rv fv a trucks st g = Some (st', g').
Proof.
  intro Hs. destruct st as [own contractor]. unfold logistics_trial, bind.
  destruct (normal_returns (fuel_price_mean a) _ g Hs) as (x & g1 & ->).
  destruct (rand_returns g1) as (u1 & g2 & ->).
  destruct (rand_returns g2) as (u2 & g3 & ->).
  eexists _, _. reflexivity.
Qed.

Lemma logistics_returns rv fv a n (g : G) :
  (1 <= n)%nat -> 0 <= fuel_price_std a -> ~ truck_capacity a == 0 ->
  exists r g', calculate_logistics_costs rv fv a n g = Some (r, g').
Proof.
  intros Hn Hs Hcap. unfold calculate_logistics_costs, simulate_logistics.
  assert (Htrucks : exists trucks, trucks_needed rv fv a = Some trucks).
  { unfold trucks_needed, Np.true_divide.
    destruct (Qeq_bool (truck_capacity a) 0) eqn:E.
    - apply Qeq_bool_eq in E. contradiction.
    - eexists. reflexivity. }
  destruct Htrucks as (trucks & Htrucks).
  destruct (repeat_n_returns (logistics_trial rv fv a trucks)
              (fun st g => logistics_trial_returns rv fv a trucks st g Hs)
              n ([], []) g)
    as ([own contractor] & g1 & Hsims).
  pose proof (repeat_n_length fst _
                (fun b g b' g' Hb =>
                   proj1 (logistics_trial_lengths rv fv a trucks b g b' g' Hb))
                n _ _ _ _ Hsims) as Hlen1.
  pose proof (repeat_n_length snd _
                (fun b g b' g' Hb =>
                   proj2 (logistics_trial_lengths rv fv a trucks b g b' g' Hb))
                n _ _ _ _ Hsims) as Hlen2.
  simpl in Hlen1, Hlen2. rewrite Nat.add_0_r in Hlen1, Hlen2.
  pose proof (nonempty_of_length _ _ Hlen1 Hn) as Hne1.
  pose proof (nonempty_of_length _ _ Hlen2 Hn) as Hne2.
  destruct (min_returns _ Hne1) as (lo1 & Hlo1).
  destruct (max_returns _ Hne1) as (hi1 & Hhi1).
  destruct (min_returns _ Hne2) as (lo2 & Hlo2).
  destruct (max_returns _ Hne2) as (hi2 & Hhi2).
  unfold bind, lift. rewrite Htrucks, Hsims.
  rewrite (mean_finite _ Hne1), (mean_finite _ Hne2).
  rewrite Hlo1, Hlo2, Hhi1, Hhi2.
  eexists _, _. reflexivity.
Qed.

End Models.

(** *** calculate_labor_vs_automation *)

(** The labor model raises nothing when no productivity, lifespan or
    discount factor is zero: the discounted sums and the search for the
    break-even month return. *)
Lemma npv_returns a start monthly_cost :
  ~ 1 + discount_rate a / 12 == 0 ->
  exists v, npv a start monthly_cost = Some v.
Proof.
  intro Hbase. unfold npv. revert start.
  induction (months a) as [|month ms IH]; intro start; simpl.
  - now exists start.
  - unfold Py.div. destruct (Qeq_bool (discount a month) 0) eqn:E.
    + apply Qeq_bool_eq in E. exfalso. revert E. now apply Qpower_not_0.
    + simpl. apply IH.
Qed.

Lemma break_even_returns a ms cumulative monthly_savings initial :
  ~ 1 + discount_rate a / 12 == 0 ->
  exists b, break_even_from a ms cumulative monthly_savings initial = Some b.
Proof.
  intro Hbase. revert cumulative.
  induction ms as [|month ms IH]; intro cumulative; simpl.
  - now exists None.
  - unfold Py.div. destruct (Qeq_bool (discount a month) 0) eqn:E.
    + apply Qeq_bool_eq in E. exfalso. revert E. now apply Qpower_not_0.
    + simpl. destruct (Py.leb _ _); [eexists; reflexivity | apply IH].
Qed.

Lemma labor_returns target_boxes a :
  ~ workers_productivity a == 0 -> ~ robot_productivity a == 0 ->
  ~ robot_lifespan a == 0 -> ~ 1 + discount_rate a / 12 == 0 ->
  exists r, calculate_labor_vs_automation target_boxes a = Some r.
Proof.
  intros Hw Hr Hl Hbase. unfold calculate_labor_vs_automation, Np.true_divide.
  destruct (Qeq_bool (workers_productivity a) 0) eqn:Ew;
    [apply Qeq_bool_eq in Ew; contradiction|].
  destruct (Qeq_bool (robot_productivity a) 0) eqn:Er;
    [apply Qeq_bool_eq in Er; contradiction|].
  simpl.
  match goal with
  | |- context [npv a 0 ?c] => destruct (npv_returns a 0 c Hbase) as (l & ->)
  end.
  simpl. unfold Py.div.
  destruct (Qeq_bool (robot_lifespan a) 0) eqn:El;
    [apply Qeq_bool_eq in El; contradiction|].
  simpl.
  match goal with
  | |- context [npv a ?i ?c] => destruct (npv_returns a i c Hbase) as (v & ->)
  end.
  simpl.
  destruct (Py.ltb _ _); simpl.
  - eexists. reflexivity.
  - match goal with
    | |- context [break_even_from a ?ms ?c ?m ?i] =>
        destruct (break_even_returns a ms c m i Hbase) as (b & ->)
    end.
    eexists. reflexivity.
Qed.

End CostsFacts.

(** ** Dictionaries *)

Module DictFacts.

Lemma dict_get_set_same (k : string) (v : Q) (d : Py.dict) :
  Py.dict_get k (Py.dict_set k v d) = Some v.
Proof.
  induction d as [|[m w] d IH]; simpl.
  - now rewrite String.eqb_refl.
  - destruct (String.eqb k m) eqn:E; simpl; rewrite E; [reflexivity | exact IH].
Qed.

Lemma dict_get_set_other (k k' : string) (v : Q) (d : Py.dict) :
  k <> k' -> Py.dict_get k' (Py.dict_set k v d) = Py.dict_get k' d.
Proof.
  intro Hne. induction d as [|[m w] d IH]; simpl.
  - destruct (String.eqb k' k) eqn:E; [|reflexivity].
    apply String.eqb_eq in E. congruence.
  - destruct (String.eqb k m) eqn:E; simpl.
    + apply String.eqb_eq in E. subst m.
      destruct (String.eqb k' k) eqn:E'; [|reflexivity].
      apply String.eqb_eq in E'. congruence.
    + now rewrite IH.
Qed.

(** A dictionary that binds as keyword arguments has no key outside the
    parameter list. *)
Lemma kwargs_ok_absent (allowed : list string) (d : Py.dict) (k : string) :
  Py.kwargs_ok allowed d = true ->
  existsb (String.eqb k) allowed = false ->
  Py.dict_get k d = None.
Proof.
  intros Hok Hk. induction d as [|[m w] d IH]; simpl in *; [reflexivity|].
  apply andb_true_iff in Hok as [Hm Hd].
  destruct (String.eqb k m) eqn:E.
  - apply String.eqb_eq in E. subst m. congruence.
  - now apply IH.
Qed.

End DictFacts.

(** ** The aggregator and the optimizer *)

Module OptimizationFacts.
Import Effect EffectFacts Costs Optimization.
Import PyFacts NpFacts DictFacts CostsFacts Spec.

Local Open Scope string_scope.

Section Aggregator.
Context {G : Type} `{RandomSource G}.

Lemma with_gen_inv {A : Type} (m : M G A) (st st' : store G) (a : A) :
  with_gen m st = Some (a, st') ->
  exists g', m (gen st) = Some (a, g')
             /\ st' = {| inventory := inventory st; gen := g' |}.
Proof.
  unfold with_gen. destruct (m (gen st)) as [[a0 g']|]; [|discriminate].
  intros [= -> <-]. now exists g'.
Qed.

Lemma inventory_get_inv (k : string) (st st' : store G) (v : Q) :
  inventory_get k st = Some (v, st') ->
  Py.dict_get k (inventory st) = Some v /\ st' = st.
Proof.
  unfold inventory_get. destruct (Py.dict_get k (inventory st)); [|discriminate].
  intros [= -> <-]. now split.
Qed.

Lemma inventory_add_inv (k : string) (delta : Q) (st st' : store G) (u : unit) :
  inventory_add k delta st = Some (u, st') ->
  exists old, Py.dict_get k (inventory st) = Some old
              /\ st' = {| inventory := Py.dict_set k (old + delta) (inventory st);
                          gen := gen st |}.
Proof.
  unfold inventory_add. intro Hrun. inv_run.
  apply inventory_get_inv in Hm as [Hget ->].
  exists a. now split.
Qed.

(** Break a run on the store into its steps. *)
Ltac inv_store :=
  repeat (inv_run;
          match goal with
          | H : with_gen _ _ = Some (_, _) |- _ =>
              let g := fresh "g" in
              let Hg := fresh "Hg" in
              apply with_gen_inv in H; destruct H as (g & Hg & ?); subst
          | H : inventory_get _ _ = Some (_, _) |- _ =>
              apply inventory_get_inv in H; destruct H as [H ?]; subst
          | H : inventory_add _ _ _ = Some (_, _) |- _ =>
              let old := fresh "old" in
              let Hold := fresh "Hold" in
              apply inventory_add_inv in H; destruct H as (old & Hold & ?); subst
          end);
  inv_run.

Section TotalCost.
Variables (production_plan raw_material_orders : list Q).
Variables (material_per_box base_prices price_volatility : Py.dict).
Variables (defect_rate delivery_risk safety_stock_days : Q).
Variable (n_simulations : nat).
Variables (production_params storage_params logistics_params labor_params
           : Py.dict).

Let body :=
  month_body production_plan raw_material_orders material_per_box base_prices
    price_volatility defect_rate delivery_risk safety_stock_days n_simulations
    production_params storage_params logistics_params.

Let run :=
  calculate_total_cost production_plan raw_material_orders material_per_box
    base_prices price_volatility defect_rate delivery_risk safety_stock_days
    n_simulations production_params storage_params logistics_params
    labor_params.

Let raw_delta : nat -> Q :=
  Spec.raw_delta production_plan raw_material_orders material_per_box.

Let goods_delta : nat -> Q := Spec.goods_delta production_plan.

(** A month that completes has bound both parameter dictionaries, and has
    moved the two stocks by the month's net changes. *)
Lemma month_body_effect (t t' : totals) (month : nat) (st st' : store G) :
  body t month st = Some (t', st') ->
  exists raw goods,
    Py.dict_get "raw_material" (inventory st) = Some raw
    /\ Py.dict_get "goods" (inventory st) = Some goods
    /\ Py.dict_get "raw_material" (inventory st')
       = Some (raw + raw_delta month)
    /\ Py.dict_get "goods" (inventory st') = Some (goods + goods_delta month)
    /\ Py.dict_get "target_boxes" production_params = None.
Proof.
  unfold body, month_body. intro Hrun. inv_store. simpl in *.
  match goal with
  | Hp : bind_production_args production_params = Some _,
    Hl : bind_logistics_args logistics_params = Some _,
    Ho : nth_error raw_material_orders month = Some ?o,
    Hq : nth_error production_plan month = Some ?p,
    Hraw : Py.dict_get "raw_material" (inventory st) = Some ?raw,
    Hgoods : Py.dict_get "goods" (Py.dict_set _ _ _) = Some ?goods |- _ =>
      unfold bind_production_args in Hp;
      destruct (Py.kwargs_ok _ production_params) eqn:Epp; [|discriminate];
      unfold bind_logistics_args in Hl;
      destruct (Py.kwargs_ok _ logistics_params) eqn:Elp; [|discriminate];
      pose proof (kwargs_ok_absent _ _ "target_boxes" Epp eq_refl) as Htarget;
      pose proof (kwargs_ok_absent _ _ "estimated_sales" Elp eq_refl) as Hsales;
      rewrite dict_get_set_other in Hgoods by discriminate;
      exists raw, goods;
      unfold raw_delta, goods_delta, Spec.raw_delta, Spec.goods_delta;
      rewrite (nth_error_nth _ _ 0 Ho), (nth_error_nth _ _ 0 Hq);
      unfold Py.dict_get_default; rewrite Hsales
  end.
  repeat split; try assumption.
  - rewrite dict_get_set_other by discriminate. apply dict_get_set_same.
  - apply dict_get_set_same.
Qed.

(** The month loop, from any month on: the stocks move by the sum of the
    monthly net changes. *)
Lemma months_effect (len : nat) :
  forall (start : nat) (t t' : totals) (st st' : store G) (raw goods : Q),
    for_each (seq start len) body t st = Some (t', st') ->
    Py.dict_get "raw_material" (inventory st) = Some raw ->
    Py.dict_get "goods" (inventory st) = Some goods ->
    exists raw' goods',
      Py.dict_get "raw_material" (inventory st') = Some raw'
      /\ Py.dict_get "goods" (inventory st') = Some goods'
      /\ raw' == raw + Py.sum (map raw_delta (seq start len))
      /\ goods' == goods + Py.sum (map goods_delta (seq start len)).
Proof.
  induction len as [|len IH]; intros start t t' st st' raw goods Hrun Hraw Hgoods;
    simpl in Hrun.
  - inv_run. exists raw, goods. simpl. rewrite sum_nil.
    repeat split; try assumption; lra.
  - inv_run.
    destruct (month_body_effect _ _ _ _ _ Hm)
      as (raw0 & goods0 & Hr0 & Hg0 & Hr1 & Hg1 & _).
    rewrite Hraw in Hr0. rewrite Hgoods in Hg0.
    injection Hr0 as <-. injection Hg0 as <-.
    destruct (IH _ _ _ _ _ _ _ Hrun Hr1 Hg1)
      as (raw' & goods' & Hr' & Hg' & Er & Eg).
    exists raw', goods'. simpl map. rewrite !sum_cons.
    repeat split; try assumption; lra.
Qed.

(** A loop of at least one month has bound [production_params], so the
    dictionary has no [target_boxes] entry. *)
Lemma months_bind_params (len start : nat) (t t' : totals) (st st' : store G) :
  (1 <= len)%nat ->
  for_each (seq start len) body t st = Some (t', st') ->
  Py.dict_get "target_boxes" production_params = None.
Proof.
  destruct len as [|len]; [lia|]. intros _ Hrun. simpl in Hrun. inv_run.
  now destruct (month_body_effect _ _ _ _ _ Hm) as (? & ? & ? & ? & ? & ? & ?).
Qed.

(** The steps of a run of [calculate_total_cost] that returns: the month
    loop leaves the final store, the plan is not empty, and the risks are
    computed from the totals. *)
Lemma total_cost_run (r : total_cost_result) (st st' : store G) :
  run st = Some (r, st') ->
  exists t,
    for_each (seq 0 (List.length production_plan)) body zero_totals st
    = Some (t, st')
    /\ production_plan <> []
    /\ supply_risk (risks r) = acc_supply_risk t
    /\ production_risk (risks r) = acc_production_risk t
    /\ demand_risk (risks r)
       = demand_risk_of_plan production_plan production_params
    /\ total_risk (risks r)
       = Np.div_const
           (Np.add (Np.Finite (acc_supply_risk t + acc_production_risk t))
                   (demand_risk (risks r)))
           3.
Proof.
  unfold run, calculate_total_cost, total_months. intro Hrun. inv_run.
  destruct (Np.mean production_plan) as [avg| | |] eqn:Eavg; inv_run.
  apply mean_finite_inv in Eavg as [Hne _].
  exists a. simpl. repeat split; try assumption; reflexivity.
Qed.

End TotalCost.

(** *** Runs that return *)

Lemma with_gen_run {A : Type} (m : M G A) (st : store G) (a : A) (g' : G) :
  m (gen st) = Some (a, g') ->
  with_gen m st = Some (a, {| inventory := inventory st; gen := g' |}).
Proof. unfold with_gen. now intros ->. Qed.

Lemma month_body_returns plan orders mpb bp pv dr dlr days n pp sp lp lap
    (t : totals) (month : nat) (st : store G) :
  runnable plan orders mpb bp pv n pp sp lp lap ->
  (month < List.length plan)%nat ->
  stocked (inventory st) ->
  exists t' st',
    month_body plan orders mpb bp pv dr dlr days n pp sp lp t month st
    = Some (t', st')
    /\ stocked (inventory st').
Proof.
  intros (Hne & Hlen & Hn & Hpriced & (plastic & Hplastic)
          & (pa & Hpa & Hstd) & (sa & Hsa) & (la & Hla & Hfuel & Hcap) & _)
         Hmonth ((raw & Hraw) & (goods & Hgoods)).
  destruct (nth_error orders month) as [o|] eqn:Eo;
    [|apply nth_error_None in Eo; lia].
  destruct (nth_error plan month) as [q|] eqn:Eq;
    [|apply nth_error_None in Eq; lia].
  destruct (raw_material_returns o mpb bp pv dr dlr days n (gen st) Hn Hpriced)
    as (r1 & g1 & Hr1).
  destruct (production_returns q pa n g1 Hn Hstd) as (r2 & g2 & Hr2).
  destruct (storage_returns sa
              (raw * plastic + goods * Py.dict_get_default "product_value" 1000 pp)
              n g2 Hn) as (r3 & g3 & Hr3).
  destruct (logistics_returns (o * Py.sum (Py.values mpb) / 1000)
              (q * (1 # 100)) la n g3 Hn Hfuel Hcap) as (r4 & g4 & Hr4).
  unfold month_body, bind, lift.
  rewrite Eo. rewrite (with_gen_run _ _ _ _ Hr1).
  rewrite Eq, Hpa. rewrite (with_gen_run _ {| inventory := _; gen := g1 |} _ _ Hr2).
  unfold inventory_get at 1. simpl inventory. rewrite Hraw, Hplastic.
  unfold inventory_get at 1. simpl inventory. rewrite Hgoods, Hsa.
  rewrite (with_gen_run _ {| inventory := _; gen := g2 |} _ _ Hr3).
  rewrite Hla.
  rewrite (with_gen_run _ {| inventory := _; gen := g3 |} _ _ Hr4).
  unfold inventory_add, bind, inventory_get. simpl inventory.
  rewrite Hraw. simpl inventory.
  rewrite dict_get_set_other by discriminate. rewrite Hgoods.
  eexists _, _. split; [reflexivity|]. simpl inventory. split.
  - eexists. rewrite dict_get_set_other by discriminate.
    apply dict_get_set_same.
  - eexists. apply dict_get_set_same.
Qed.

Lemma months_return plan orders mpb bp pv dr dlr days n pp sp lp lap (len : nat) :
  runnable plan orders mpb bp pv n pp sp lp lap ->
  forall (start : nat) (t : totals) (st : store G),
    (start + len <= List.length plan)%nat ->
    stocked (inventory st) ->
    exists t' st',
      for_each (seq start len)
               (month_body plan orders mpb bp pv dr dlr days n pp sp lp) t st
      = Some (t', st').
Proof.
  intro Hrun. induction len as [|len IH]; intros start t st Hlen Hst; simpl.
  - now exists t, st.
  - destruct (month_body_returns plan orders mpb bp pv dr dlr days n pp sp lp
                lap t start st Hrun) as (t1 & st1 & Hbody & Hst1);
      [lia | exact Hst |].
    unfold bind. rewrite Hbody. apply IH; [lia | exact Hst1].
Qed.

(** On runnable parameters and a stocked inventory [calculate_total_cost]
    returns. *)
Lemma calculate_total_cost_returns plan orders mpb bp pv dr dlr days n
    pp sp lp lap (st : store G) :
  runnable plan orders mpb bp pv n pp sp lp lap ->
  stocked (inventory st) ->
  exists r st',
    calculate_total_cost plan orders mpb bp pv dr dlr days n pp sp lp lap st
    = Some (r, st').
Proof.
  intros Hrun Hst.
  destruct (months_return plan orders mpb bp pv dr dlr days n pp sp lp lap
              (List.length plan) Hrun 0%nat zero_totals st)
    as (t & st1 & Hloop); [lia | exact Hst |].
  destruct Hrun as (Hne & _ & _ & _ & _ & _ & _ & _
                    & (a & Ha & Hw & Hr & Hl & Hbase)).
  unfold calculate_total_cost, total_months, bind. rewrite Hloop.
  rewrite (mean_finite _ Hne). unfold lift. rewrite Ha.
  destruct (labor_returns (Py.sum plan / count plan) a Hw Hr Hl Hbase)
    as (l & ->).
  unfold Py.div. fold (count plan).
  destruct (Qeq_bool (count plan) 0) eqn:E.
  - apply Qeq_bool_eq in E. pose proof (count_pos plan Hne). lra.
  - eexists _, _. reflexivity.
Qed.

(** *** The demand risk

    With a positive baseline [b] and cumulative production [s], the risk is
    [max(0, (s - b) / s)]: a finite, non-negative number in every case. *)
Lemma demand_risk_cases (s b : Q) :
  0 < b ->
  exists d,
    Np.max0 (Np.true_divide (s - b) s) = Np.Finite d
    /\ 0 <= d
    /\ (s == 0 -> Np.true_divide (s - b) s = Np.NegInf /\ d = 0)
    /\ (0 <= s -> s <= b -> d == 0)
    /\ (b < s -> d == (s - b) / s /\ 0 < d)
    /\ (s < 0 -> d == (s - b) / s /\ 1 < d).
Proof.
  intro Hb. unfold Np.true_divide.
  destruct (Qeq_bool s 0) eqn:Es.
  - apply Qeq_bool_eq in Es.
    assert (Hneg : s - b < 0) by lra.
    assert (E1 : Py.ltb 0 (s - b) = false) by (apply ltb_false; lra).
    assert (E2 : Py.ltb (s - b) 0 = true) by (apply ltb_true; lra).
    rewrite E1, E2. exists 0. simpl.
    repeat split; try reflexivity; try lra.
  - apply Qeq_bool_neq in Es.
    unfold Np.max0, Np.is_positive.
    destruct (Qlt_le_dec 0 s) as [Hpos | Hnonpos].
    + (* positive production *)
      destruct (Py.ltb 0 ((s - b) / s)) eqn:E.
      * apply ltb_true in E. exists ((s - b) / s).
        assert (Hsb : b < s).
        { apply Qnot_le_lt. intro Hle.
          assert ((s - b) / s <= 0); [|lra].
          apply Qle_shift_div_r; [exact Hpos | lra]. }
        repeat split; try reflexivity; try lra.
      * apply ltb_false in E. exists 0.
        assert (Hsb : s <= b).
        { apply Qnot_lt_le. intro Hlt.
          assert (0 < (s - b) / s); [|lra].
          apply Qlt_shift_div_l; [exact Hpos | lra]. }
        repeat split; try reflexivity; try lra.
    + (* negative production: the quotient exceeds one *)
      assert (Hneg : s < 0).
      { destruct (Qlt_le_dec s 0); [assumption|]. exfalso. apply Es. lra. }
      assert (Hq : 1 < (s - b) / s).
      { setoid_replace ((s - b) / s) with ((b - s) / (- s)) by (field; lra).
        apply Qlt_shift_div_l; lra. }
      assert (E : Py.ltb 0 ((s - b) / s) = true) by (apply ltb_true; lra).
      rewrite E. exists ((s - b) / s).
      repeat split; try reflexivity; try lra.
Qed.

Lemma default_baseline_pos (plan : list Q) :
  plan <> [] -> 0 < default_baseline plan.
Proof.
  intro Hne. unfold default_baseline.
  pose proof (count_pos plan Hne) as Hn. unfold count in Hn.
  apply Qmult_lt_0_compat; [exact Hn | reflexivity].
Qed.

(** The risk metrics of a run that returns are finite. *)
Lemma total_cost_risks plan orders mpb bp pv dr dlr days n pp sp lp lap
    (st st' : store G) (r : total_cost_result) :
  calculate_total_cost plan orders mpb bp pv dr dlr days n pp sp lp lap st
  = Some (r, st') ->
  plan <> []
  /\ exists d,
       demand_risk (risks r) = Np.Finite d
       /\ Np.max0 (Np.true_divide (Py.sum plan - default_baseline plan)
                                  (Py.sum plan)) = Np.Finite d
       /\ total_risk (risks r)
          = Np.Finite ((supply_risk (risks r) + production_risk (risks r) + d) / 3).
Proof.
  intro Hrun.
  destruct (total_cost_run _ _ _ _ _ _ _ _ _ _ _ _ _ _ _ _ Hrun)
    as (t & Hloop & Hne & Hs & Hp & Hd & Ht).
  split; [exact Hne|].
  assert (Hlen : (1 <= List.length plan)%nat).
  { destruct plan; [congruence | simpl; lia]. }
  pose proof (months_bind_params _ _ _ _ _ _ _ _ _ _ _ _ _ _ _ _ _ _ Hlen Hloop)
    as Htarget.
  destruct (demand_risk_cases (Py.sum plan) (default_baseline plan)
              (default_baseline_pos plan Hne)) as (d & Hmax & _).
  assert (Hdemand : demand_risk (risks r) = Np.Finite d).
  { rewrite Hd. unfold demand_risk_of_plan, target_baseline, total_months.
    unfold Py.dict_get_default. rewrite Htarget. exact Hmax. }
  exists d. repeat split; try assumption.
  rewrite Ht, Hdemand, Hs, Hp. reflexivity.
Qed.

End Aggregator.

(** *** project_inventory *)

Lemma project_months (plan orders : list Q) (mpb : Py.dict) (len : nat) :
  forall (start : nat) (st : Q * Q * inventory_projection),
    (start + len <= List.length plan)%nat ->
    (start + len <= List.length orders)%nat ->
    nonnegative_levels (snd st) ->
    exists st',
      ofold (seq start len) (project_month plan orders mpb) st = Some st'
      /\ nonnegative_levels (snd st')
      /\ List.length (raw_material (snd st'))
         = (List.length (raw_material (snd st)) + len)%nat
      /\ List.length (finished_goods (snd st'))
         = (List.length (finished_goods (snd st)) + len)%nat.
Proof.
  induction len as [|len IH]; intros start [[raw goods] proj] Hplan Horders Hnn;
    simpl.
  - exists (raw, goods, proj). simpl. repeat split; try apply Hnn; lia.
  - destruct (nth_error plan start) as [produced|] eqn:Ep;
      [|apply nth_error_None in Ep; lia].
    destruct (nth_error orders start) as [ordered|] eqn:Eo;
      [|apply nth_error_None in Eo; lia].
    simpl.
    match goal with
    | |- exists st', ofold _ _ ?next = Some st' /\ _ =>
        destruct (IH (Datatypes.S start) next) as (st' & Hrun & Hnn' & Hl1 & Hl2)
    end; try lia.
    + destruct Hnn as [Hraw Hgoods]. split; simpl.
      * apply Forall_app. split; [exact Hraw|].
        constructor; [apply max_nonneg | constructor].
      * apply Forall_app. split; [exact Hgoods|].
        constructor; [apply max_nonneg | constructor].
    + exists st'. simpl in Hl1, Hl2. rewrite length_app in Hl1, Hl2.
      simpl in Hl1, Hl2. repeat split; try assumption; try apply Hnn'; lia.
Qed.

Lemma project_inventory_levels (plan orders : list Q) (inv mpb : Py.dict) :
  (List.length plan <= List.length orders)%nat ->
  exists p,
    project_inventory plan orders inv mpb = Some p
    /\ nonnegative_levels p
    /\ List.length (raw_material p) = List.length plan
    /\ List.length (finished_goods p) = List.length plan.
Proof.
  intro Hlen. unfold project_inventory.
  match goal with
  | |- context [ofold _ _ ?init] =>
      destruct (project_months plan orders mpb (List.length plan) 0 init)
        as (st' & Hrun & Hnn & Hl1 & Hl2)
  end; simpl; try lia.
  - split; constructor.
  - rewrite Hrun. simpl. exists (snd st'). repeat split; try apply Hnn.
    + exact Hl1.
    + exact Hl2.
Qed.

End OptimizationFacts.

(** * The specification, claim by claim *)

Import Effect Costs Optimization Example.
Import EffectFacts PyFacts NpFacts DictFacts CostsFacts OptimizationFacts Spec.

(** ** Costs.py *)




(** The safety stock that the raw-material model returns is the one computed
    before the scenarios are run. *)
Lemma returned_safety_stock {G : Type} `{RandomSource G}
    tb mpb bp pv dr dlr days n (g g' : G) r :
  calculate_raw_material_costs tb mpb bp pv dr dlr days n g = Some (r, g') ->
  rm_safety_stock r = safety_stock tb mpb dr days.
Proof.
  unfold calculate_raw_material_costs. intro Hrun. inv_run.
  destruct (share_above _ _); inv_run. reflexivity.
Qed.

Lemma safety_stock_entries tb mpb dr days :
  safety_stock tb mpb dr days
  = map (fun '(m, amount) => (m, tb * (1 + dr) * amount / 30 * days)) mpb.
Proof.
  unfold safety_stock, daily_usage, required_materials, adjusted_boxes.
  rewrite !map_map. apply map_ext. now intros [m amount].
Qed.

(** C8, as the code has it.  The claim promises a non-negative safety stock
    for all inputs; the model does not validate its inputs, and a negative
    target gives a negative stock.  For a non-negative target quantity,
    consumption rates and number of days, and a defect rate of at least
    [-1], every quantity of the returned [safety_stock] is non-negative.
    For all inputs the quantities are linear in [safety_stock_days]:
    multiplying the days by [k] multiplies every quantity by [k], and zero
    days give zero. *)
Theorem safety_stock_nonnegative_and_linear {G : Type} `{RandomSource G}
    tb mpb bp pv dr dlr days n (g g' : G) r :
  calculate_raw_material_costs tb mpb bp pv dr dlr days n g = Some (r, g') ->
  (0 <= tb -> -1 <= dr -> 0 <= days ->
   Forall (fun entry => 0 <= snd entry) mpb ->
   Forall (fun entry => 0 <= snd entry) (rm_safety_stock r))
  /\ (forall k bp2 pv2 dlr2 n2 (g2 g2' : G) r2,
         calculate_raw_material_costs tb mpb bp2 pv2 dr dlr2 (k * days) n2 g2
         = Some (r2, g2') ->
         Forall2 (fun scaled entry =>
                    fst scaled = fst entry /\ snd scaled == k * snd entry)
                 (rm_safety_stock r2) (rm_safety_stock r))
  /\ (days == 0 -> Forall (fun entry => snd entry == 0) (rm_safety_stock r)).
Proof.
  intro Hrun. apply returned_safety_stock in Hrun. rewrite Hrun.
  rewrite safety_stock_entries. repeat apply conj.
  - intros Htb Hdr Hdays Hmpb. apply Forall_map.
    eapply Forall_impl; [|exact Hmpb]. intros [m amount] Ha. simpl in *.
    assert (0 <= tb * (1 + dr)) by (apply Qmult_le_0_compat; lra).
    assert (0 <= tb * (1 + dr) * amount) by (apply Qmult_le_0_compat; lra).
    assert (0 <= tb * (1 + dr) * amount / 30)
      by (apply Qle_shift_div_l; lra).
    apply Qmult_le_0_compat; lra.
  - intros k bp2 pv2 dlr2 n2 g2 g2' r2 Hrun2.
    apply returned_safety_stock in Hrun2. rewrite Hrun2.
    rewrite safety_stock_entries. clear Hrun Hrun2.
    induction mpb as [|[m amount] rest IH]; simpl; constructor.
    + simpl. split; [reflexivity | field].
    + exact IH.
  - intro Hdays. apply Forall_map. apply Forall_forall.
    intros [m amount] _. simpl. rewrite Hdays. field.
Qed.

(** The script's example with 7 and with 14 days of safety stock. *)
Lemma safety_stock_nonnegative_and_linear_witness :
  exists r g' r2 g2',
    calculate_raw_material_costs 10000 material_per_box base_prices
      price_volatility (5 # 100) (1 # 10) 7 3 0%Z = Some (r, g')
    /\ calculate_raw_material_costs 10000 material_per_box base_prices
         price_volatility (5 # 100) (1 # 10) (2 * 7) 3 0%Z = Some (r2, g2')
    /\ Forall (fun entry => 0 <= snd entry) (rm_safety_stock r)
    /\ Forall2 (fun scaled entry =>
                  fst scaled = fst entry /\ snd scaled == 2 * snd entry)
               (rm_safety_stock r2) (rm_safety_stock r).
Proof.
  destruct (calculate_raw_material_costs 10000 material_per_box base_prices
              price_volatility (5 # 100) (1 # 10) 7 3 0%Z)
    as [[r g']|] eqn:E; [|vm_compute in E; discriminate E].
  destruct (calculate_raw_material_costs 10000 material_per_box base_prices
              price_volatility (5 # 100) (1 # 10) (2 * 7) 3 0%Z)
    as [[r2 g2']|] eqn:E2; [|vm_compute in E2; discriminate E2].
  destruct (safety_stock_nonnegative_and_linear _ _ _ _ _ _ _ _ _ _ _ E)
    as (Hnonneg & Hlinear & _).
  exists r, g', r2, g2'.
  split; [reflexivity|]. split; [reflexivity|]. split.
  - apply Hnonneg; try discriminate.
    repeat constructor; discriminate.
  - exact (Hlinear _ _ _ _ _ _ _ _ E2).
Defined.

(** C8 fails as stated: a target of [-30] boxes is accepted and the safety
    stock of plastic is negative. *)
Lemma safety_stock_negative_for_negative_target :
  exists r g' quantity,
    calculate_raw_material_costs (-30) material_per_box base_prices
      price_volatility (5 # 100) (1 # 10) 7 1 0%Z = Some (r, g')
    /\ Py.dict_get "plastic" (rm_safety_stock r) = Some quantity
    /\ quantity < 0.
Proof.
  eexists _, _, _. repeat split.
Qed.

(** C5, as the code has it.  Whenever [calculate_logistics_costs] returns,
    [optimal_strategy] is the own fleet exactly when its mean cost over the
    scenarios is strictly lower than the contractor's (the contractor wins a
    tie), and [min_cost] and [max_cost] come from the union of both sample
    vectors, not only from the chosen strategy's.  The three reported costs
    are integers: [total_cost] is the lower mean truncated toward zero, and
    [min_cost], [max_cost] are the truncated minimum and maximum of the
    union. *)
Theorem logistics_reports_truncated_lower_mean_and_union_extrema
    {G : Type} `{RandomSource G} rv fv a n (g g' : G) r :
  calculate_logistics_costs rv fv a n g = Some (r, g') ->
  exists trucks own contractor mean_own mean_contractor lo hi,
    trucks_needed rv fv a = Some trucks
    /\ simulate_logistics rv fv a n trucks g = Some ((own, contractor), g')
    /\ Np.mean own = Np.Finite mean_own
    /\ Np.mean contractor = Np.Finite mean_contractor
    /\ Np.amin (own ++ contractor) = Some lo
    /\ Np.amax (own ++ contractor) = Some hi
    /\ (lc_optimal_strategy r = OwnFleet <-> mean_own < mean_contractor)
    /\ (lc_optimal_strategy r = Contractor <-> mean_contractor <= mean_own)
    /\ lc_total_cost r = Py.int (Qmin mean_own mean_contractor)
    /\ lc_min_cost r = Py.int lo
    /\ lc_max_cost r = Py.int hi.
Proof.
  intro Hrun.
  destruct (logistics_report _ _ _ _ _ _ _ Hrun)
    as (trucks & own & contractor & mo & mc & lo & hi
        & Ht & Hs & Hmo & Hmc & Hlo & Hhi & Hstrategy & Htotal & Hmin & Hmax).
  exists trucks, own, contractor, mo, mc, lo, hi.
  repeat (split; [assumption|]).
  assert (Hcases : (lc_optimal_strategy r = OwnFleet /\ mo < mc)
                   \/ (lc_optimal_strategy r = Contractor /\ mc <= mo)).
  { rewrite Hstrategy. case_ltb mo mc; [left | right]; now split. }
  split; [|split; [|split; [|now split]]].
  - destruct Hcases as [[-> Hlt] | [-> Hle]]; split; intro Hx;
      try assumption; try reflexivity; try discriminate; lra.
  - destruct Hcases as [[-> Hlt] | [-> Hle]]; split; intro Hx;
      try assumption; try reflexivity; try discriminate; lra.
  - rewrite Htotal. apply int_comp, min_spec.
Qed.

(** Three quarters of a cubic metre: the contractor is cheaper, and the
    reported minimum is the truncated minimum over both sample vectors. *)
Lemma logistics_reports_truncated_lower_mean_and_union_extrema_witness :
  exists r g' own contractor mean_own mean_contractor lo,
    calculate_logistics_costs (1 # 2) (1 # 4) logistics_example 3 0%Z
    = Some (r, g')
    /\ simulate_logistics (1 # 2) (1 # 4) logistics_example 3 1 0%Z
       = Some ((own, contractor), g')
    /\ Np.mean own = Np.Finite mean_own
    /\ Np.mean contractor = Np.Finite mean_contractor
    /\ Np.amin (own ++ contractor) = Some lo
    /\ lc_optimal_strategy r = Contractor
    /\ lc_total_cost r = Py.int (Qmin mean_own mean_contractor)
    /\ lc_min_cost r = Py.int lo.
Proof.
  destruct (calculate_logistics_costs (1 # 2) (1 # 4) logistics_example 3 0%Z)
    as [[r g']|] eqn:E; [|vm_compute in E; discriminate E].
  destruct
    (logistics_reports_truncated_lower_mean_and_union_extrema _ _ _ _ _ _ _ E)
    as (trucks & own & contractor & mo & mc & lo & hi
        & Ht & Hs & Hmo & Hmc & Hlo & Hhi & Hown & Hcontractor & Htotal
        & Hmin & Hmax).
  injection Ht as <-.
  exists r, g', own, contractor, mo, mc, lo.
  repeat (split; [first [reflexivity | assumption]|]).
  split; [|split; assumption].
  apply Hcontractor.
  vm_compute in Hs. injection Hs as <- <- _.
  vm_compute in Hmo, Hmc. injection Hmo as <-. injection Hmc as <-.
  discriminate.
Defined.

(** C5 fails as stated: three quarters of a cubic metre cost the contractor
    412.5 in every scenario; that is the lower mean and the minimum of the
    union, and the report says 412 for both. *)
Lemma logistics_total_cost_is_not_the_lower_mean :
  exists r g' own contractor mean_own mean_contractor lo,
    calculate_logistics_costs (1 # 2) (1 # 4) logistics_example 3 0%Z
    = Some (r, g')
    /\ simulate_logistics (1 # 2) (1 # 4) logistics_example 3 1 0%Z
       = Some ((own, contractor), g')
    /\ Np.mean own = Np.Finite mean_own
    /\ Np.mean contractor = Np.Finite mean_contractor
    /\ Np.amin (own ++ contractor) = Some lo
    /\ Qmin mean_own mean_contractor == 825 # 2
    /\ lo == 825 # 2
    /\ lc_total_cost r = 412%Z
    /\ lc_min_cost r = 412%Z
    /\ ~ inject_Z (lc_total_cost r) == Qmin mean_own mean_contractor
    /\ ~ inject_Z (lc_min_cost r) == lo.
Proof.
  eexists _, _, _, _, _, _, _.
  repeat apply conj; try (vm_compute; reflexivity);
    intro Hc; vm_compute in Hc; discriminate Hc.
Qed.

(** ** Optimization.py *)

(** C7.  For every non-negative production plan and purchase plan over the
    same months and every starting inventory, [project_inventory] returns a
    trajectory with one raw-material level and one finished-goods level per
    month, and every level is [>= 0]: a shortfall is floored at zero, it is
    not an error. *)
Theorem projected_levels_are_nonnegative
    (production_plan raw_material_orders : list Q)
    (current_inventory material_per_box : Py.dict) :
  Forall (fun produced => 0 <= produced) production_plan ->
  Forall (fun ordered => 0 <= ordered) raw_material_orders ->
  List.length production_plan = List.length raw_material_orders ->
  exists p,
    project_inventory production_plan raw_material_orders current_inventory
      material_per_box = Some p
    /\ Forall (fun level => 0 <= level) (raw_material p)
    /\ Forall (fun level => 0 <= level) (finished_goods p)
    /\ List.length (raw_material p) = List.length production_plan
    /\ List.length (finished_goods p) = List.length production_plan.
Proof.
  intros _ _ Hlen.
  destruct (project_inventory_levels production_plan raw_material_orders
              current_inventory material_per_box)
    as (p & Hp & [Hraw Hgoods] & Hl1 & Hl2); [lia|].
  exists p. now repeat split.
Qed.

(** A plan that uses more raw material than the stock and the orders
    provide: the projection reports zero, not a negative level. *)
Lemma projected_levels_are_nonnegative_witness :
  exists p,
    project_inventory [20000; 0] [0; 1000] Example.current_inventory
      Example.material_per_box = Some p
    /\ Forall (fun level => 0 <= level) (raw_material p)
    /\ Forall (fun level => 0 <= level) (finished_goods p)
    /\ Forall2 Qeq (raw_material p) [0; 1000].
Proof.
  destruct (projected_levels_are_nonnegative [20000; 0] [0; 1000]
              Example.current_inventory Example.material_per_box)
    as (p & Hp & Hraw & Hgoods & _).
  - repeat constructor; discriminate.
  - repeat constructor; discriminate.
  - reflexivity.
  - exists p. repeat split; try assumption.
    vm_compute in Hp. injection Hp as <-. repeat constructor.
Defined.

Section OptimizerClaims.
Context {G : Type} `{RandomSource G}.
Variable minimize :
  (list Q -> M (store G) Np.float64) -> list Q -> string ->
  list (Q * option Q) -> list (@constraint G) -> nat ->
  M (store G) minimize_result.
Variables (target_boxes : Q).
Variables (material_per_box base_prices price_volatility : Py.dict).
Variables (defect_rate delivery_risk safety_stock_days : Q).
Variable (n_simulations : nat).
Variables (production_params storage_params logistics_params labor_params
           : Py.dict).
Variables (n_months : nat) (risk_tolerance : Q).

Let constraints_for (budget_constraint : option Q) :=
  constraints material_per_box base_prices price_volatility defect_rate
    delivery_risk safety_stock_days n_simulations production_params
    storage_params logistics_params labor_params n_months budget_constraint.

Let optimize (budget_constraint : option Q) :=
  optimize_business_costs minimize target_boxes material_per_box base_prices
    price_volatility defect_rate delivery_risk safety_stock_days n_simulations
    production_params storage_params logistics_params labor_params n_months
    risk_tolerance budget_constraint.

(** The call of the minimizer with the two non-negativity constraints and
    nothing else, followed by the report. *)
Let optimize_unconstrained : M (store G) optimization_result :=
  (guess <- lift (initial_guess target_boxes material_per_box n_months) ;;
   result <-
     minimize
       (objective target_boxes material_per_box base_prices price_volatility
          defect_rate delivery_risk safety_stock_days n_simulations
          production_params storage_params logistics_params labor_params
          n_months risk_tolerance)
       guess "SLSQP"%string (bounds n_months)
       [production_nonnegative n_months; purchases_nonnegative n_months]
       1000%nat ;;
   report material_per_box base_prices price_volatility defect_rate
     delivery_risk safety_stock_days n_simulations production_params
     storage_params logistics_params labor_params n_months result)%eff.

(** C6.  With [budget_constraint = None] the constraint list is exactly the
    two non-negativity inequality constraints, and that list is what
    [optimize_business_costs] passes to the minimizer: no budget inequality
    is added. *)
Theorem no_budget_constraint_when_none :
  constraints_for None
  = [production_nonnegative n_months; purchases_nonnegative n_months]
  /\ Forall (fun c => ctype c = "ineq"%string) (constraints_for None)
  /\ optimize None = optimize_unconstrained.
Proof.
  repeat split. repeat constructor.
Qed.

(** C9.  A budget of zero is false as a condition: the budget inequality is
    not added, and [optimize_business_costs] does exactly what it does with
    [budget_constraint = None]. *)
Theorem zero_budget_is_no_budget (budget : Q) :
  budget == 0 ->
  constraints_for (Some budget)
  = [production_nonnegative n_months; purchases_nonnegative n_months]
  /\ constraints_for (Some budget) = constraints_for None
  /\ optimize (Some budget) = optimize None.
Proof.
  intro Hzero.
  assert (Hc : constraints_for (Some budget) = constraints_for None).
  { unfold constraints_for, constraints, truthy.
    apply Qeq_bool_iff in Hzero. now rewrite Hzero. }
  repeat split; try exact Hc.
  unfold optimize, optimize_business_costs. fold (constraints_for (Some budget)).
  fold (constraints_for None). now rewrite Hc.
Qed.

(** A budget that is not zero does add the inequality. *)
Lemma budget_constraint_when_nonzero (budget : Q) :
  ~ budget == 0 ->
  List.length (constraints_for (Some budget)) = 3%nat.
Proof.
  intro Hnz. unfold constraints_for, constraints, truthy.
  destruct (Qeq_bool budget 0) eqn:E; [|reflexivity].
  apply Qeq_bool_iff in E. contradiction.
Qed.

End OptimizerClaims.

Lemma zero_budget_is_no_budget_witness :
  @constraints Z _ Example.material_per_box Example.base_prices
    Example.price_volatility (5 # 100) (1 # 10) 7 3
    Example.production_params Example.storage_params
    Example.logistics_params Example.labor_params 12 (Some 0)
  = [production_nonnegative 12; purchases_nonnegative 12].
Proof.
  refine (proj1 (zero_budget_is_no_budget Example.one_step_minimize 10000
                   Example.material_per_box Example.base_prices
                   Example.price_volatility (5 # 100) (1 # 10) 7 3
                   Example.production_params Example.storage_params
                   Example.logistics_params Example.labor_params 12 (15 # 100)
                   0 _)).
  reflexivity.
Defined.

Section AggregatorClaims.
Context {G : Type} `{RandomSource G}.
Variables (material_per_box base_prices price_volatility : Py.dict).
Variables (defect_rate delivery_risk safety_stock_days : Q).
Variable (n_simulations : nat).
Variables (production_params storage_params logistics_params labor_params
           : Py.dict).

(** [calculate_total_cost] with the parameters of the section. *)
Let total_cost_for (production_plan raw_material_orders : list Q)
    : M (store G) total_cost_result :=
  calculate_total_cost production_plan raw_material_orders material_per_box
    base_prices price_volatility defect_rate delivery_risk safety_stock_days
    n_simulations production_params storage_params logistics_params
    labor_params.

(** Purchases minus consumption, and production minus the assumed sales of
    nine tenths of it, summed over the months of the plan. *)
Let net_purchases (production_plan raw_material_orders : list Q) : Q :=
  Py.sum (map (fun month =>
                 nth month raw_material_orders 0
                 - nth month production_plan 0
                   * Py.sum (Py.values material_per_box))
              (seq 0 (List.length production_plan))).

Let net_production (production_plan : list Q) : Q :=
  Py.sum (map (fun month =>
                 nth month production_plan 0
                 - nth month production_plan 0 * (9 # 10))
              (seq 0 (List.length production_plan))).

Lemma total_cost_inventory_effect plan orders (st st' : store G) r :
  total_cost_for plan orders st = Some (r, st') ->
  exists raw goods raw' goods',
    Py.dict_get "raw_material" (inventory st) = Some raw
    /\ Py.dict_get "goods" (inventory st) = Some goods
    /\ Py.dict_get "raw_material" (inventory st') = Some raw'
    /\ Py.dict_get "goods" (inventory st') = Some goods'
    /\ raw' == raw + net_purchases plan orders
    /\ goods' == goods + net_production plan.
Proof.
  intro Hrun.
  destruct (total_cost_run _ _ _ _ _ _ _ _ _ _ _ _ _ _ _ _ Hrun)
    as (t & Hloop & Hne & _).
  destruct plan as [|p plan']; [congruence|].
  pose proof Hloop as Hfirst. simpl in Hfirst. inv_run.
  destruct (month_body_effect _ _ _ _ _ _ _ _ _ _ _ _ _ _ _ _ _ Hm)
    as (raw & goods & Hraw & Hgoods & _).
  destruct (months_effect _ _ _ _ _ _ _ _ _ _ _ _ _ _ _ _ _ _ _ _
              Hloop Hraw Hgoods)
    as (raw' & goods' & Hraw' & Hgoods' & Er & Eg).
  exists raw, goods, raw', goods'. repeat split; assumption.
Qed.

(** C3.  A call of [calculate_total_cost] that returns has changed the
    caller's inventory: the ["raw_material"] entry has grown by the
    purchases minus the consumption of every month of the plan, the
    ["goods"] entry by the production minus the assumed sales.  The next
    evaluation on the same dictionary starts from the changed entries:
    after a second evaluation of the same plan each entry has moved twice. *)
Theorem total_cost_mutates_inventory plan orders (st st' : store G) r :
  total_cost_for plan orders st = Some (r, st') ->
  exists raw goods raw' goods',
    Py.dict_get "raw_material" (inventory st) = Some raw
    /\ Py.dict_get "goods" (inventory st) = Some goods
    /\ Py.dict_get "raw_material" (inventory st') = Some raw'
    /\ Py.dict_get "goods" (inventory st') = Some goods'
    /\ raw' == raw + net_purchases plan orders
    /\ goods' == goods + net_production plan
    /\ forall r2 st'',
         total_cost_for plan orders st' = Some (r2, st'') ->
         exists raw'' goods'',
           Py.dict_get "raw_material" (inventory st'') = Some raw''
           /\ Py.dict_get "goods" (inventory st'') = Some goods''
           /\ raw'' == raw + 2 * net_purchases plan orders
           /\ goods'' == goods + 2 * net_production plan.
Proof.
  intro Hrun.
  destruct (total_cost_inventory_effect _ _ _ _ _ Hrun)
    as (raw & goods & raw' & goods' & Hraw & Hgoods & Hraw' & Hgoods' & Er & Eg).
  exists raw, goods, raw', goods'. repeat (split; [assumption|]).
  intros r2 st'' Hrun2.
  destruct (total_cost_inventory_effect _ _ _ _ _ Hrun2)
    as (raw1 & goods1 & raw2 & goods2 & Hraw1 & Hgoods1 & Hraw2 & Hgoods2
        & Er2 & Eg2).
  rewrite Hraw' in Hraw1. rewrite Hgoods' in Hgoods1.
  injection Hraw1 as <-. injection Hgoods1 as <-.
  exists raw2, goods2. repeat split; try assumption; lra.
Qed.

End AggregatorClaims.

(** Two evaluations of one plan on the example inventory: both return, and
    they report different storage costs. *)
Lemma example_two_evaluations :
  exists r st' r2 st'',
    total_cost_on [5000; 6000] [13000; 13000] initial_store = Some (r, st')
    /\ total_cost_on [5000; 6000] [13000; 13000] st' = Some (r2, st'')
    /\ ~ storage (breakdown r) == storage (breakdown r2).
Proof.
  eexists _, _, _, _.
  split; [vm_compute; reflexivity|].
  split; [vm_compute; reflexivity|].
  intro Hc. vm_compute in Hc. discriminate Hc.
Qed.

(** The example inventory holds 5000 kg and 2000 boxes.  The first
    evaluation leaves 2400 kg and 3100 boxes; the second starts from these
    and leaves -200 kg and 4200 boxes. *)
Lemma total_cost_mutates_inventory_witness :
  exists r st' r2 st'',
    total_cost_on [5000; 6000] [13000; 13000] initial_store = Some (r, st')
    /\ total_cost_on [5000; 6000] [13000; 13000] st' = Some (r2, st'')
    /\ (exists raw' goods',
           Py.dict_get "raw_material" (inventory st') = Some raw'
           /\ Py.dict_get "goods" (inventory st') = Some goods'
           /\ raw' == 2400 /\ goods' == 3100)
    /\ (exists raw'' goods'',
           Py.dict_get "raw_material" (inventory st'') = Some raw''
           /\ Py.dict_get "goods" (inventory st'') = Some goods''
           /\ raw'' == -200 /\ goods'' == 4200)
    /\ ~ storage (breakdown r) == storage (breakdown r2).
Proof.
  destruct example_two_evaluations as (r & st' & r2 & st'' & E & E2 & Hdiff).
  destruct (total_cost_mutates_inventory _ _ _ _ _ _ _ _ _ _ _ _ _ _ _ _ E)
    as (raw & goods & raw' & goods' & Hraw & Hgoods & Hraw' & Hgoods' & Er & Eg
        & Hnext).
  destruct (Hnext _ _ E2) as (raw'' & goods'' & Hraw'' & Hgoods'' & Er2 & Eg2).
  simpl in Hraw, Hgoods. injection Hraw as <-. injection Hgoods as <-.
  exists r, st', r2, st''.
  split; [exact E|]. split; [exact E2|]. split; [|split].
  - exists raw', goods'. repeat split; try assumption.
    + rewrite Er. reflexivity.
    + rewrite Eg. reflexivity.
  - exists raw'', goods''. repeat split; try assumption.
    + rewrite Er2. reflexivity.
    + rewrite Eg2. reflexivity.
  - exact Hdiff.
Defined.

Section RiskClaims.
Context {G : Type} `{RandomSource G}.
Variables (material_per_box base_prices price_volatility : Py.dict).
Variables (defect_rate delivery_risk safety_stock_days : Q).
Variable (n_simulations : nat).
Variables (production_params storage_params logistics_params labor_params
           : Py.dict).

Let total_cost_for (production_plan raw_material_orders : list Q)
    : M (store G) total_cost_result :=
  calculate_total_cost production_plan raw_material_orders material_per_box
    base_prices price_volatility defect_rate delivery_risk safety_stock_days
    n_simulations production_params storage_params logistics_params
    labor_params.

(** C1, as the code has it.  The claim reads [demand_risk] as the relative
    shortfall of production below the baseline; the code computes the
    opposite side.  [calculate_total_cost] returns on runnable parameters
    and a stocked inventory.  On every run that returns, the baseline is
    the number of months times 10000 (a [target_boxes] entry in
    [production_params] makes the call raise), and for a plan of
    non-negative cumulative production [demand_risk] is
    [max(0, (produced - baseline) / produced)]: the relative excess of
    cumulative planned production over the baseline when production exceeds
    it, and zero whenever production is at or below the baseline. *)
Theorem demand_risk_is_relative_excess plan orders (st : store G) :
  0 <= Py.sum plan ->
  let produced := Py.sum plan in
  let baseline := inject_Z (Z.of_nat (List.length plan)) * 10000 in
  (runnable plan orders material_per_box base_prices price_volatility
     n_simulations production_params storage_params logistics_params
     labor_params ->
   stocked (inventory st) ->
   exists r st', total_cost_for plan orders st = Some (r, st'))
  /\ forall r st',
       total_cost_for plan orders st = Some (r, st') ->
       target_baseline plan production_params = baseline
       /\ exists d,
            demand_risk (risks r) = Np.Finite d
            /\ 0 <= d
            /\ (produced <= baseline -> d == 0)
            /\ (baseline < produced ->
                d == (produced - baseline) / produced /\ 0 < d).
Proof.
  intros Hnonneg produced baseline. split.
  { intros Hrunnable Hstocked. now apply calculate_total_cost_returns. }
  intros r st' Hrun.
  destruct (total_cost_run _ _ _ _ _ _ _ _ _ _ _ _ _ _ _ _ Hrun)
    as (t & Hloop & Hne & _).
  assert (Hlen : (1 <= List.length plan)%nat).
  { destruct plan; [congruence | simpl; lia]. }
  pose proof (months_bind_params _ _ _ _ _ _ _ _ _ _ _ _ _ _ _ _ _ _ Hlen Hloop)
    as Htarget.
  split.
  { unfold target_baseline, total_months, Py.dict_get_default.
    now rewrite Htarget. }
  destruct (total_cost_risks _ _ _ _ _ _ _ _ _ _ _ _ _ _ _ _ Hrun)
    as (_ & d & Hd & Hmax & _).
  destruct (demand_risk_cases (Py.sum plan) (default_baseline plan)
              (default_baseline_pos plan Hne))
    as (d' & Hmax' & Hpos & _ & Hbelow & Habove & _).
  rewrite Hmax in Hmax'. injection Hmax' as <-.
  exists d. repeat split; try assumption.
  - intro Hle. now apply Hbelow.
  - now apply Habove.
  - now apply Habove.
Qed.

(** C10, as the code has it.  The division by the cumulative production is
    numpy's: on a plan whose entries sum to zero it does not raise, it gives
    minus infinity, which [max(0, _)] replaces by zero.  On such a plan
    [calculate_total_cost] returns whenever the parameters are runnable and
    the inventory is stocked, and on every run that returns [demand_risk]
    is [0] and [total_risk] is the finite mean of the three risks. *)
Theorem zero_production_gives_zero_demand_risk plan orders (st : store G) :
  Py.sum plan == 0 ->
  (runnable plan orders material_per_box base_prices price_volatility
     n_simulations production_params storage_params logistics_params
     labor_params ->
   stocked (inventory st) ->
   exists r st', total_cost_for plan orders st = Some (r, st'))
  /\ forall r st',
       total_cost_for plan orders st = Some (r, st') ->
       Np.true_divide (Py.sum plan - target_baseline plan production_params)
                      (Py.sum plan) = Np.NegInf
       /\ demand_risk (risks r) = Np.Finite 0
       /\ total_risk (risks r)
          = Np.Finite ((supply_risk (risks r) + production_risk (risks r) + 0)
                       / 3).
Proof.
  intros Hzero. split.
  { intros Hrunnable Hstocked. now apply calculate_total_cost_returns. }
  intros r st' Hrun.
  destruct (total_cost_run _ _ _ _ _ _ _ _ _ _ _ _ _ _ _ _ Hrun)
    as (t & Hloop & Hne & _).
  assert (Hlen : (1 <= List.length plan)%nat).
  { destruct plan; [congruence | simpl; lia]. }
  pose proof (months_bind_params _ _ _ _ _ _ _ _ _ _ _ _ _ _ _ _ _ _ Hlen Hloop)
    as Htarget.
  destruct (total_cost_risks _ _ _ _ _ _ _ _ _ _ _ _ _ _ _ _ Hrun)
    as (_ & d & Hd & Hmax & Htotal).
  destruct (demand_risk_cases (Py.sum plan) (default_baseline plan)
              (default_baseline_pos plan Hne))
    as (d' & Hmax' & _ & Hz & _).
  rewrite Hmax in Hmax'. injection Hmax' as <-.
  destruct (Hz Hzero) as [Hinf ->].
  repeat split; try assumption.
  unfold target_baseline, total_months, Py.dict_get_default.
  rewrite Htarget. exact Hinf.
Qed.

End RiskClaims.

(** The example parameters are runnable and the example inventory is
    stocked. *)
Lemma example_runnable (plan orders : list Q) :
  plan <> [] -> (List.length plan <= List.length orders)%nat ->
  runnable plan orders material_per_box base_prices price_volatility 3
    production_params storage_params logistics_params labor_params.
Proof.
  intros Hne Hlen. unfold runnable.
  split; [exact Hne|]. split; [exact Hlen|]. split; [lia|].
  split.
  { unfold priced_materials. simpl.
    repeat constructor; eexists _, _, _;
      (split; [reflexivity|]); (split; [reflexivity|]);
      (split; [discriminate | reflexivity]). }
  split; [eexists; reflexivity|].
  split; [eexists; split; [reflexivity | discriminate]|].
  split; [eexists; reflexivity|].
  split; [eexists; split; [reflexivity | split; discriminate]|].
  eexists. split; [reflexivity|]. repeat split; discriminate.
Qed.

Lemma example_stocked : stocked (inventory initial_store).
Proof. split; eexists; reflexivity. Qed.

(** One month of 20000 boxes against the baseline of 10000: the risk is one
    half.  One month of 5000 boxes: the risk is zero. *)
Lemma demand_risk_is_relative_excess_witness :
  (exists r st' d,
      total_cost_on [20000] [26000] initial_store = Some (r, st')
      /\ demand_risk (risks r) = Np.Finite d /\ d == 1 # 2)
  /\ (exists r st' d,
         total_cost_on [5000] [13000] initial_store = Some (r, st')
         /\ demand_risk (risks r) = Np.Finite d /\ d == 0).
Proof.
  split.
  - destruct (demand_risk_is_relative_excess material_per_box base_prices
                price_volatility (5 # 100) (1 # 10) 7 3 production_params
                storage_params logistics_params labor_params
                [20000] [26000] initial_store)
      as [Hreturns Hrisk]; [discriminate|].
    destruct Hreturns as (r & st' & E);
      [apply example_runnable; [discriminate | simpl; lia]
      | exact example_stocked |].
    destruct (Hrisk r st' E) as (_ & d & Hd & _ & _ & Habove).
    exists r, st', d. repeat split; try assumption.
    destruct Habove as [Hval _]; [reflexivity|].
    rewrite Hval. reflexivity.
  - destruct (demand_risk_is_relative_excess material_per_box base_prices
                price_volatility (5 # 100) (1 # 10) 7 3 production_params
                storage_params logistics_params labor_params
                [5000] [13000] initial_store)
      as [Hreturns Hrisk]; [discriminate|].
    destruct Hreturns as (r & st' & E);
      [apply example_runnable; [discriminate | simpl; lia]
      | exact example_stocked |].
    destruct (Hrisk r st' E) as (_ & d & Hd & _ & Hbelow & _).
    exists r, st', d. repeat split; try assumption.
    apply Hbelow. discriminate.
Defined.

(** C1 fails as stated.  A plan of 20000 boxes in one month exceeds the
    baseline of 10000, and its [demand_risk] is one half, not zero; a plan
    of 5000 boxes falls short of the baseline by half of it, and its
    [demand_risk] is zero. *)
Lemma demand_risk_is_not_the_shortfall :
  (exists r st' d,
      total_cost_on [20000] [26000] initial_store = Some (r, st')
      /\ target_baseline [20000] production_params <= Py.sum [20000]
      /\ demand_risk (risks r) = Np.Finite d
      /\ d == 1 # 2 /\ ~ d == 0)
  /\ (exists r st',
         total_cost_on [5000] [13000] initial_store = Some (r, st')
         /\ Py.sum [5000] < target_baseline [5000] production_params
         /\ (target_baseline [5000] production_params - Py.sum [5000])
            / target_baseline [5000] production_params == 1 # 2
         /\ demand_risk (risks r) = Np.Finite 0).
Proof.
  split.
  - eexists _, _, _. split; [vm_compute; reflexivity|].
    repeat split; try discriminate.
  - eexists _, _. split; [vm_compute; reflexivity|].
    repeat split.
Qed.

(** A month without production: the run returns and the demand risk is
    zero. *)
Lemma zero_production_gives_zero_demand_risk_witness :
  exists r st',
    total_cost_on [0] [0] initial_store = Some (r, st')
    /\ demand_risk (risks r) = Np.Finite 0.
Proof.
  destruct (zero_production_gives_zero_demand_risk material_per_box base_prices
              price_volatility (5 # 100) (1 # 10) 7 3 production_params
              storage_params logistics_params labor_params
              [0] [0] initial_store)
    as [Hreturns Hrisk]; [reflexivity|].
  destruct Hreturns as (r & st' & E);
    [apply example_runnable; [discriminate | simpl; lia]
    | exact example_stocked |].
  destruct (Hrisk r st' E) as (_ & Hd & _).
  exists r, st'. now split.
Defined.

(** C10 fails as stated.  On the decision vector of one month without
    production and without purchases, which is non-negative and sums to
    zero, [calculate_total_cost] returns, [demand_risk] is [0],
    [total_risk] is a finite number and the objective has a finite value. *)
Lemma objective_is_defined_on_zero_production :
  exists r st' risk value st'',
    Py.sum [0] == 0
    /\ Forall (fun entry => 0 <= entry) [0; 0]
    /\ total_cost_on [0] [0] initial_store = Some (r, st')
    /\ demand_risk (risks r) = Np.Finite 0
    /\ total_risk (risks r) = Np.Finite risk
    /\ objective_on 1 [0; 0] initial_store = Some (Np.Finite value, st'').
Proof.
  eexists _, _, _, _, _.
  split; [reflexivity|].
  split; [repeat constructor; discriminate|].
  split; [vm_compute; reflexivity|].
  split; [reflexivity|]. split; [reflexivity|].
  vm_compute. reflexivity.
Qed.

Section ObjectiveClaims.
Context {G : Type} `{RandomSource G}.
Variables (target_boxes : Q).
Variables (material_per_box base_prices price_volatility : Py.dict).
Variables (defect_rate delivery_risk safety_stock_days : Q).
Variable (n_simulations : nat).
Variables (production_params storage_params logistics_params labor_params
           : Py.dict).
Variables (n_months : nat) (risk_tolerance : Q).

(** The sum of a vector of terms, term by term. *)
Lemma sum_map_fold_right (f : Q -> Q) (l : list Q) :
  Py.sum (map f l) == fold_right (fun p acc => f p + acc) 0 l.
Proof.
  induction l as [|p l IH]; simpl.
  - reflexivity.
  - rewrite sum_cons, IH. reflexivity.
Qed.

Lemma slice_first (n : nat) (x : list Q) : slice 0 n x = firstn n x.
Proof. unfold slice. now rewrite Nat.sub_0_r. Qed.

Lemma slice_second (n : nat) (x : list Q) :
  List.length x = (2 * n)%nat -> slice n (2 * n) x = skipn n x.
Proof.
  intro Hlen. unfold slice.
  replace (2 * n - n)%nat with n by lia.
  apply firstn_all2. rewrite length_skipn. lia.
Qed.

(** C2.  For every decision vector [x] of length [2 * n_months] on which
    the objective returns, the value that [optimize_business_costs] hands
    to the minimizer is the [total_cost] of [calculate_total_cost] on the
    two halves of [x], plus 100 times the sum over the months of
    [(production - target_boxes)^2], plus 1000000 times
    [max(0, total_risk - risk_tolerance)]. *)
Theorem objective_is_cost_plus_penalties (x : list Q) (st st' : store G)
    (v : Np.float64) :
  List.length x = (2 * n_months)%nat ->
  objective target_boxes material_per_box base_prices price_volatility
    defect_rate delivery_risk safety_stock_days n_simulations
    production_params storage_params logistics_params labor_params
    n_months risk_tolerance x st = Some (v, st') ->
  exists r risk value,
    calculate_total_cost (firstn n_months x) (skipn n_months x)
      material_per_box base_prices price_volatility
      defect_rate delivery_risk safety_stock_days n_simulations
      production_params storage_params logistics_params labor_params st
    = Some (r, st')
    /\ total_risk (risks r) = Np.Finite risk
    /\ v = Np.Finite value
    /\ value ==
       total_cost r
       + 100 * fold_right (fun produced acc =>
                             (produced - target_boxes) ^ 2 + acc)
                          0 (firstn n_months x)
       + 1000000 * Qmax 0 (risk - risk_tolerance).
Proof.
  intros Hlen Hrun. unfold objective, total_cost_of in Hrun.
  rewrite slice_first, (slice_second _ _ Hlen) in Hrun. inv_run.
  destruct (total_cost_risks _ _ _ _ _ _ _ _ _ _ _ _ _ _ _ _ Hm)
    as (_ & d & _ & _ & Hrisk).
  unfold risk_penalty. rewrite Hrisk. simpl.
  unfold Np.max0, Np.is_positive.
  set (risk := (supply_risk (risks a) + production_risk (risks a) + d) / 3).
  set (excess := risk + - risk_tolerance).
  unfold target_deviation_penalty.
  case_ltb 0 excess; simpl; eexists a, risk, _;
    (split; [exact Hm|]); (split; [exact Hrisk|]); (split; [reflexivity|]);
    rewrite sum_map_fold_right.
  - rewrite Q.max_r by (unfold excess in *; lra). unfold excess. ring.
  - rewrite Q.max_l by (unfold excess in *; lra). ring.
Qed.

End ObjectiveClaims.

(** The objective on one month of 20000 boxes and 26000 kg of purchases. *)
Lemma example_objective :
  objective_on 1 [20000; 26000] initial_store <> None.
Proof. vm_compute. discriminate. Qed.

(** The cost of the plan, the deviation penalty of
    [100 * (20000 - 10000)^2] and the risk penalty add up to the value. *)
Lemma objective_is_cost_plus_penalties_witness :
  exists r risk value st',
    objective_on 1 [20000; 26000] initial_store = Some (Np.Finite value, st')
    /\ total_cost_on [20000] [26000] initial_store = Some (r, st')
    /\ total_risk (risks r) = Np.Finite risk
    /\ value == total_cost r + 10000000000 + 1000000 * Qmax 0 (risk - (15 # 100)).
Proof.
  destruct (objective_on 1 [20000; 26000] initial_store)
    as [[v st']|] eqn:E; [|exfalso; exact (example_objective E)].
  destruct (objective_is_cost_plus_penalties 10000 material_per_box
              base_prices price_volatility (5 # 100) (1 # 10) 7 3%nat
              production_params storage_params logistics_params labor_params
              1%nat (15 # 100) [20000; 26000] initial_store st' v eq_refl E)
    as (r & risk & value & Hcost & Hrisk & -> & Hvalue).
  exists r, risk, value, st'.
  split; [reflexivity|]. split; [exact Hcost|]. split; [exact Hrisk|].
  exact Hvalue.
Defined.


(** * Further properties of the code *)

(** ** Loops that return *)

Section LoopFacts.
Context {S A B : Type}.

(** A loop that returns has run its body on every element. *)
Lemma for_each_ran (body : B -> A -> M S B) (l : list A) :
  forall acc s acc' s',
    for_each l body acc s = Some (acc', s') ->
    Forall (fun a => exists b s1 b' s1', body b a s1 = Some (b', s1')) l.
Proof.
  induction l as [|a l IH]; intros acc s acc' s' Hrun; simpl in Hrun.
  - constructor.
  - inv_run. constructor.
    + eexists _, _, _, _. eassumption.
    + eapply IH. eassumption.
Qed.

(** A loop of at least one round that returns has run its body on the
    initial accumulator. *)
Lemma repeat_n_first (body : B -> M S B) (n : nat) (acc acc' : B) (s s' : S) :
  (1 <= n)%nat ->
  repeat_n n body acc s = Some (acc', s') ->
  exists acc1 s1, body acc s = Some (acc1, s1).
Proof.
  destruct n as [|n]; [lia|]. intros _ Hrun. simpl in Hrun. inv_run.
  eexists _, _. eassumption.
Qed.

End LoopFacts.

Lemma normal_ran {G : Type} `{RandomSource G} (loc scale x : Q) (g g' : G) :
  Random.normal loc scale g = Some (x, g') -> 0 <= scale.
Proof.
  unfold Random.normal. case_ltb scale 0; [discriminate|]. intros _. exact E.
Qed.

(** ** Costs.py: when the Monte Carlo models raise *)

Section RaisingModels.
Context {G : Type} `{RandomSource G}.

(** The scenario loops return exactly [n_simulations] samples. *)
Lemma simulate_production_length tb a n (g g' : G) sims :
  simulate_production tb a n g = Some (sims, g') -> List.length sims = n.
Proof.
  intro Hrun.
  pose proof (repeat_n_length (fun l => l) _
                (production_trial_length tb a) n _ _ _ _ Hrun) as Hlen.
  simpl in Hlen. lia.
Qed.

Lemma simulate_raw_material_length tb mpb bp pv dr dlr days n (g g' : G) sims :
  simulate_raw_material tb mpb bp pv dr dlr days n g = Some (sims, g') ->
  List.length sims = n.
Proof.
  intro Hrun.
  pose proof (repeat_n_length (fun l => l) _
                (raw_material_trial_length tb mpb bp pv dr dlr days)
                n _ _ _ _ Hrun) as Hlen.
  simpl in Hlen. lia.
Qed.

Lemma simulate_storage_length a value n (g g' : G) sims risks :
  simulate_storage a value n g = Some ((sims, risks), g') ->
  List.length sims = n.
Proof.
  intro Hrun.
  pose proof (repeat_n_length fst _ (storage_trial_length a value n)
                n _ _ _ _ Hrun) as Hlen.
  simpl in Hlen. lia.
Qed.

Lemma simulate_logistics_length rv fv a n trucks (g g' : G) own contractor :
  simulate_logistics rv fv a n trucks g = Some ((own, contractor), g') ->
  List.length own = n /\ List.length contractor = n.
Proof.
  intro Hrun.
  pose proof (repeat_n_length fst _
                (fun b g b' g' Hb =>
                   proj1 (logistics_trial_lengths rv fv a trucks b g b' g' Hb))
                n _ _ _ _ Hrun) as Hlen1.
  pose proof (repeat_n_length snd _
                (fun b g b' g' Hb =>
                   proj2 (logistics_trial_lengths rv fv a trucks b g b' g' Hb))
                n _ _ _ _ Hrun) as Hlen2.
  simpl in Hlen1, Hlen2. lia.
Qed.

Lemma length_pos_of_mean (l : list Q) (m : Q) :
  Np.mean l = Np.Finite m -> (1 <= List.length l)%nat.
Proof.
  intro Hm. apply mean_finite_inv in Hm as [Hne _].
  destruct l; [congruence | simpl; lia].
Qed.

Lemma length_pos_of_amin (l : list Q) (lo : Q) :
  Np.amin l = Some lo -> (1 <= List.length l)%nat.
Proof. destruct l; [discriminate | simpl; lia]. Qed.

(** The production model returns exactly when there is a scenario to run
    and the standard deviation of the energy price is not negative. *)
Lemma production_returns_iff tb a n (g : G) :
  (exists r g', calculate_production_costs tb a n g = Some (r, g'))
  <-> (1 <= n)%nat /\ 0 <= energy_price_std a.
Proof.
  split.
  - intros (r & g' & Hrun). unfold calculate_production_costs in Hrun.
    inv_run.
    match goal with
    | Hs : simulate_production _ _ _ _ = Some (?sims, _),
      Hlo : Np.amin ?sims = Some _ |- _ =>
        pose proof (simulate_production_length _ _ _ _ _ _ Hs) as Hlen;
        pose proof (length_pos_of_amin _ _ Hlo) as Hpos;
        assert (Hn : (1 <= n)%nat) by lia;
        destruct (repeat_n_first _ _ _ _ _ _ Hn Hs) as (l1 & g1 & Hfirst)
    end.
    split; [exact Hn|].
    unfold production_trial in Hfirst. inv_run.
    match goal with
    | Hnorm : Random.normal _ _ _ = Some _ |- _ => exact (normal_ran _ _ _ _ _ Hnorm)
    end.
  - intros [Hn Hs]. now apply production_returns.
Qed.

(** The storage model returns exactly when there is a scenario to run. *)
Lemma storage_returns_iff a value n (g : G) :
  (exists r g', calculate_storage_costs a value n g = Some (r, g'))
  <-> (1 <= n)%nat.
Proof.
  split.
  - intros (r & g' & Hrun). unfold calculate_storage_costs in Hrun.
    inv_run.
    match goal with
    | Hs : simulate_storage _ _ _ _ = Some (?p, _) |- _ =>
        destruct p as [sims risks]
    end.
    inv_run.
    match goal with
    | Hs : simulate_storage _ _ _ _ = Some _,
      Hlo : Np.amin _ = Some _ |- _ =>
        pose proof (simulate_storage_length _ _ _ _ _ _ _ Hs) as Hlen;
        pose proof (length_pos_of_amin _ _ Hlo) as Hpos
    end.
    lia.
  - apply storage_returns.
Qed.

(** X1.  [calculate_production_costs] and [calculate_storage_costs] raise
    without a scenario ([n_simulations = 0], where the statistics of an
    empty sample are taken), and the production model raises on a negative
    standard deviation of the energy price: a run that returns has had at
    least one scenario and, for the production model, a standard deviation
    that is not negative. *)
Theorem production_and_storage_raise_without_scenarios tb pa sa value n (g : G) :
  ((exists r g', calculate_production_costs tb pa n g = Some (r, g'))
   -> (1 <= n)%nat /\ 0 <= energy_price_std pa)
  /\ ((exists r g', calculate_storage_costs sa value n g = Some (r, g'))
      -> (1 <= n)%nat)
  /\ calculate_production_costs tb pa 0 g = None
  /\ calculate_storage_costs sa value 0 g = None
  /\ (energy_price_std pa < 0 -> calculate_production_costs tb pa n g = None).
Proof.
  split; [apply production_returns_iff|].
  split; [apply storage_returns_iff|].
  split; [reflexivity|]. split; [reflexivity|].
  intro Hneg.
  destruct (calculate_production_costs tb pa n g) as [[r g']|] eqn:Hrun;
    [|reflexivity].
  exfalso.
  assert (Hret : exists r g',
             calculate_production_costs tb pa n g = Some (r, g'))
    by (now exists r, g').
  apply production_returns_iff in Hret as [_ Hstd]. lra.
Qed.

(** A material that a scenario has priced has a price, a volatility, a
    non-negative standard deviation and a consumption rate. *)
Lemma material_trial_ran tb mpb bp pv dr dlr days acc m (g g' : G) acc' :
  material_trial tb mpb bp pv dr dlr days acc m g = Some (acc', g') ->
  exists b v q,
    Py.dict_get m bp = Some b /\ Py.dict_get m pv = Some v
    /\ 0 <= b * v /\ Py.dict_get m mpb = Some q.
Proof.
  unfold material_trial. intro Hrun. inv_run.
  match goal with
  | Hb : Py.dict_get m bp = Some ?b, Hv : Py.dict_get m pv = Some ?v,
    Hn : Random.normal _ _ _ = Some _ |- _ =>
      pose proof (normal_ran _ _ _ _ _ Hn) as Hscale;
      assert (Hreq : exists x, Py.dict_get m (required_materials tb mpb dr)
                               = Some x);
      [|destruct Hreq as (x & Hx);
        unfold required_materials in Hx;
        rewrite dict_get_map_values in Hx;
        destruct (Py.dict_get m mpb) as [q|] eqn:Eq; [|discriminate];
        exists b, v, q; repeat split; assumption]
  end.
  match goal with
  | Hamount : (if ?c then _ else _) _ = Some _ |- _ =>
      destruct c; inv_run; eexists; eassumption
  end.
Qed.

Lemma raw_material_returns_iff tb mpb bp pv dr dlr days n (g : G) :
  (exists r g',
      calculate_raw_material_costs tb mpb bp pv dr dlr days n g = Some (r, g'))
  <-> (1 <= n)%nat /\ priced_materials mpb bp pv.
Proof.
  split.
  - intros (r & g' & Hrun). unfold calculate_raw_material_costs in Hrun.
    inv_run.
    match goal with
    | Hs : simulate_raw_material _ _ _ _ _ _ _ _ _ = Some (?sims, _),
      Hlo : Np.amin ?sims = Some _ |- _ =>
        pose proof (simulate_raw_material_length _ _ _ _ _ _ _ _ _ _ _ Hs)
          as Hlen;
        pose proof (length_pos_of_amin _ _ Hlo) as Hpos;
        assert (Hn : (1 <= n)%nat) by lia;
        destruct (repeat_n_first _ _ _ _ _ _ Hn Hs) as (l1 & g1 & Hfirst)
    end.
    split; [exact Hn|].
    unfold raw_material_trial in Hfirst.
    apply bind_inv in Hfirst as (total & g2 & Hloop & _).
    apply for_each_ran in Hloop. unfold priced_materials.
    eapply Forall_impl; [|exact Hloop].
    intros m (b0 & s1 & b' & s1' & Hmaterial).
    eapply material_trial_ran. exact Hmaterial.
  - intros [Hn Hp]. now apply raw_material_returns.
Qed.

Lemma logistics_returns_iff rv fv a n (g : G) :
  (exists r g', calculate_logistics_costs rv fv a n g = Some (r, g'))
  <-> (1 <= n)%nat /\ 0 <= fuel_price_std a /\ ~ truck_capacity a == 0.
Proof.
  split.
  - intros (r & g' & Hrun).
    destruct (logistics_report _ _ _ _ _ _ _ Hrun)
      as (trucks & own & contractor & mo & mc & lo & hi
          & Ht & Hs & Hmo & _).
    pose proof (length_pos_of_mean _ _ Hmo) as Hpos.
    destruct (simulate_logistics_length _ _ _ _ _ _ _ _ _ Hs) as [Hlen _].
    assert (Hn : (1 <= n)%nat) by lia.
    destruct (repeat_n_first _ _ _ _ _ _ Hn Hs) as ([o1 c1] & g1 & Hfirst).
    split; [exact Hn|]. split.
    + unfold logistics_trial in Hfirst. inv_run.
      match goal with
      | Hnorm : Random.normal _ _ _ = Some _ |- _ =>
          exact (normal_ran _ _ _ _ _ Hnorm)
      end.
    + intro Hcap. unfold trucks_needed, Np.true_divide in Ht.
      apply Qeq_bool_iff in Hcap. rewrite Hcap in Ht.
      destruct (Py.ltb 0 _); [discriminate|].
      destruct (Py.ltb _ 0); discriminate.
  - intros (Hn & Hs & Hcap). now apply logistics_returns.
Qed.

(** X2.  [calculate_raw_material_costs] raises without a scenario, and
    whenever a material of [base_prices] has no entry in [price_volatility]
    or in [material_per_box], or has a negative standard deviation
    [price * volatility]: a run that returns has had at least one scenario
    and, for every priced material, a volatility, a consumption rate and a
    standard deviation that is not negative.  (A material of
    [material_per_box] without a price is not looked at.) *)
Theorem raw_material_raises_on_unpriced_materials tb mpb bp pv dr dlr days n
    (g : G) :
  ((exists r g',
       calculate_raw_material_costs tb mpb bp pv dr dlr days n g = Some (r, g'))
   -> (1 <= n)%nat
      /\ Forall (fun m => exists b v q,
                   Py.dict_get m bp = Some b /\ Py.dict_get m pv = Some v
                   /\ 0 <= b * v /\ Py.dict_get m mpb = Some q)
                (Py.keys bp))
  /\ calculate_raw_material_costs tb mpb bp pv dr dlr days 0 g = None
  /\ (forall m b,
         In m (Py.keys bp) -> Py.dict_get m bp = Some b ->
         Py.dict_get m pv = None \/ Py.dict_get m mpb = None
         \/ (exists v, Py.dict_get m pv = Some v /\ b * v < 0) ->
         calculate_raw_material_costs tb mpb bp pv dr dlr days n g = None).
Proof.
  split; [apply raw_material_returns_iff|]. split.
  { destruct (calculate_raw_material_costs tb mpb bp pv dr dlr days 0 g)
      as [[r g']|] eqn:Hrun; [|reflexivity].
    exfalso.
    assert (Hret : exists r g',
               calculate_raw_material_costs tb mpb bp pv dr dlr days 0 g
               = Some (r, g')) by (now exists r, g').
    apply raw_material_returns_iff in Hret as [Hn _]. lia. }
  intros m b Hin Hb Hbad.
  destruct (calculate_raw_material_costs tb mpb bp pv dr dlr days n g)
    as [[r g']|] eqn:Hrun; [|reflexivity].
  exfalso.
  assert (Hret : exists r g',
             calculate_raw_material_costs tb mpb bp pv dr dlr days n g
             = Some (r, g')) by (now exists r, g').
  apply raw_material_returns_iff in Hret as [_ Hp].
  unfold priced_materials in Hp. rewrite Forall_forall in Hp.
  destruct (Hp m Hin) as (b' & v & q & Hb' & Hv & Hs & Hq).
  rewrite Hb in Hb'. injection Hb' as <-.
  destruct Hbad as [Hnone | [Hnone | (v' & Hv' & Hneg)]].
  - congruence.
  - congruence.
  - rewrite Hv in Hv'. injection Hv' as <-. lra.
Qed.

(** X3.  [calculate_logistics_costs] raises without a scenario, on a
    negative standard deviation of the fuel price and on a truck capacity
    of zero (the number of trucks is then infinite or undefined, and [int]
    raises on it): a run that returns has had at least one scenario, a
    standard deviation that is not negative and a capacity that is not
    zero. *)
Theorem logistics_raises_on_zero_capacity rv fv a n (g : G) :
  ((exists r g', calculate_logistics_costs rv fv a n g = Some (r, g'))
   -> (1 <= n)%nat /\ 0 <= fuel_price_std a /\ ~ truck_capacity a == 0)
  /\ calculate_logistics_costs rv fv a 0 g = None
  /\ (truck_capacity a == 0 -> calculate_logistics_costs rv fv a n g = None)
  /\ (fuel_price_std a < 0 -> calculate_logistics_costs rv fv a n g = None).
Proof.
  assert (Hraise : forall k,
             ~ ((1 <= k)%nat /\ 0 <= fuel_price_std a
                /\ ~ truck_capacity a == 0) ->
             calculate_logistics_costs rv fv a k g = None).
  { intros k Hbad.
    destruct (calculate_logistics_costs rv fv a k g) as [[r g']|] eqn:Hrun;
      [|reflexivity].
    exfalso. apply Hbad. apply (logistics_returns_iff rv fv a k g).
    now exists r, g'. }
  split; [apply logistics_returns_iff|].
  split; [apply Hraise; intros [Hn _]; lia|].
  split.
  - intro Hcap. apply Hraise. intros (_ & _ & Hnz). contradiction.
  - intro Hneg. apply Hraise. intros (_ & Hstd & _). lra.
Qed.

End RaisingModels.

(** ** Costs.py: bounds on what the models report *)

Section ReportedBounds.
Context {G : Type} `{RandomSource G}.

Lemma round_comp (a b : Q) (n : nat) : a == b -> Py.round a n == Py.round b n.
Proof.
  intro Hab. apply Qle_antisym; apply round_mono; lra.
Qed.

Lemma int_of_integer (z : Z) : Py.int (inject_Z z) = z.
Proof.
  unfold Py.int. destruct (Py.ltb _ _); [apply Qceiling_Z | apply Qfloor_Z].
Qed.

(** The share of samples above a threshold lies between zero and one. *)
Lemma share_above_bounds (budget : Q) (sims : list Q) (share : Q) :
  share_above budget sims = Np.Finite share -> 0 <= share <= 1.
Proof.
  unfold share_above. intro Hm.
  set (flags := map (fun c => if Py.ltb budget c then 1 else 0) sims) in *.
  assert (Hflags : Forall (fun y => 0 <= y) flags /\ Forall (fun y => y <= 1) flags).
  { subst flags. split; apply Forall_map, Forall_forall; intros c _;
      destruct (Py.ltb budget c); lra. }
  destruct Hflags as [Hlo Hhi].
  apply mean_finite_inv in Hm as [Hne ->].
  pose proof (count_pos flags Hne) as Hn.
  pose proof (sum_lower flags 0 Hlo) as H1.
  pose proof (sum_upper flags 1 Hhi) as H2.
  split.
  - apply Qle_shift_div_l; [exact Hn | lra].
  - apply Qle_shift_div_r; [exact Hn | lra].
Qed.

Lemma risk_above_budget_bounds tb mpb bp pv dr dlr days n (g g' : G) r :
  calculate_raw_material_costs tb mpb bp pv dr dlr days n g = Some (r, g') ->
  0 <= rm_risk_above_budget r <= 100.
Proof.
  unfold calculate_raw_material_costs. intro Hrun. inv_run.
  destruct (share_above _ _) as [share| | |] eqn:Eshare; inv_run. simpl.
  apply share_above_bounds in Eshare as [Hlo Hhi].
  assert (E0 : Py.round 0 1 == 0) by reflexivity.
  assert (E100 : Py.round 100 1 == 100) by reflexivity.
  split.
  - apply Qle_trans with (Py.round 0 1); [rewrite E0; lra|].
    apply round_mono. lra.
  - apply Qle_trans with (Py.round 100 1); [|rewrite E100; lra].
    apply round_mono. lra.
Qed.

(** X4.  The [risk_above_budget] that [calculate_raw_material_costs]
    reports is a percentage: it lies between 0 and 100 on every run that
    returns, whatever prices are drawn. *)
Theorem risk_above_budget_is_a_percentage tb mpb bp pv dr dlr days n
    (g g' : G) r :
  calculate_raw_material_costs tb mpb bp pv dr dlr days n g = Some (r, g') ->
  0 <= rm_risk_above_budget r <= 100.
Proof. apply risk_above_budget_bounds. Qed.



End ReportedBounds.


Lemma risk_above_budget_is_a_percentage_witness :
  exists r g',
    calculate_raw_material_costs 10000 material_per_box base_prices
      price_volatility (5 # 100) (1 # 10) 7 3 0%Z = Some (r, g')
    /\ 0 <= rm_risk_above_budget r <= 100.
Proof.
  destruct (calculate_raw_material_costs 10000 material_per_box base_prices
              price_volatility (5 # 100) (1 # 10) 7 3 0%Z)
    as [[r g']|] eqn:E; [|vm_compute in E; discriminate E].
  exists r, g'. split; [reflexivity|].
  exact (risk_above_budget_is_a_percentage _ _ _ _ _ _ _ _ _ _ _ E).
Defined.



(** ** Costs.py: the storage model *)

Lemma fold_min_ge (l : list Q) (x b : Q) :
  b <= x -> Forall (fun y => b <= y) l -> b <= fold_left Qmin l x.
Proof.
  revert x. induction l as [|y l IH]; intros x Hx Hl; simpl.
  - exact Hx.
  - inversion Hl; subst. apply IH; [|assumption]. now apply Q.min_glb.
Qed.

Lemma fold_max_le (l : list Q) (x b : Q) :
  x <= b -> Forall (fun y => y <= b) l -> fold_left Qmax l x <= b.
Proof.
  revert x. induction l as [|y l IH]; intros x Hx Hl; simpl.
  - exact Hx.
  - inversion Hl; subst. apply IH; [|assumption]. now apply Q.max_lub.
Qed.

Lemma amin_ge (l : list Q) (lo b : Q) :
  Forall (fun y => b <= y) l -> Np.amin l = Some lo -> b <= lo.
Proof.
  destruct l as [|x l]; simpl; [discriminate|].
  intros Hl [= <-]. inversion Hl; subst. now apply fold_min_ge.
Qed.

Lemma amax_le (l : list Q) (hi b : Q) :
  Forall (fun y => y <= b) l -> Np.amax l = Some hi -> hi <= b.
Proof.
  destruct l as [|x l]; simpl; [discriminate|].
  intros Hl [= <-]. inversion Hl; subst. now apply fold_max_le.
Qed.

Lemma qnat_succ (k : nat) : qnat (Datatypes.S k) == qnat k + 1.
Proof.
  unfold qnat. rewrite Nat2Z.inj_succ. unfold Z.succ.
  rewrite inject_Z_plus. reflexivity.
Qed.

Lemma qnat_nonneg (k : nat) : 0 <= qnat k.
Proof. unfold qnat. change 0 with (inject_Z 0). rewrite <- Zle_Qle. lia. Qed.

Lemma qnat_le (j k : nat) : (j <= k)%nat -> qnat j <= qnat k.
Proof. intro Hjk. unfold qnat. rewrite <- Zle_Qle. lia. Qed.

Lemma qnat_pos (k : nat) : (1 <= k)%nat -> 0 < qnat k.
Proof.
  intro Hk. unfold qnat. change 0 with (inject_Z 0). rewrite <- Zlt_Qlt. lia.
Qed.

(** Adding the same amount [k] times, from zero. *)
Lemma sum_repeat (c : Q) (k : nat) : Py.sum (repeat c k) == qnat k * c.
Proof.
  induction k as [|k IH].
  - change (qnat 0) with 0. cbn [repeat]. rewrite sum_nil. ring.
  - cbn [repeat]. rewrite sum_cons, IH, qnat_succ. ring.
Qed.

Section StorageModel.
Context {G : Type} `{RandomSource G}.
Variables (a : storage_args) (value : Q) (n : nat).

Let s1 : Q := rent_surcharge a.
Let s2 : Q := spoilage_surcharge a value.
Let s3 : Q := security_surcharge value.

(** One scenario: its events are those that the three draws decide, and
    each event that happened adds its surcharge over [n] to its entry of
    the risk breakdown. *)
Lemma storage_trial_step (l : list Q) (risks : storage_risks) (g : G)
    (l' : list Q) (risks' : storage_risks) (g' : G) :
  storage_trial a value n (l, risks) g = Some ((l', risks'), g') ->
  let e := fst (scenario_events a g) in
  g' = snd (scenario_events a g)
  /\ rent_increase risks'
     == rent_increase risks + pick (rent_hit e) (s1 / qnat n)
  /\ extra_spoilage risks'
     == extra_spoilage risks + pick (spoilage_hit e) (s2 / qnat n)
  /\ security_incidents risks'
     == security_incidents risks + pick (security_hit e) (s3 / qnat n).
Proof.
  unfold storage_trial, scenario_events, bind, Random.rand, ret.
  unfold rent_hit, spoilage_hit, security_hit, s1, s2, s3, rent_surcharge,
    spoilage_surcharge, security_surcharge, per_trial, qnat, pick.
  do 3 (match goal with
        | |- context [draw_uniform ?x] =>
            is_var x; destruct (draw_uniform x) as [? ?]
        end;
        match goal with
        | |- context [if Py.ltb ?u ?c then _ else _] => destruct (Py.ltb u c)
        end;
        cbn).
  all: intros [= <- <- <-]; cbn; repeat split; ring.
Qed.

Lemma hits_cons (event : bool * bool * bool -> bool) e events :
  qnat (hits event (e :: events)) * 1
  == pick (event e) 1 + qnat (hits event events).
Proof.
  unfold hits, pick. cbn [filter]. destruct (event e).
  - cbn [List.length]. rewrite qnat_succ. ring.
  - ring.
Qed.

(** The scenario loop, from any state on: every entry of the risk
    breakdown grows by its surcharge over [n], once for every scenario in
    which its event happens. *)
Lemma storage_loop (k : nat) :
  forall (l : list Q) (risks : storage_risks) (g : G)
         (l' : list Q) (risks' : storage_risks) (g' : G),
    repeat_n k (storage_trial a value n) (l, risks) g
    = Some ((l', risks'), g') ->
    rent_increase risks'
    == rent_increase risks
       + qnat (hits rent_hit (storage_events a k g)) * (s1 / qnat n)
    /\ extra_spoilage risks'
       == extra_spoilage risks
          + qnat (hits spoilage_hit (storage_events a k g)) * (s2 / qnat n)
    /\ security_incidents risks'
       == security_incidents risks
          + qnat (hits security_hit (storage_events a k g)) * (s3 / qnat n).
Proof.
  induction k as [|k IH]; intros l risks g l' risks' g' Hrun;
    cbn [repeat_n storage_events] in *.
  - apply ret_inv in Hrun as [Hres _]. injection Hres as -> ->.
    change (qnat (hits _ [])) with 0. repeat split; ring.
  - apply bind_inv in Hrun as ([l1 risks1] & g1 & Hstep & Hrest).
    apply storage_trial_step in Hstep as (-> & Hr1 & Hr2 & Hr3).
    apply IH in Hrest as (Hq1 & Hq2 & Hq3).
    destruct (scenario_events a g) as [e g1]. cbn [fst snd] in *.
    pose proof (hits_cons rent_hit e (storage_events a k g1)) as E1.
    pose proof (hits_cons spoilage_hit e (storage_events a k g1)) as E2.
    pose proof (hits_cons security_hit e (storage_events a k g1)) as E3.
    rewrite Hq1, Hq2, Hq3, Hr1, Hr2, Hr3.
    setoid_replace (qnat (hits rent_hit (e :: storage_events a k g1)))
      with (pick (rent_hit e) 1 + qnat (hits rent_hit (storage_events a k g1)))
      by (rewrite <- E1; ring).
    setoid_replace (qnat (hits spoilage_hit (e :: storage_events a k g1)))
      with (pick (spoilage_hit e) 1
            + qnat (hits spoilage_hit (storage_events a k g1)))
      by (rewrite <- E2; ring).
    setoid_replace (qnat (hits security_hit (e :: storage_events a k g1)))
      with (pick (security_hit e) 1
            + qnat (hits security_hit (storage_events a k g1)))
      by (rewrite <- E3; ring).
    unfold pick.
    destruct (rent_hit e), (spoilage_hit e), (security_hit e);
      repeat split; ring.
Qed.

(** X9.  Each entry of the storage model's [risk_breakdown] is the
    surcharge of its event over [n_simulations], added once for every
    scenario in which the event happened: the scenarios whose first draw is
    below 0.1 for the rent, whose second draw is below [spoilage_risk] for
    the spoilage, whose third draw is below [security_breach_risk] for the
    security incidents. *)
Theorem storage_risk_breakdown_counts_the_hits (g g' : G) (r : storage_result) :
  calculate_storage_costs a value n g = Some (r, g') ->
  let events := storage_events a n g in
  rent_increase (sc_risk_breakdown r)
  == Py.sum (repeat (rent_surcharge a / qnat n) (hits rent_hit events))
  /\ extra_spoilage (sc_risk_breakdown r)
     == Py.sum (repeat (spoilage_surcharge a value / qnat n)
                       (hits spoilage_hit events))
  /\ security_incidents (sc_risk_breakdown r)
     == Py.sum (repeat (security_surcharge value / qnat n)
                       (hits security_hit events)).
Proof.
  intro Hrun. cbv zeta. unfold calculate_storage_costs in Hrun.
  apply bind_inv in Hrun as ([sims risks] & g1 & Hsim & Hrun).
  inv_run.
  destruct (Np.mean sims) as [m| | |] eqn:Em; inv_run.
  cbn [sc_risk_breakdown].
  destruct (storage_loop _ _ _ _ _ _ _ Hsim) as (Hq1 & Hq2 & Hq3).
  rewrite Hq1, Hq2, Hq3, !sum_repeat.
  cbn [no_risks rent_increase extra_spoilage security_incidents].
  unfold s1, s2, s3. repeat split; ring.
Qed.

End StorageModel.

(** Three scenarios from the generator state 8: the first draw of the
    first scenario is 0.07, a rent increase, and no other event happens. *)
Lemma example_storage_run_with_rent_increase :
  exists r g',
    calculate_storage_costs storage_example 10000000 3 8%Z = Some (r, g').
Proof. eexists _, _. vm_compute. reflexivity. Qed.

Lemma storage_risk_breakdown_counts_the_hits_witness :
  exists r g',
    calculate_storage_costs storage_example 10000000 3 8%Z = Some (r, g')
    /\ hits rent_hit (storage_events storage_example 3 8%Z) = 1%nat
    /\ rent_increase (sc_risk_breakdown r) == 25000.
Proof.
  destruct example_storage_run_with_rent_increase as (r & g' & Hrun).
  exists r, g'. split; [exact Hrun|]. split; [reflexivity|].
  pose proof (storage_risk_breakdown_counts_the_hits _ _ _ _ _ _ Hrun)
    as Hcounts.
  cbv zeta in Hcounts. destruct Hcounts as (Hrent & _).
  rewrite Hrent. reflexivity.
Defined.

(** ** Costs.py: labor against automation *)

Lemma div_ran (x y q : Q) : Py.div x y = Some q -> ~ y == 0 /\ q = x / y.
Proof.
  unfold Py.div. destruct (Qeq_bool y 0) eqn:E; [discriminate|].
  intros [= <-]. split; [now apply Qeq_bool_neq | reflexivity].
Qed.

(** The months of the horizon are [1 .. n_months]. *)
Lemma months_nth (a : labor_args) (k : nat) (m : Z) :
  nth_error (months a) k = Some m ->
  m = Z.of_nat (Datatypes.S k) /\ (Z.of_nat (Datatypes.S k) <= n_months a)%Z.
Proof.
  unfold months, Py.range. intro Hnth. rewrite nth_error_map in Hnth.
  destruct (nth_error (seq 0 (Z.to_nat (n_months a + 1 - 1))) k) as [i|] eqn:Hi;
    [|discriminate].
  cbn [option_map] in Hnth. injection Hnth as <-.
  assert (Hlt : (k < Z.to_nat (n_months a + 1 - 1))%nat).
  { assert (Hsome : nth_error (seq 0 (Z.to_nat (n_months a + 1 - 1))) k <> None)
      by (rewrite Hi; discriminate).
    apply nth_error_Some in Hsome. now rewrite length_seq in Hsome. }
  apply (nth_error_nth _ _ 0%nat) in Hi. rewrite seq_nth in Hi by exact Hlt.
  subst i. split; [|lia].
  change ((1 + Z.of_nat (0 + k))%Z = Z.of_nat (Datatypes.S k)). lia.
Qed.

Lemma months_length (a : labor_args) :
  List.length (months a) = Z.to_nat (n_months a).
Proof.
  unfold months, Py.range. rewrite length_map, length_seq. f_equal. lia.
Qed.

Lemma saved_zero a savings ms : saved a savings ms 0 == 0.
Proof. reflexivity. Qed.

Lemma saved_succ a savings month ms j :
  saved a savings (month :: ms) (Datatypes.S j)
  == savings / discount a month + saved a savings ms j.
Proof. unfold saved. rewrite firstn_cons, map_cons. apply sum_cons. Qed.

(** The break-even loop over any list of months: it returns the first
    month at which the accumulated savings reach the investment, and no
    month when none does. *)
Lemma break_even_from_first (a : labor_args) (savings initial : Q) (ms : list Z) :
  forall (cumulative : Q) (res : option Z),
    break_even_from a ms cumulative savings initial = Some res ->
    match res with
    | Some m =>
        exists k, nth_error ms k = Some m
                  /\ initial <= cumulative + saved a savings ms (Datatypes.S k)
                  /\ forall j, (1 <= j <= k)%nat ->
                               cumulative + saved a savings ms j < initial
    | None =>
        forall j, (1 <= j <= List.length ms)%nat ->
                  cumulative + saved a savings ms j < initial
    end.
Proof.
  induction ms as [|month ms IH]; intros cumulative res Hrun;
    cbn [break_even_from] in Hrun.
  - injection Hrun as <-. intros j Hj. simpl in Hj. lia.
  - apply obind_inv in Hrun as (d & Hd & Hrun).
    apply div_ran in Hd as [_ ->].
    destruct (Py.leb initial _) eqn:Ereach.
    + injection Hrun as <-. exists 0%nat.
      apply Qle_bool_iff in Ereach.
      split; [reflexivity|]. split.
      * rewrite saved_succ, saved_zero. lra.
      * intros j Hj. lia.
    + assert (Hbelow : cumulative + savings / discount a month < initial).
      { apply Qnot_le_lt. intro Hle. apply Qle_bool_iff in Hle.
        unfold Py.leb in Ereach. congruence. }
      specialize (IH _ _ Hrun).
      destruct res as [m|].
      * destruct IH as (k & Hk & Hreach & Hbefore).
        exists (Datatypes.S k). split; [exact Hk|]. split.
        -- rewrite saved_succ. lra.
        -- intros j Hj. destruct j as [|j]; [lia|]. rewrite saved_succ.
           destruct j as [|j].
           ++ rewrite saved_zero. lra.
           ++ assert (Hj' : (1 <= Datatypes.S j <= k)%nat) by lia.
              specialize (Hbefore _ Hj'). lra.
      * intros j Hj. destruct j as [|j]; [lia|]. rewrite saved_succ.
        destruct j as [|j].
        -- rewrite saved_zero. lra.
        -- assert (Hj' : (1 <= Datatypes.S j <= List.length ms)%nat)
             by (simpl in Hj; lia).
           specialize (IH _ Hj'). lra.
Qed.

(** What a run of the labor model that returns has computed. *)
Lemma labor_report (target_boxes : Q) (a : labor_args) (r : labor_result) :
  calculate_labor_vs_automation target_boxes a = Some r ->
  exists workers robots labor_npv robot_npv,
    n_workers target_boxes a = Some workers
    /\ n_robots target_boxes a = Some robots
    /\ ~ robot_lifespan a == 0
    /\ npv a 0 (monthly_labor_cost a workers + annual_training a workers)
       = Some labor_npv
    /\ npv a (initial_robot_cost a robots) (monthly_robot_cost a robots)
       = Some robot_npv
    /\ optimal_solution r
       = (if Py.ltb labor_npv (robot_npv * (1 + risk_adjustment a))
          then Labor else Automation)
    /\ labor_cost r = Py.int labor_npv
    /\ automation_cost r = Py.int (robot_npv * (1 + risk_adjustment a))
    /\ match optimal_solution r with
       | Labor => break_even_months r = None
       | Automation =>
           break_even_from a (months a) 0
             (monthly_labor_cost a workers - monthly_robot_cost a robots)
             (initial_robot_cost a robots)
           = Some (break_even_months r)
       end.
Proof.
  unfold calculate_labor_vs_automation. intro Hrun.
  apply obind_inv in Hrun as (workers & Hw & Hrun).
  apply obind_inv in Hrun as (labor_npv & Hl & Hrun).
  apply obind_inv in Hrun as (robots & Hr & Hrun).
  apply obind_inv in Hrun as (depreciation & Hd & Hrun).
  apply obind_inv in Hrun as (robot_npv & Ha & Hrun).
  apply obind_inv in Hrun as (break_even & Hb & Hrun).
  injection Hrun as <-.
  apply div_ran in Hd as [Hlife ->].
  exists workers, robots, labor_npv, robot_npv. simpl.
  repeat (split; [assumption|]).
  split; [reflexivity|]. split; [reflexivity|]. split; [reflexivity|].
  destruct (Py.ltb labor_npv _).
  - now injection Hb as <-.
  - exact Hb.
Qed.

(** X10.  When automation wins, [break_even_months] is the first month of
    the horizon at which the discounted monthly savings (labor cost minus
    robot cost), accumulated from month 1, reach the initial robot cost: at
    that month they are at least the investment, at every earlier month
    they are below it; it is [None] exactly when no month of the horizon
    reaches it. *)
Theorem break_even_is_first_month_of_recovery (target_boxes : Q)
    (a : labor_args) (r : labor_result) :
  calculate_labor_vs_automation target_boxes a = Some r ->
  optimal_solution r = Automation ->
  exists workers robots,
    n_workers target_boxes a = Some workers
    /\ n_robots target_boxes a = Some robots
    /\ let savings :=
         monthly_labor_cost a workers - monthly_robot_cost a robots in
       let investment := initial_robot_cost a robots in
       match break_even_months r with
       | Some m =>
           (1 <= m <= n_months a)%Z
           /\ investment <= cumulative_savings a savings (Z.to_nat m)
           /\ forall j, (1 <= j < Z.to_nat m)%nat ->
                        cumulative_savings a savings j < investment
       | None =>
           forall j, (1 <= j <= Z.to_nat (n_months a))%nat ->
                     cumulative_savings a savings j < investment
       end.
Proof.
  intros Hrun Hauto.
  destruct (labor_report _ _ _ Hrun)
    as (workers & robots & labor_npv & robot_npv & Hw & Hr & _ & _ & _ & _
        & _ & _ & Hbreak).
  rewrite Hauto in Hbreak.
  exists workers, robots. split; [exact Hw|]. split; [exact Hr|].
  intros savings investment.
  pose proof (break_even_from_first _ _ _ _ _ _ Hbreak) as Hfirst.
  change (cumulative_savings a savings) with (saved a savings (months a)).
  fold savings investment in Hfirst.
  destruct (break_even_months r) as [m|].
  - destruct Hfirst as (k & Hk & Hreach & Hbefore).
    apply months_nth in Hk as [-> Hle].
    rewrite Nat2Z.id.
    split; [lia|]. split.
    + lra.
    + intros j Hj. assert (Hj' : (1 <= j <= k)%nat) by lia.
      specialize (Hbefore _ Hj'). lra.
  - intros j Hj. rewrite months_length in Hfirst.
    specialize (Hfirst _ Hj). lra.
Qed.

(** X11.  The solution that [calculate_labor_vs_automation] picks never
    has the higher reported cost: labor is picked only when its reported
    cost is at most that of automation (and then no break-even month is
    reported), automation only when its reported cost is at most that of
    labor. *)
Theorem chosen_solution_is_not_dearer (target_boxes : Q) (a : labor_args)
    (r : labor_result) :
  calculate_labor_vs_automation target_boxes a = Some r ->
  match optimal_solution r with
  | Labor =>
      (labor_cost r <= automation_cost r)%Z /\ break_even_months r = None
  | Automation => (automation_cost r <= labor_cost r)%Z
  end.
Proof.
  intro Hrun.
  destruct (labor_report _ _ _ Hrun)
    as (workers & robots & labor_npv & robot_npv & _ & _ & _ & _ & _ & Hopt
        & Hlabor & Hauto & Hbreak).
  rewrite Hlabor, Hauto. rewrite Hopt in *.
  case_ltb labor_npv (robot_npv * (1 + risk_adjustment a)).
  - split; [apply int_mono; lra | exact Hbreak].
  - now apply int_mono.
Qed.

Lemma labor_example_run :
  calculate_labor_vs_automation 10000 labor_example
  = Some {| optimal_solution := Automation;
            labor_cost := 75318978;
            automation_cost := 30275141;
            break_even_months := Some 4%Z |}.
Proof. vm_compute. reflexivity. Qed.

Lemma break_even_is_first_month_of_recovery_witness :
  exists workers robots,
    n_workers 10000 labor_example = Some workers
    /\ n_robots 10000 labor_example = Some robots
    /\ (1 <= 4 <= n_months labor_example)%Z
    /\ initial_robot_cost labor_example robots
       <= cumulative_savings labor_example
            (monthly_labor_cost labor_example workers
             - monthly_robot_cost labor_example robots) 4.
Proof.
  destruct (break_even_is_first_month_of_recovery _ _ _ labor_example_run
              eq_refl)
    as (workers & robots & Hw & Hr & Hfirst).
  exists workers, robots. split; [exact Hw|]. split; [exact Hr|].
  destruct Hfirst as (Hm & Hreach & _). split; [exact Hm | exact Hreach].
Defined.

Lemma chosen_solution_is_not_dearer_witness :
  exists r,
    calculate_labor_vs_automation 10000 labor_example = Some r
    /\ optimal_solution r = Automation
    /\ (automation_cost r <= labor_cost r)%Z.
Proof.
  eexists. split; [exact labor_example_run|]. split; [reflexivity|].
  exact (chosen_solution_is_not_dearer _ _ _ labor_example_run).
Defined.

(** The number of workers or robots is undefined when the productivity is
    zero: the quotient is then infinite or undefined, and [int] raises. *)
Lemma headcount_ran (target_boxes productivity : Q) (k : Z) :
  Np.to_int (Np.ceil (Np.true_divide target_boxes productivity)) = Some k ->
  ~ productivity == 0.
Proof.
  unfold Np.true_divide.
  destruct (Qeq_bool productivity 0) eqn:E.
  - destruct (Py.ltb 0 target_boxes); [discriminate|].
    destruct (Py.ltb target_boxes 0); discriminate.
  - intros _. now apply Qeq_bool_neq.
Qed.

Lemma months_empty (a : labor_args) : (n_years a <= 0)%Z -> months a = [].
Proof.
  intro Hn. unfold months, Py.range, n_months.
  replace (Z.to_nat (n_years a * 12 + 1 - 1)) with 0%nat by lia. reflexivity.
Qed.

Lemma months_first (a : labor_args) :
  (1 <= n_years a)%Z -> exists ms, months a = 1%Z :: ms.
Proof.
  intro Hn. pose proof (months_length a) as Hlen.
  destruct (months a) as [|m ms] eqn:E.
  - unfold n_months in Hlen. simpl in Hlen. lia.
  - exists ms. f_equal.
    assert (Hnth : nth_error (months a) 0 = Some m) by now rewrite E.
    now apply months_nth in Hnth as [-> _].
Qed.

(** A discounted sum over a horizon of at least one month has divided by
    the discount factor of month 1. *)
Lemma npv_ran (a : labor_args) (start monthly_cost v : Q) :
  (1 <= n_years a)%Z ->
  npv a start monthly_cost = Some v ->
  ~ 1 + discount_rate a / 12 == 0.
Proof.
  intros Hn Hrun. destruct (months_first a Hn) as (ms & Hms).
  unfold npv in Hrun. rewrite Hms in Hrun. cbn [ofold] in Hrun.
  apply obind_inv in Hrun as (acc & Hacc & _).
  apply obind_inv in Hacc as (d & Hd & _).
  now apply div_ran in Hd as [Hd _].
Qed.

(** The labor model returns exactly when no divisor is zero. *)
Lemma labor_returns_iff (target_boxes : Q) (a : labor_args) :
  (exists r, calculate_labor_vs_automation target_boxes a = Some r)
  <-> (~ workers_productivity a == 0
       /\ ~ robot_productivity a == 0
       /\ ~ robot_lifespan a == 0
       /\ ((1 <= n_years a)%Z -> ~ 1 + discount_rate a / 12 == 0)).
Proof.
  split.
  - intros (r & Hrun).
    destruct (labor_report _ _ _ Hrun)
      as (workers & robots & labor_npv & robot_npv & Hw & Hr & Hlife & Hnpv
          & _).
    split; [exact (headcount_ran _ _ _ Hw)|].
    split; [exact (headcount_ran _ _ _ Hr)|].
    split; [exact Hlife|].
    intro Hn. exact (npv_ran _ _ _ _ Hn Hnpv).
  - intros (Hw & Hr & Hlife & Hbase).
    destruct (Z_le_gt_dec 1 (n_years a)) as [Hn|Hn].
    + exact (labor_returns target_boxes a Hw Hr Hlife (Hbase Hn)).
    + assert (Hms : months a = []) by (apply months_empty; lia).
      unfold calculate_labor_vs_automation, Np.true_divide, npv, Py.div.
      rewrite Hms.
      destruct (Qeq_bool (workers_productivity a) 0) eqn:Ew;
        [apply Qeq_bool_eq in Ew; contradiction|].
      destruct (Qeq_bool (robot_productivity a) 0) eqn:Er;
        [apply Qeq_bool_eq in Er; contradiction|].
      destruct (Qeq_bool (robot_lifespan a) 0) eqn:El;
        [apply Qeq_bool_eq in El; contradiction|].
      cbn [Np.ceil Np.to_int obind ofold break_even_from].
      destruct (Py.ltb _ _); eexists; reflexivity.
Qed.

(** X12.  [calculate_labor_vs_automation] raises when a productivity is
    zero (the head count is then infinite or undefined), when the robot
    lifespan is zero and, over a horizon of at least one month, when the
    monthly discount factor [1 + discount_rate / 12] is zero: a run that
    returns has divided by none of these. *)
Theorem labor_model_raises_on_zero_divisors (target_boxes : Q) (a : labor_args) :
  ((exists r, calculate_labor_vs_automation target_boxes a = Some r)
   -> ~ workers_productivity a == 0
      /\ ~ robot_productivity a == 0
      /\ ~ robot_lifespan a == 0
      /\ ((1 <= n_years a)%Z -> ~ 1 + discount_rate a / 12 == 0))
  /\ (workers_productivity a == 0 ->
      calculate_labor_vs_automation target_boxes a = None)
  /\ (robot_productivity a == 0 ->
      calculate_labor_vs_automation target_boxes a = None)
  /\ (robot_lifespan a == 0 ->
      calculate_labor_vs_automation target_boxes a = None)
  /\ ((1 <= n_years a)%Z -> 1 + discount_rate a / 12 == 0 ->
      calculate_labor_vs_automation target_boxes a = None).
Proof.
  assert (Hran : forall r,
             calculate_labor_vs_automation target_boxes a = Some r ->
             ~ workers_productivity a == 0
             /\ ~ robot_productivity a == 0
             /\ ~ robot_lifespan a == 0
             /\ ((1 <= n_years a)%Z -> ~ 1 + discount_rate a / 12 == 0)).
  { intros r Hrun. apply (labor_returns_iff target_boxes a). now exists r. }
  split; [intros (r & Hrun); exact (Hran r Hrun)|].
  destruct (calculate_labor_vs_automation target_boxes a) as [r|];
    [|repeat split; reflexivity].
  destruct (Hran r eq_refl) as (Hw & Hr & Hl & Hd).
  split; [intro Hz; contradiction|]. split; [intro Hz; contradiction|].
  split; [intro Hz; contradiction|].
  intros Hn Hz. exfalso. exact (Hd Hn Hz).
Qed.

(** X13.  Over a horizon of no month ([n_years <= 0]) nothing is
    discounted: the reported labor cost is 0, the reported automation cost
    is the initial cost of the robots with the risk surcharge, and no
    break-even month is reported. *)
Theorem labor_model_without_horizon (target_boxes : Q) (a : labor_args)
    (r : labor_result) :
  (n_years a <= 0)%Z ->
  calculate_labor_vs_automation target_boxes a = Some r ->
  exists robots,
    n_robots target_boxes a = Some robots
    /\ labor_cost r = 0%Z
    /\ automation_cost r
       = Py.int (initial_robot_cost a robots * (1 + risk_adjustment a))
    /\ break_even_months r = None.
Proof.
  intros Hn Hrun.
  destruct (labor_report _ _ _ Hrun)
    as (workers & robots & labor_npv & robot_npv & _ & Hr & _ & Hlabor & Hauto
        & _ & Hlc & Hac & Hbreak).
  unfold npv in Hlabor, Hauto. rewrite (months_empty a Hn) in *.
  cbn [ofold break_even_from] in *.
  injection Hlabor as <-. injection Hauto as <-.
  exists robots. split; [exact Hr|]. split; [exact Hlc|].
  split; [exact Hac|].
  destruct (optimal_solution r); [exact Hbreak | now injection Hbreak].
Qed.

Lemma labor_model_without_horizon_witness :
  exists r robots,
    calculate_labor_vs_automation 10000
      {| workers_productivity := 100; worker_salary := 50000;
         worker_tax_rate := 3 # 10; worker_training_cost := 20000;
         robot_productivity := 500; robot_cost := 1000000;
         robot_lifespan := 60; robot_maintenance := 20000;
         robot_software_cost := 50000; discount_rate := 12 # 100;
         n_years := 0; risk_adjustment := 1 # 10 |} = Some r
    /\ n_robots 10000
         {| workers_productivity := 100; worker_salary := 50000;
            worker_tax_rate := 3 # 10; worker_training_cost := 20000;
            robot_productivity := 500; robot_cost := 1000000;
            robot_lifespan := 60; robot_maintenance := 20000;
            robot_software_cost := 50000; discount_rate := 12 # 100;
            n_years := 0; risk_adjustment := 1 # 10 |} = Some robots
    /\ labor_cost r = 0%Z.
Proof.
  eexists.
  destruct (labor_model_without_horizon 10000
              {| workers_productivity := 100; worker_salary := 50000;
                 worker_tax_rate := 3 # 10; worker_training_cost := 20000;
                 robot_productivity := 500; robot_cost := 1000000;
                 robot_lifespan := 60; robot_maintenance := 20000;
                 robot_software_cost := 50000; discount_rate := 12 # 100;
                 n_years := 0; risk_adjustment := 1 # 10 |}
              _ ltac:(simpl; lia) eq_refl)
    as (robots & Hr & Hlabor & _).
  exists robots. split; [reflexivity|]. split; [exact Hr | exact Hlabor].
Defined.

(** ** Optimization.py: the aggregator *)

(** Break a run on the store into its steps. *)
Ltac inv_steps :=
  repeat (inv_run;
          match goal with
          | H : with_gen _ _ = Some (_, _) |- _ =>
              let g := fresh "g" in
              let Hg := fresh "Hg" in
              apply with_gen_inv in H; destruct H as (g & Hg & ?); subst
          | H : inventory_get _ _ = Some (_, _) |- _ =>
              apply inventory_get_inv in H; destruct H as [H ?]; subst
          | H : inventory_add _ _ _ = Some (_, _) |- _ =>
              let old := fresh "old" in
              let Hold := fresh "Hold" in
              apply inventory_add_inv in H; destruct H as (old & Hold & ?); subst
          end);
  inv_run.

Section AggregatorRuns.
Context {G : Type} `{RandomSource G}.


(** A month that completes: what it has looked up, which models it has
    run, and what it has added to the two averaged risks. *)
Lemma month_body_ran plan orders mpb bp pv dr dlr days n pp sp lp
    (t t' : totals) (month : nat) (st st' : store G) :
  month_body plan orders mpb bp pv dr dlr days n pp sp lp t month st
  = Some (t', st') ->
  exists ordered produced pa sa la plastic raw goods rm pc,
    nth_error orders month = Some ordered
    /\ nth_error plan month = Some produced
    /\ bind_production_args pp = Some pa
    /\ bind_storage_args sp = Some sa
    /\ bind_logistics_args lp = Some la
    /\ Py.dict_get "plastic" bp = Some plastic
    /\ Py.dict_get "raw_material" (inventory st) = Some raw
    /\ Py.dict_get "goods" (inventory st) = Some goods
    /\ (exists g g',
           calculate_raw_material_costs ordered mpb bp pv dr dlr days n g
           = Some (rm, g'))
    /\ (exists g g', calculate_production_costs produced pa n g = Some (pc, g'))
    /\ (exists rv fv g r g',
           calculate_logistics_costs rv fv la n g = Some (r, g'))
    /\ acc_supply_risk t'
       = acc_supply_risk t + per_month plan (rm_risk_above_budget rm)
    /\ acc_production_risk t'
       = acc_production_risk t + per_month plan (pc_failure_risk pc).
Proof.
  unfold month_body. intro Hrun. inv_steps. simpl in *.
  match goal with
  | Ho : nth_error orders month = Some ?o,
    Hq : nth_error plan month = Some ?q,
    Hpa : bind_production_args pp = Some ?pa,
    Hsa : bind_storage_args sp = Some ?sa,
    Hla : bind_logistics_args lp = Some ?la,
    Hpl : Py.dict_get "plastic" bp = Some ?plastic,
    Hraw : Py.dict_get "raw_material" (inventory st) = Some ?raw,
    Hgoods : Py.dict_get "goods" (inventory st) = Some ?goods,
    Hrm : calculate_raw_material_costs _ _ _ _ _ _ _ _ _ = Some (?rm, _),
    Hpc : calculate_production_costs _ _ _ _ = Some (?pc, _),
    Hlc : calculate_logistics_costs _ _ _ _ _ = Some _ |- _ =>
      exists o, q, pa, sa, la, plastic, raw, goods, rm, pc;
      repeat (split; [assumption|]);
      split; [eexists _, _; exact Hrm|];
      split; [eexists _, _; exact Hpc|];
      split; [eexists _, _, _, _, _; exact Hlc|]
  end.
  split; reflexivity.
Qed.

(** The steps of a run of [calculate_total_cost] that returns, with the
    labor model's run on the mean production and the entries of the
    result. *)
Lemma total_cost_report plan orders mpb bp pv dr dlr days n pp sp lp lap
    (st st' : store G) (r : total_cost_result) :
  calculate_total_cost plan orders mpb bp pv dr dlr days n pp sp lp lap st
  = Some (r, st') ->
  exists t a l,
    for_each (seq 0 (List.length plan))
             (month_body plan orders mpb bp pv dr dlr days n pp sp lp)
             zero_totals st
    = Some (t, st')
    /\ plan <> []
    /\ bind_labor_args lap = Some a
    /\ calculate_labor_vs_automation (Py.sum plan / count plan) a = Some l
    /\ breakdown r
       = {| raw_materials := total_raw_material_cost t;
            production := total_production_cost t;
            storage := total_storage_cost t;
            logistics := total_logistics_cost t;
            labor :=
              inject_Z (match optimal_solution l with
                        | Labor => labor_cost l
                        | Automation => automation_cost l
                        end) / count plan |}
    /\ total_cost r
       = raw_materials (breakdown r) + production (breakdown r)
         + storage (breakdown r) + logistics (breakdown r)
         + labor (breakdown r).
Proof.
  unfold calculate_total_cost, total_months. intro Hrun. inv_run.
  destruct (Np.mean plan) as [avg| | |] eqn:Eavg; inv_run.
  apply mean_finite_inv in Eavg as [Hne ->].
  match goal with
  | Hd : Py.div _ _ = Some _ |- _ => apply div_ran in Hd as [_ ->]
  end.
  eexists _, _, _. simpl.
  repeat (split; [eassumption|]). split; reflexivity.
Qed.

(** The month loop has looked up an order for every month it has run. *)
Lemma months_have_orders plan orders mpb bp pv dr dlr days n pp sp lp
    (l : list nat) (t t' : totals) (st st' : store G) :
  for_each l (month_body plan orders mpb bp pv dr dlr days n pp sp lp) t st
  = Some (t', st') ->
  Forall (fun month => (month < List.length orders)%nat) l.
Proof.
  intro Hloop. apply for_each_ran in Hloop.
  apply Forall_impl with (2 := Hloop).
  intros month (b & s1 & b' & s1' & Hbody).
  apply month_body_ran in Hbody
    as (ordered & _ & _ & _ & _ & _ & _ & _ & _ & _ & Hordered & _).
  apply nth_error_Some. rewrite Hordered. discriminate.
Qed.

(** The default keyword arguments of the labor model raise nothing. *)
Lemma runnable_of_accepted plan orders mpb bp pv n pp sp lp lap :
  accepted plan orders mpb bp pv n pp sp lp lap ->
  runnable plan orders mpb bp pv n pp sp lp [].
Proof.
  intros (Hne & Hlen & Hn & Hpriced & Hplastic & Hpa & Hsa & Hla & _).
  repeat (split; [assumption|]).
  eexists. split; [reflexivity|]. cbn.
  repeat split; intro E; vm_compute in E; discriminate E.
Qed.

Lemma total_cost_returns_iff plan orders mpb bp pv dr dlr days n pp sp lp lap
    (st : store G) :
  (exists r st',
      calculate_total_cost plan orders mpb bp pv dr dlr days n pp sp lp lap st
      = Some (r, st'))
  <-> accepted plan orders mpb bp pv n pp sp lp lap /\ stocked (inventory st).
Proof.
  split.
  - intros (r & st' & Hrun).
    destruct (total_cost_report _ _ _ _ _ _ _ _ _ _ _ _ _ _ _ _ Hrun)
      as (t & a & l & Hloop & Hne & Ha & Hl & _).
    pose proof (months_have_orders _ _ _ _ _ _ _ _ _ _ _ _ _ _ _ _ _ Hloop)
      as Horders.
    assert (Hlen : (List.length plan <= List.length orders)%nat).
    { destruct (List.length plan) as [|k] eqn:Ek; [lia|].
      rewrite Forall_forall in Horders.
      specialize (Horders k). rewrite in_seq in Horders. lia. }
    destruct (List.length plan) as [|k] eqn:Ek.
    { destruct plan; [contradiction | discriminate Ek]. }
    cbn [seq for_each] in Hloop. inv_run.
    match goal with
    | Hbody : month_body _ _ _ _ _ _ _ _ _ _ _ _ _ _ _ = Some _ |- _ =>
        apply month_body_ran in Hbody
          as (ordered & produced & pa & sa & la & plastic & raw & goods & rm
              & pc & _ & _ & Hpa & Hsa & Hla & Hplastic & Hraw & Hgoods
              & (g1 & g1' & Hrm) & (g2 & g2' & Hpc)
              & (rv & fv & g3 & lc & g3' & Hlc) & _)
    end.
    assert (Hmaterials : (1 <= n)%nat /\ priced_materials mpb bp pv)
      by (apply (raw_material_returns_iff ordered mpb bp pv dr dlr days n g1);
          eauto).
    assert (Hproduction : (1 <= n)%nat /\ 0 <= energy_price_std pa)
      by (apply (production_returns_iff produced pa n g2); eauto).
    assert (Hlogistics : (1 <= n)%nat /\ 0 <= fuel_price_std la
                         /\ ~ truck_capacity la == 0)
      by (apply (logistics_returns_iff rv fv la n g3); eauto).
    assert (Hlabor : exists r, calculate_labor_vs_automation
                                 (Py.sum plan / count plan) a = Some r)
      by eauto.
    apply labor_returns_iff in Hlabor.
    split; [|split; eauto].
    split; [exact Hne|]. split; [lia|]. split; [apply Hmaterials|].
    split; [apply Hmaterials|]. split; [eauto|]. split.
    { exists pa. split; [exact Hpa | apply Hproduction]. }
    split; [eauto|]. split.
    { exists la. split; [exact Hla | apply Hlogistics]. }
    exists a. split; [exact Ha | exact Hlabor].
  - intros [Hacc Hst].
    pose proof (runnable_of_accepted _ _ _ _ _ _ _ _ _ _ Hacc) as Hrun.
    destruct (months_return plan orders mpb bp pv dr dlr days n pp sp lp []
                (List.length plan) Hrun 0%nat zero_totals st)
      as (t & st1 & Hloop); [lia | exact Hst |].
    destruct Hacc as (Hne & _ & _ & _ & _ & _ & _ & _ & (a & Ha & Hlabor)).
    unfold calculate_total_cost, total_months, bind. rewrite Hloop.
    rewrite (mean_finite _ Hne). unfold lift. rewrite Ha.
    destruct (proj2 (labor_returns_iff (Py.sum plan / count plan) a) Hlabor)
      as (l & ->).
    unfold Py.div. fold (count plan).
    destruct (Qeq_bool (count plan) 0) eqn:E.
    + apply Qeq_bool_eq in E. pose proof (count_pos plan Hne). lra.
    + eexists _, _. reflexivity.
Qed.

(** X14.  [calculate_total_cost] raises unless all of this holds: the plan
    has at least one month and the orders have an entry for every month of
    it, there is at least one scenario, every material of [base_prices]
    (one of them plastic) has a volatility, a consumption rate and a
    standard deviation that is not negative, the four parameter
    dictionaries bind to the keyword arguments of their models with no
    negative standard deviation and no zero divisor, and the inventory has
    both the raw material and the goods entry.  In particular it raises on
    an empty plan. *)
Theorem calculate_total_cost_raises_unless_accepted plan orders mpb bp pv dr
    dlr days n pp sp lp lap (st : store G) :
  ((exists r st',
       calculate_total_cost plan orders mpb bp pv dr dlr days n pp sp lp lap st
       = Some (r, st'))
   -> accepted plan orders mpb bp pv n pp sp lp lap /\ stocked (inventory st))
  /\ (~ (accepted plan orders mpb bp pv n pp sp lp lap
         /\ stocked (inventory st)) ->
      calculate_total_cost plan orders mpb bp pv dr dlr days n pp sp lp lap st
      = None)
  /\ calculate_total_cost [] orders mpb bp pv dr dlr days n pp sp lp lap st
     = None.
Proof.
  split; [apply total_cost_returns_iff|]. split; [|reflexivity].
  intro Hbad.
  destruct (calculate_total_cost plan orders mpb bp pv dr dlr days n pp sp lp
              lap st) as [[r st']|] eqn:Hrun; [|reflexivity].
  exfalso. apply Hbad.
  apply (total_cost_returns_iff plan orders mpb bp pv dr dlr days n pp sp lp
           lap st).
  now exists r, st'.
Qed.

(** X15.  The three defaults that [calculate_total_cost] reads with
    [.get] can never be overridden: on a run that returns,
    [production_params] has no [product_value] and no [target_boxes] entry
    and [logistics_params] has no [estimated_sales] entry, since the same
    dictionaries are unpacked into the keyword arguments of the production
    and the logistics model, which accept none of these names.  With such
    an entry the call raises. *)
Theorem parameter_defaults_are_never_overridden plan orders mpb bp pv dr dlr
    days n pp sp lp lap (st st' : store G) (r : total_cost_result) :
  calculate_total_cost plan orders mpb bp pv dr dlr days n pp sp lp lap st
  = Some (r, st') ->
  Py.dict_get "product_value" pp = None
  /\ Py.dict_get "target_boxes" pp = None
  /\ Py.dict_get "estimated_sales" lp = None.
Proof.
  intro Hrun.
  assert (Hacc : accepted plan orders mpb bp pv n pp sp lp lap)
    by (apply (total_cost_returns_iff plan orders mpb bp pv dr dlr days n
                 pp sp lp lap st); eauto).
  destruct Hacc as (_ & _ & _ & _ & _ & (pa & Hpa & _) & _ & (la & Hla & _) & _).
  unfold bind_production_args in Hpa.
  destruct (Py.kwargs_ok _ pp) eqn:Epp; [|discriminate].
  unfold bind_logistics_args in Hla.
  destruct (Py.kwargs_ok _ lp) eqn:Elp; [|discriminate].
  split; [exact (kwargs_ok_absent _ _ "product_value" Epp eq_refl)|].
  split; [exact (kwargs_ok_absent _ _ "target_boxes" Epp eq_refl)|].
  exact (kwargs_ok_absent _ _ "estimated_sales" Elp eq_refl).
Qed.




(** The cost of the solution that the labor model picks is the lower of
    its two reported costs. *)
Lemma chosen_cost_is_min (target_boxes : Q) (a : labor_args) (l : labor_result) :
  calculate_labor_vs_automation target_boxes a = Some l ->
  match optimal_solution l with
  | Labor => labor_cost l
  | Automation => automation_cost l
  end = Z.min (labor_cost l) (automation_cost l).
Proof.
  intro Hrun.
  destruct (labor_report _ _ _ Hrun)
    as (workers & robots & labor_npv & robot_npv & _ & _ & _ & _ & _ & Hopt
        & Hlabor & Hauto & _).
  rewrite Hlabor, Hauto, Hopt.
  case_ltb labor_npv (robot_npv * (1 + risk_adjustment a)).
  - assert (Py.int labor_npv
            <= Py.int (robot_npv * (1 + risk_adjustment a)))%Z
      by (apply int_mono; lra).
    lia.
  - assert (Py.int (robot_npv * (1 + risk_adjustment a))
            <= Py.int labor_npv)%Z
      by now apply int_mono.
    lia.
Qed.

(** X17.  The entries of [cost_breakdown] add up to [total_cost], and the
    labor entry is the lower of the two costs that
    [calculate_labor_vs_automation] reports for the mean monthly
    production of the plan (each a present value over the whole horizon of
    [n_years]), divided by the number of months of the plan. *)
Theorem breakdown_adds_up_with_cheaper_labor_solution plan orders mpb bp pv
    dr dlr days n pp sp lp lap (st st' : store G) (r : total_cost_result) :
  calculate_total_cost plan orders mpb bp pv dr dlr days n pp sp lp lap st
  = Some (r, st') ->
  exists a l,
    bind_labor_args lap = Some a
    /\ calculate_labor_vs_automation (Py.sum plan / count plan) a = Some l
    /\ labor (breakdown r)
       = inject_Z (Z.min (labor_cost l) (automation_cost l)) / count plan
    /\ total_cost r
       = raw_materials (breakdown r) + production (breakdown r)
         + storage (breakdown r) + logistics (breakdown r)
         + labor (breakdown r).
Proof.
  intro Hrun.
  destruct (total_cost_report _ _ _ _ _ _ _ _ _ _ _ _ _ _ _ _ Hrun)
    as (t & a & l & _ & _ & Ha & Hl & Hbreakdown & Htotal).
  exists a, l. split; [exact Ha|]. split; [exact Hl|].
  split; [|exact Htotal].
  rewrite Hbreakdown. cbn [labor]. now rewrite (chosen_cost_is_min _ _ _ Hl).
Qed.

End AggregatorRuns.

Lemma example_one_month :
  exists r st', total_cost_on [5000] [13000] initial_store = Some (r, st').
Proof.
  apply calculate_total_cost_returns with (2 := example_stocked).
  apply example_runnable; [discriminate | simpl; lia].
Qed.

Lemma parameter_defaults_are_never_overridden_witness :
  Py.dict_get "product_value" production_params = None
  /\ Py.dict_get "target_boxes" production_params = None
  /\ Py.dict_get "estimated_sales" logistics_params = None.
Proof.
  destruct example_one_month as (r & st' & Hrun).
  exact (parameter_defaults_are_never_overridden _ _ _ _ _ _ _ _ _ _ _ _ _ _
           _ _ Hrun).
Defined.


Lemma breakdown_adds_up_with_cheaper_labor_solution_witness :
  exists r st',
    total_cost_on [5000] [13000] initial_store = Some (r, st')
    /\ total_cost r
       = raw_materials (breakdown r) + production (breakdown r)
         + storage (breakdown r) + logistics (breakdown r)
         + labor (breakdown r).
Proof.
  destruct example_one_month as (r & st' & Hrun).
  exists r, st'. split; [exact Hrun|].
  destruct (breakdown_adds_up_with_cheaper_labor_solution _ _ _ _ _ _ _ _ _ _
              _ _ _ _ _ _ Hrun) as (a & l & _ & _ & _ & Htotal).
  exact Htotal.
Defined.

(** ** Optimization.py: the projection of the inventory *)

Lemma ofold_ran {A B : Type} (body : B -> A -> option B) (l : list A) :
  forall acc acc',
    ofold l body acc = Some acc' ->
    Forall (fun a => exists b b', body b a = Some b') l.
Proof.
  induction l as [|a l IH]; intros acc acc' Hrun; [constructor|].
  cbn [ofold] in Hrun. apply obind_inv in Hrun as (acc1 & Hbody & Hrun).
  constructor; [now exists acc, acc1 | exact (IH _ _ Hrun)].
Qed.

(** A month of the projection: the orders and the plan have an entry for
    it, and the new finished-goods level is appended. *)
Lemma project_month_ran (plan orders : list Q) (mpb : Py.dict) (month : nat)
    (raw goods raw' goods' : Q) (p p' : inventory_projection) :
  project_month plan orders mpb (raw, goods, p) month = Some (raw', goods', p') ->
  exists produced ordered,
    nth_error plan month = Some produced
    /\ nth_error orders month = Some ordered
    /\ goods' = Py.max 0 (goods + (produced - produced * (9 # 10)))
    /\ finished_goods p' = (finished_goods p ++ [goods'])%list.
Proof.
  unfold project_month. intro Hrun.
  apply obind_inv in Hrun as (produced & Hproduced & Hrun).
  apply obind_inv in Hrun as (ordered & Hordered & Hrun).
  injection Hrun as <- <- <-.
  exists produced, ordered. now repeat split.
Qed.

Lemma project_inventory_returns_iff (plan orders : list Q) (inv mpb : Py.dict) :
  (exists p, project_inventory plan orders inv mpb = Some p)
  <-> (List.length plan <= List.length orders)%nat.
Proof.
  split.
  - intros (p & Hrun). unfold project_inventory in Hrun.
    apply obind_inv in Hrun as (st & Hloop & _).
    apply ofold_ran in Hloop. rewrite Forall_forall in Hloop.
    destruct (List.length plan) as [|k] eqn:Ek; [lia|].
    destruct (Hloop k) as ([[raw goods] q] & [[raw' goods'] q'] & Hmonth);
      [apply in_seq; lia|].
    apply project_month_ran in Hmonth as (_ & ordered & _ & Hordered & _).
    assert (Hsome : nth_error orders k <> None) by (rewrite Hordered; discriminate).
    apply nth_error_Some in Hsome. lia.
  - intro Hlen.
    destruct (project_inventory_levels plan orders inv mpb Hlen) as (p & Hp & _).
    now exists p.
Qed.

(** X18.  [project_inventory] returns exactly when the orders have an
    entry for every month of the plan (a missing order raises), whatever
    the inventory: unlike [calculate_total_cost], which raises on an
    inventory without a [raw_material] or a [goods] entry, it takes a
    missing stock as 0. *)
Theorem project_inventory_returns_exactly_when (plan orders : list Q)
    (inv mpb : Py.dict) :
  ((exists p, project_inventory plan orders inv mpb = Some p)
   <-> (List.length plan <= List.length orders)%nat)
  /\ project_inventory plan orders [] mpb
     = project_inventory plan orders [("raw_material"%string, 0); ("goods"%string, 0)] mpb.
Proof.
  split; [apply project_inventory_returns_iff | reflexivity].
Qed.

(** The month loop of the projection appends the finished-goods levels of
    the months it runs over. *)
Lemma project_months_goods (plan orders : list Q) (mpb : Py.dict) (len : nat) :
  forall (start : nat) (raw goods raw' goods' : Q)
         (p p' : inventory_projection),
    ofold (seq start len) (project_month plan orders mpb) (raw, goods, p)
    = Some (raw', goods', p') ->
    finished_goods p'
    = (finished_goods p
       ++ goods_levels (firstn len (skipn start plan)) goods)%list.
Proof.
  induction len as [|len IH]; intros start raw goods raw' goods' p p' Hrun.
  - cbn [seq ofold] in Hrun. injection Hrun as <- <- <-.
    cbn [firstn goods_levels]. now rewrite app_nil_r.
  - cbn [seq ofold] in Hrun.
    apply obind_inv in Hrun as ([[raw1 goods1] p1] & Hmonth & Hrun).
    apply project_month_ran in Hmonth
      as (produced & ordered & Hproduced & _ & Hgoods & Hlevels).
    apply IH in Hrun. rewrite Hrun, Hlevels, <- app_assoc.
    f_equal.
    assert (Hskip : skipn start plan = produced :: skipn (Datatypes.S start) plan).
    { clear - Hproduced. revert start Hproduced.
      induction plan as [|q plan IHplan]; intros [|start] Hnth;
        try discriminate Hnth.
      - now injection Hnth as ->.
      - cbn [nth_error] in Hnth. cbn [skipn]. exact (IHplan _ Hnth). }
    rewrite Hskip. cbn [firstn goods_levels app]. now rewrite <- Hgoods.
Qed.

Lemma goods_levels_nondecreasing (plan : list Q) :
  Forall (fun produced => 0 <= produced) plan ->
  forall goods, nondecreasing (goods :: goods_levels plan goods).
Proof.
  induction 1 as [|produced plan Hproduced _ IH]; intro goods;
    [exact Logic.I|].
  cbn [goods_levels]. cbn [nondecreasing]. split; [|apply IH].
  rewrite max_spec.
  apply Qle_trans with (goods + (produced - produced * (9 # 10)));
    [lra | apply Q.le_max_r].
Qed.

Lemma nondecreasing_tail (x : Q) (l : list Q) :
  nondecreasing (x :: l) -> nondecreasing l.
Proof. destruct l as [|y l]; [intros _; exact Logic.I | now intros [_ Hl]]. Qed.

Lemma project_inventory_goods (plan orders : list Q) (inv mpb : Py.dict)
    (p : inventory_projection) :
  project_inventory plan orders inv mpb = Some p ->
  finished_goods p = goods_levels plan (Py.dict_get_default "goods" 0 inv).
Proof.
  unfold project_inventory. intro Hrun.
  apply obind_inv in Hrun as ([[raw goods] p'] & Hloop & Hp).
  injection Hp as <-. cbn [snd].
  apply project_months_goods in Hloop. rewrite Hloop.
  cbn [finished_goods app skipn]. now rewrite firstn_all.
Qed.

(** X19.  The finished-goods levels of a projection depend on the plan and
    the goods stock alone (not on the orders or the consumption rates):
    each month adds a tenth of the month's production to the level and
    clips at zero.  For a plan without a negative entry the levels never
    fall from one month to the next. *)
Theorem projected_goods_never_fall (plan orders : list Q) (inv mpb : Py.dict)
    (p : inventory_projection) :
  project_inventory plan orders inv mpb = Some p ->
  finished_goods p = goods_levels plan (Py.dict_get_default "goods" 0 inv)
  /\ (Forall (fun produced => 0 <= produced) plan ->
      nondecreasing (finished_goods p)).
Proof.
  intro Hrun. pose proof (project_inventory_goods _ _ _ _ _ Hrun) as Hgoods.
  split; [exact Hgoods|]. intro Hplan. rewrite Hgoods.
  exact (nondecreasing_tail _ _ (goods_levels_nondecreasing plan Hplan _)).
Qed.

Lemma projected_goods_never_fall_witness :
  exists p,
    project_inventory [5000; 6000] [13000; 13000] current_inventory
      material_per_box = Some p
    /\ nondecreasing (finished_goods p).
Proof.
  destruct (project_inventory [5000; 6000] [13000; 13000] current_inventory
              material_per_box) as [p|] eqn:E; [|discriminate E].
  exists p. split; [reflexivity|].
  destruct (projected_goods_never_fall _ _ _ _ _ E) as [_ Hmono].
  apply Hmono. repeat constructor; discriminate.
Defined.

(** ** Optimization.py: the optimizer and its report *)

Lemma slice_length {A : Type} (a b : nat) (x : list A) :
  List.length (slice a b x) = Nat.min (b - a) (List.length x - a).
Proof. unfold slice. now rewrite length_firstn, length_skipn. Qed.

Lemma slice_app_first {A : Type} (l1 l2 : list A) :
  slice 0 (List.length l1) (l1 ++ l2) = l1.
Proof.
  unfold slice. cbn [skipn]. rewrite Nat.sub_0_r.
  rewrite firstn_app, Nat.sub_diag, firstn_all. cbn [firstn].
  now rewrite app_nil_r.
Qed.

Lemma slice_app_second {A : Type} (l1 l2 : list A) :
  List.length l2 = List.length l1 ->
  slice (List.length l1) (2 * List.length l1) (l1 ++ l2) = l2.
Proof.
  intro Hlen. unfold slice.
  rewrite skipn_app, skipn_all, Nat.sub_diag. cbn [skipn app].
  replace (2 * List.length l1 - List.length l1)%nat with (List.length l2) by lia.
  apply firstn_all.
Qed.

(** X20.  The initial guess, which exists for a horizon of at least one
    month, has [2 * n_months] entries; its production half is the target in
    every month, so its deviation penalty is zero, and the purchases of its
    second half add up, over the whole horizon, to the raw material that
    one month of the target production consumes. *)
Theorem initial_guess_buys_one_month_of_material (target_boxes : Q)
    (material_per_box : Py.dict) (n_months : nat) :
  (1 <= n_months)%nat ->
  exists guess,
    initial_guess target_boxes material_per_box n_months = Some guess
    /\ List.length guess = (2 * n_months)%nat
    /\ slice 0 n_months guess = repeat target_boxes n_months
    /\ target_deviation_penalty target_boxes (slice 0 n_months guess) == 0
    /\ Py.sum (slice n_months (2 * n_months) guess)
       == target_boxes * Py.sum (Py.values material_per_box).
Proof.
  intro Hn. pose proof (qnat_pos _ Hn) as Hpos.
  unfold initial_guess, Py.div. fold (qnat n_months).
  destruct (Qeq_bool (qnat n_months) 0) eqn:E;
    [apply Qeq_bool_eq in E; lra|].
  eexists. split; [reflexivity|].
  set (purchase := target_boxes * Py.sum (Py.values material_per_box)
                   / qnat n_months).
  assert (Hfirst : slice 0 n_months
                     (repeat target_boxes n_months ++ repeat purchase n_months)
                   = repeat target_boxes n_months).
  { rewrite <- (repeat_length target_boxes n_months) at 1.
    apply slice_app_first. }
  assert (Hsecond : slice n_months (2 * n_months)
                      (repeat target_boxes n_months ++ repeat purchase n_months)
                    = repeat purchase n_months).
  { rewrite <- (repeat_length target_boxes n_months) at 1 2.
    apply slice_app_second. now rewrite !repeat_length. }
  split; [rewrite length_app, !repeat_length; lia|].
  split; [exact Hfirst|]. split.
  - rewrite Hfirst. unfold target_deviation_penalty.
    rewrite map_repeat, sum_repeat.
    setoid_replace ((target_boxes - target_boxes) ^ 2) with 0
      by (simpl; ring).
    ring.
  - rewrite Hsecond, sum_repeat. unfold purchase. field. lra.
Qed.

Lemma initial_guess_buys_one_month_of_material_witness :
  exists guess,
    initial_guess 10000 material_per_box 12 = Some guess
    /\ Py.sum (slice 12 24 guess) == 10000 * (26 # 10).
Proof.
  destruct (initial_guess_buys_one_month_of_material 10000 material_per_box 12)
    as (guess & Hguess & _ & _ & _ & Hsum); [lia|].
  exists guess. split; [exact Hguess|]. rewrite Hsum. reflexivity.
Defined.

Section OptimizerRuns.
Context {G : Type} `{RandomSource G}.
Variable minimize :
  (list Q -> M (store G) Np.float64) -> list Q -> string ->
  list (Q * option Q) -> list (@constraint G) -> nat ->
  M (store G) minimize_result.
Variables (target_boxes : Q).
Variables (material_per_box base_prices price_volatility : Py.dict).
Variables (defect_rate delivery_risk safety_stock_days : Q).
Variable (n_simulations : nat).
Variables (production_params storage_params logistics_params labor_params
           : Py.dict).
Variables (n_months : nat) (risk_tolerance : Q).

Let report_of :=
  report material_per_box base_prices price_volatility defect_rate
    delivery_risk safety_stock_days n_simulations production_params
    storage_params logistics_params labor_params n_months.

(** The steps of a report that returns: the costs of the plan are computed
    on the store as it is, and the projection is made from the inventory
    that this evaluation leaves. *)
Lemma report_ran (result : minimize_result) (st st' : store G)
    (r : optimization_result) :
  report_of result st = Some (r, st') ->
  exists final_cost,
    calculate_total_cost (slice 0 n_months (res_x result))
      (slice n_months (2 * n_months) (res_x result))
      material_per_box base_prices price_volatility defect_rate
      delivery_risk safety_stock_days n_simulations production_params
      storage_params logistics_params labor_params st
    = Some (final_cost, st')
    /\ project_inventory (slice 0 n_months (res_x result))
         (slice n_months (2 * n_months) (res_x result))
         (inventory st') material_per_box
       = Some (projection r)
    /\ optimal_production r = map Py.rint (slice 0 n_months (res_x result))
    /\ raw_material_orders r
       = map Py.rint (slice n_months (2 * n_months) (res_x result)).
Proof.
  unfold report_of, report, total_cost_of. intro Hrun.
  apply bind_inv in Hrun as (final_cost & st1 & Hcost & Hrun).
  apply bind_inv in Hrun as (p & st2 & Hproject & Hrun).
  cbv beta in Hproject. apply lift_inv in Hproject as [Hproject ->].
  apply ret_inv in Hrun as [-> ->].
  exists final_cost. now repeat split.
Qed.

(** X21.  The report projects the inventory from the stocks that its own
    cost evaluation has just moved: [current_inventory] is one object, and
    by the time [project_inventory] reads it, the final
    [calculate_total_cost] has already added the plan's net changes to both
    entries.  The projection then applies the same plan once more. *)
Theorem report_projects_from_the_moved_inventory (result : minimize_result)
    (st st' : store G) (r : optimization_result) :
  report_of result st = Some (r, st') ->
  let plan := slice 0 n_months (res_x result) in
  let orders := slice n_months (2 * n_months) (res_x result) in
  exists raw goods raw' goods',
    Py.dict_get "raw_material" (inventory st) = Some raw
    /\ Py.dict_get "goods" (inventory st) = Some goods
    /\ Py.dict_get "raw_material" (inventory st') = Some raw'
    /\ Py.dict_get "goods" (inventory st') = Some goods'
    /\ raw' == raw + Py.sum (map (raw_delta plan orders material_per_box)
                                 (seq 0 (List.length plan)))
    /\ goods' == goods + Py.sum (map (goods_delta plan)
                                     (seq 0 (List.length plan)))
    /\ project_inventory plan orders (inventory st') material_per_box
       = Some (projection r)
    /\ finished_goods (projection r) = goods_levels plan goods'.
Proof.
  intros Hrun plan orders.
  destruct (report_ran _ _ _ _ Hrun) as (final_cost & Hcost & Hproject & _).
  fold plan orders in Hcost, Hproject.
  assert (Hst : stocked (inventory st))
    by (apply (total_cost_returns_iff plan orders material_per_box base_prices
                 price_volatility defect_rate delivery_risk safety_stock_days
                 n_simulations production_params storage_params
                 logistics_params labor_params st); eauto).
  destruct Hst as [(raw & Hraw) (goods & Hgoods)].
  destruct (total_cost_run _ _ _ _ _ _ _ _ _ _ _ _ _ _ _ _ Hcost)
    as (t & Hloop & _).
  destruct (months_effect _ _ _ _ _ _ _ _ _ _ _ _ _ _ _ _ _ _ _ _ Hloop
              Hraw Hgoods) as (raw' & goods' & Hraw' & Hgoods' & Er & Eg).
  exists raw, goods, raw', goods'.
  repeat (split; [assumption|]).
  rewrite (project_inventory_goods _ _ _ _ _ Hproject).
  unfold Py.dict_get_default. now rewrite Hgoods'.
Qed.

(** X22.  Whatever the minimizer does, [optimize_business_costs] returns
    only for a horizon of at least one month (with [n_months = 0] the
    initial guess divides by zero), and only when the vector that the
    minimizer returns has at least [2 * n_months] entries; the reported
    plan, the reported orders and both projected series then have exactly
    [n_months] entries. *)
Theorem optimizer_reports_one_entry_per_month (budget_constraint : option Q)
    (st st' : store G) (r : optimization_result) :
  optimize_business_costs minimize target_boxes material_per_box base_prices
    price_volatility defect_rate delivery_risk safety_stock_days
    n_simulations production_params storage_params logistics_params
    labor_params n_months risk_tolerance budget_constraint st
  = Some (r, st') ->
  (1 <= n_months)%nat
  /\ (exists guess result st1,
         initial_guess target_boxes material_per_box n_months = Some guess
         /\ minimize
              (objective target_boxes material_per_box base_prices
                 price_volatility defect_rate delivery_risk safety_stock_days
                 n_simulations production_params storage_params
                 logistics_params labor_params n_months risk_tolerance)
              guess "SLSQP" (bounds n_months)
              (constraints material_per_box base_prices price_volatility
                 defect_rate delivery_risk safety_stock_days n_simulations
                 production_params storage_params logistics_params
                 labor_params n_months budget_constraint)
              1000%nat st
            = Some (result, st1)
         /\ (2 * n_months <= List.length (res_x result))%nat)
  /\ List.length (optimal_production r) = n_months
  /\ List.length (raw_material_orders r) = n_months
  /\ List.length (raw_material (projection r)) = n_months
  /\ List.length (finished_goods (projection r)) = n_months.
Proof.
  unfold optimize_business_costs. intro Hrun.
  apply bind_inv in Hrun as (guess & st0 & Hguess & Hrun).
  apply lift_inv in Hguess as [Hguess ->].
  apply bind_inv in Hrun as (result & st1 & Hminimize & Hrun).
  assert (Hn : (1 <= n_months)%nat).
  { unfold initial_guess in Hguess.
    apply obind_inv in Hguess as (purchase & Hdiv & _).
    apply div_ran in Hdiv as [Hnz _].
    destruct n_months; [exfalso; apply Hnz; reflexivity | lia]. }
  destruct (report_ran _ _ _ _ Hrun)
    as (final_cost & Hcost & Hproject & Hplan & Horders).
  assert (Hacc : accepted (slice 0 n_months (res_x result))
                   (slice n_months (2 * n_months) (res_x result))
                   material_per_box base_prices price_volatility n_simulations
                   production_params storage_params logistics_params
                   labor_params)
    by (apply (total_cost_returns_iff _ _ _ _ _ defect_rate delivery_risk
                 safety_stock_days _ _ _ _ _ st1); eauto).
  destruct Hacc as (Hne & Hlen & _).
  assert (Hpos : (1 <= List.length (slice 0 n_months (res_x result)))%nat).
  { destruct (slice 0 n_months (res_x result)); [contradiction | simpl; lia]. }
  rewrite (slice_length 0), (slice_length n_months) in Hlen.
  rewrite slice_length in Hpos.
  assert (Hfirst : List.length (slice 0 n_months (res_x result)) = n_months)
    by (rewrite slice_length; lia).
  assert (Hsecond : List.length (slice n_months (2 * n_months) (res_x result))
                    = n_months)
    by (rewrite slice_length; lia).
  destruct (project_inventory_levels (slice 0 n_months (res_x result))
              (slice n_months (2 * n_months) (res_x result))
              (inventory st') material_per_box)
    as (p & Hp & _ & Hraw & Hgoods); [rewrite Hfirst, Hsecond; lia|].
  rewrite Hproject in Hp. injection Hp as <-.
  split; [exact Hn|].
  split; [exists guess, result, st1; split; [exact Hguess|];
          split; [exact Hminimize | lia]|].
  split; [now rewrite Hplan, length_map|].
  split; [now rewrite Horders, length_map|].
  split; congruence.
Qed.

End OptimizerRuns.

Lemma example_report_run :
  exists r st',
    report material_per_box base_prices price_volatility (5 # 100) (1 # 10) 7 3
      production_params storage_params logistics_params labor_params 1
      {| res_x := [5000; 13000]; res_success := true;
         res_message := "done" |}
      initial_store
    = Some (r, st').
Proof. eexists _, _. vm_compute. reflexivity. Qed.

Lemma report_projects_from_the_moved_inventory_witness :
  exists r st' goods',
    report material_per_box base_prices price_volatility (5 # 100) (1 # 10) 7 3
      production_params storage_params logistics_params labor_params 1
      {| res_x := [5000; 13000]; res_success := true;
         res_message := "done" |}
      initial_store
    = Some (r, st')
    /\ Py.dict_get "goods" (inventory st') = Some goods'
    /\ finished_goods (projection r) = goods_levels [5000] goods'.
Proof.
  destruct example_report_run as (r & st' & Hrun).
  pose proof (report_projects_from_the_moved_inventory _ _ _ _ _ _ _ _ _ _ _
                _ _ _ _ _ Hrun) as Hmoved.
  cbv zeta in Hmoved.
  destruct Hmoved as (raw & goods & raw' & goods' & _ & _ & _ & Hgoods' & _
                      & _ & _ & Hlevels).
  exists r, st', goods'. split; [exact Hrun|]. split; [exact Hgoods'|].
  exact Hlevels.
Defined.

Lemma example_optimizer_run :
  exists r st',
    optimize_business_costs one_step_minimize 10000 material_per_box
      base_prices price_volatility (5 # 100) (1 # 10) 7 3 production_params
      storage_params logistics_params labor_params 1 (15 # 100) None
      initial_store
    = Some (r, st').
Proof. eexists _, _. vm_compute. reflexivity. Qed.

Lemma optimizer_reports_one_entry_per_month_witness :
  exists r st',
    optimize_business_costs one_step_minimize 10000 material_per_box
      base_prices price_volatility (5 # 100) (1 # 10) 7 3 production_params
      storage_params logistics_params labor_params 1 (15 # 100) None
      initial_store
    = Some (r, st')
    /\ List.length (optimal_production r) = 1%nat
    /\ List.length (finished_goods (projection r)) = 1%nat.
Proof.
  destruct example_optimizer_run as (r & st' & Hrun).
  exists r, st'. split; [exact Hrun|].
  destruct (optimizer_reports_one_entry_per_month _ _ _ _ _ _ _ _ _ _ _ _ _
              _ _ _ _ _ _ Hrun) as (_ & _ & Hplan & _ & _ & Hgoods).
  split; [exact Hplan | exact Hgoods].
Defined.

(** ** Costs.py: nothing ordered, nothing shipped *)

Section LoopInvariants.
Context {S A B : Type}.

Lemma for_each_invariant (P : B -> Prop) (body : B -> A -> M S B)
    (Hbody : forall b a s b' s', P b -> body b a s = Some (b', s') -> P b')
    (l : list A) :
  forall acc s acc' s',
    P acc -> for_each l body acc s = Some (acc', s') -> P acc'.
Proof.
  induction l as [|a l IH]; intros acc s acc' s' Hacc Hrun;
    cbn [for_each] in Hrun; inv_run; [exact Hacc|].
  eapply IH; [|eassumption]. eapply Hbody; eassumption.
Qed.

Lemma repeat_n_invariant (P : B -> Prop) (body : B -> M S B)
    (Hbody : forall b s b' s', P b -> body b s = Some (b', s') -> P b')
    (n : nat) :
  forall acc s acc' s',
    P acc -> repeat_n n body acc s = Some (acc', s') -> P acc'.
Proof.
  induction n as [|n IH]; intros acc s acc' s' Hacc Hrun;
    cbn [repeat_n] in Hrun; inv_run; [exact Hacc|].
  eapply IH; [|eassumption]. eapply Hbody; eassumption.
Qed.

Lemma ofold_invariant (P : B -> Prop) (body : B -> A -> option B)
    (Hbody : forall b a b', P b -> body b a = Some b' -> P b')
    (l : list A) :
  forall acc acc', P acc -> ofold l body acc = Some acc' -> P acc'.
Proof.
  induction l as [|a l IH]; intros acc acc' Hacc Hrun; cbn [ofold] in Hrun.
  - now injection Hrun as <-.
  - apply obind_inv in Hrun as (acc1 & Hstep & Hrun).
    eapply IH; [|eassumption]. eapply Hbody; eassumption.
Qed.

End LoopInvariants.

(** The statistics of a sample whose every entry is zero. *)
Lemma zero_mean (l : list Q) (m : Q) :
  Forall (fun c => c == 0) l -> Np.mean l = Np.Finite m -> m == 0.
Proof.
  intros Hzero Hm. apply mean_finite_inv in Hm as [Hne ->].
  assert (Hlo : Forall (fun y => 0 <= y) l)
    by (apply Forall_impl with (2 := Hzero); intros c Hc; lra).
  assert (Hhi : Forall (fun y => y <= 0) l)
    by (apply Forall_impl with (2 := Hzero); intros c Hc; lra).
  apply sum_lower in Hlo. apply sum_upper in Hhi.
  assert (Hsum : Py.sum l == 0) by lra.
  unfold Qdiv. rewrite Hsum. ring.
Qed.

Lemma zero_extrema (l : list Q) (lo hi : Q) :
  Forall (fun c => c == 0) l -> Np.amin l = Some lo -> Np.amax l = Some hi ->
  lo == 0 /\ hi == 0.
Proof.
  intros Hzero Hlo Hhi.
  assert (Hge : Forall (fun y => 0 <= y) l)
    by (apply Forall_impl with (2 := Hzero); intros c Hc; lra).
  assert (Hle : Forall (fun y => y <= 0) l)
    by (apply Forall_impl with (2 := Hzero); intros c Hc; lra).
  pose proof (amin_ge _ _ _ Hge Hlo) as H1.
  pose proof (amax_le _ _ _ Hle Hhi) as H2.
  destruct l as [|x l]; [discriminate|].
  apply min_lower in Hlo. apply max_upper in Hhi.
  apply Forall_inv in Hlo, Hhi, Hzero. split; lra.
Qed.

Section ZeroVolumes.
Context {G : Type} `{RandomSource G}.

(** What [material_trial] adds for a material is the drawn price times an
    amount that is a multiple of the adjusted volume. *)
Lemma material_trial_zero tb mpb bp pv dr dlr days total m (g g' : G) total' :
  tb == 0 ->
  material_trial tb mpb bp pv dr dlr days total m g = Some (total', g') ->
  total' == total.
Proof.
  intros Hzero Hrun. unfold material_trial in Hrun. inv_run.
  unfold safety_stock, daily_usage, required_materials in *.
  destruct (Py.ltb _ dlr); inv_run;
    repeat match goal with
    | Hget : Py.dict_get _ (map _ _) = Some _ |- _ =>
        rewrite !dict_get_map_values in Hget
    end;
    destruct (Py.dict_get m mpb) as [q|]; try discriminate;
    cbn [option_map] in *; inv_run;
    unfold adjusted_boxes; rewrite Hzero; unfold Qdiv; ring.
Qed.

Lemma simulate_raw_material_zero tb mpb bp pv dr dlr days n (g g' : G) sims :
  tb == 0 ->
  simulate_raw_material tb mpb bp pv dr dlr days n g = Some (sims, g') ->
  Forall (fun c => c == 0) sims.
Proof.
  intros Hzero Hrun. unfold simulate_raw_material in Hrun.
  apply (repeat_n_invariant (Forall (fun c => c == 0))) in Hrun;
    [exact Hrun | | constructor].
  intros l s l' s' Hl Htrial. unfold raw_material_trial in Htrial. inv_run.
  apply Forall_app. split; [exact Hl|]. constructor; [|constructor].
  match goal with
  | Hloop : for_each _ _ _ _ = Some _ |- _ =>
      apply (for_each_invariant (fun total => total == 0)) in Hloop;
        [exact Hloop | | reflexivity]
  end.
  intros total m gen0 total' gen1 Htotal Hmaterial.
  apply (material_trial_zero _ _ _ _ _ _ _ _ _ _ _ _ Hzero) in Hmaterial.
  now rewrite Hmaterial.
Qed.

Lemma base_budget_zero tb mpb bp dr budget :
  tb == 0 -> base_budget tb mpb bp dr = Some budget -> budget == 0.
Proof.
  intros Hzero Hrun. unfold base_budget in Hrun.
  apply (ofold_invariant (fun acc => acc == 0)) in Hrun;
    [exact Hrun | | reflexivity].
  intros acc m acc' Hacc Hstep.
  apply obind_inv in Hstep as (base & _ & Hstep).
  apply obind_inv in Hstep as (required & Hrequired & Hstep).
  injection Hstep as <-.
  unfold required_materials in Hrequired.
  rewrite dict_get_map_values in Hrequired.
  destruct (Py.dict_get m mpb) as [q|]; [|discriminate].
  cbn [option_map] in Hrequired. injection Hrequired as <-.
  unfold adjusted_boxes. rewrite Hacc, Hzero. ring.
Qed.

(** X23.  An order of zero costs nothing: when
    [calculate_raw_material_costs] returns for [target_boxes = 0], the
    expected, the minimum and the maximum cost are 0 and so is
    [risk_above_budget], whatever prices and delays are drawn (every
    scenario multiplies the drawn price by a zero amount, and no scenario
    lies above the zero budget). *)
Theorem zero_order_costs_nothing tb mpb bp pv dr dlr days n (g g' : G) r :
  tb == 0 ->
  calculate_raw_material_costs tb mpb bp pv dr dlr days n g = Some (r, g') ->
  rm_expected_cost r = 0%Z /\ rm_min_cost r = 0%Z /\ rm_max_cost r = 0%Z
  /\ rm_risk_above_budget r == 0.
Proof.
  intros Hzero Hrun. unfold calculate_raw_material_costs in Hrun. inv_run.
  destruct (share_above _ _) as [share| | |] eqn:Eshare; inv_run.
  cbn [rm_expected_cost rm_min_cost rm_max_cost rm_risk_above_budget].
  match goal with
  | Hsim : simulate_raw_material _ _ _ _ _ _ _ _ _ = Some (?sims, _),
    Hbudget : base_budget _ _ _ _ = Some ?budget,
    Hmean : Np.to_int (Np.mean ?sims) = Some ?expected,
    Hlo : Np.amin ?sims = Some ?lo,
    Hhi : Np.amax ?sims = Some ?hi |- _ =>
      pose proof (simulate_raw_material_zero _ _ _ _ _ _ _ _ _ _ _ Hzero Hsim)
        as Hsims;
      apply (base_budget_zero _ _ _ _ _ Hzero) in Hbudget;
      destruct (Np.mean sims) as [mean| | |] eqn:Emean; try discriminate;
      injection Hmean as <-;
      apply (zero_mean _ _ Hsims) in Emean;
      destruct (zero_extrema _ _ _ Hsims Hlo Hhi) as [Elo Ehi]
  end.
  split; [now rewrite (int_comp _ 0 Emean)|].
  split; [now rewrite (int_comp _ 0 Elo)|].
  split; [now rewrite (int_comp _ 0 Ehi)|].
  unfold share_above in Eshare. apply zero_mean in Eshare.
  - rewrite (round_comp (100 * share) 0 1) by (rewrite Eshare; ring).
    reflexivity.
  - apply Forall_map. apply Forall_impl with (2 := Hsims).
    intros c Hc. case_ltb a0 c; [lra | reflexivity].
Qed.

(** With nothing to ship no truck is needed. *)
Lemma trucks_needed_zero rv fv a trucks :
  rv + fv == 0 -> trucks_needed rv fv a = Some trucks -> trucks = 0%Z.
Proof.
  intros Hzero Htrucks. unfold trucks_needed, total_volume, Np.true_divide in Htrucks.
  destruct (Qeq_bool (truck_capacity a) 0).
  - destruct (Py.ltb 0 (rv + fv)); [discriminate|].
    destruct (Py.ltb (rv + fv) 0); discriminate.
  - cbn [Np.ceil Np.to_int] in Htrucks. injection Htrucks as <-.
    rewrite int_of_integer.
    assert (E : (rv + fv) / truck_capacity a == 0)
      by (unfold Qdiv; rewrite Hzero; ring).
    now rewrite (Qceiling_comp _ _ E).
Qed.

Lemma simulate_logistics_zero rv fv a n (g g' : G) own contractor :
  rv + fv == 0 ->
  simulate_logistics rv fv a n 0 g = Some ((own, contractor), g') ->
  Forall (fun c => c == 0) own /\ Forall (fun c => c == 0) contractor.
Proof.
  intros Hzero Hrun. unfold simulate_logistics in Hrun.
  apply (repeat_n_invariant
           (fun st => Forall (fun c => c == 0) (fst st)
                      /\ Forall (fun c => c == 0) (snd st))) in Hrun;
    [exact Hrun | | split; constructor].
  intros [l1 l2] s [l1' l2'] s' [Hl1 Hl2] Htrial.
  unfold logistics_trial in Htrial. inv_run. cbn [fst snd] in *.
  match goal with
  | Heq : (_, _) = (_, _) |- _ => injection Heq as -> ->
  end.
  split; apply Forall_app; (split; [assumption|]);
    (constructor; [|constructor]); unfold total_volume;
    repeat match goal with
    | |- context [if ?b then _ else _] => destruct b
    end;
    change (inject_Z 0) with 0;
    repeat match goal with
    | |- context [?k * (rv + fv)] =>
        setoid_replace (k * (rv + fv)) with 0 by (rewrite Hzero; ring)
    end; ring.
Qed.

(** X24.  Shipping nothing costs nothing: when [calculate_logistics_costs]
    returns for volumes that add up to zero, no truck is needed, every
    scenario costs 0 with either strategy, the three reported costs are 0,
    and the tie goes to the contractor. *)
Theorem zero_volume_ships_for_nothing rv fv a n (g g' : G) r :
  rv + fv == 0 ->
  calculate_logistics_costs rv fv a n g = Some (r, g') ->
  trucks_needed rv fv a = Some 0%Z
  /\ lc_total_cost r = 0%Z /\ lc_min_cost r = 0%Z /\ lc_max_cost r = 0%Z
  /\ lc_optimal_strategy r = Contractor.
Proof.
  intros Hzero Hrun.
  destruct (logistics_report _ _ _ _ _ _ _ Hrun)
    as (trucks & own & contractor & mo & mc & lo & hi
        & Ht & Hs & Hmo & Hmc & Hlo & Hhi & Hbest & Htotal & Hmin & Hmax).
  pose proof (trucks_needed_zero _ _ _ _ Hzero Ht) as ->.
  destruct (simulate_logistics_zero _ _ _ _ _ _ _ _ Hzero Hs) as [Hown Hcon].
  apply (zero_mean _ _ Hown) in Hmo. apply (zero_mean _ _ Hcon) in Hmc.
  assert (Hall : Forall (fun c => c == 0) (own ++ contractor))
    by (apply Forall_app; now split).
  destruct (zero_extrema _ _ _ Hall Hlo Hhi) as [Elo Ehi].
  split; [exact Ht|].
  split.
  { rewrite Htotal. rewrite (int_comp _ 0); [reflexivity|].
    rewrite min_spec. rewrite Hmo, Hmc. reflexivity. }
  split; [rewrite Hmin; now rewrite (int_comp _ 0 Elo)|].
  split; [rewrite Hmax; now rewrite (int_comp _ 0 Ehi)|].
  rewrite Hbest. case_ltb mo mc; [lra | reflexivity].
Qed.

End ZeroVolumes.

Lemma example_zero_order_run :
  exists r g',
    calculate_raw_material_costs 0 material_per_box base_prices
      price_volatility (5 # 100) (1 # 10) 7 3 0%Z = Some (r, g').
Proof. eexists _, _. vm_compute. reflexivity. Qed.

Lemma zero_order_costs_nothing_witness :
  exists r g',
    calculate_raw_material_costs 0 material_per_box base_prices
      price_volatility (5 # 100) (1 # 10) 7 3 0%Z = Some (r, g')
    /\ rm_expected_cost r = 0%Z /\ rm_max_cost r = 0%Z.
Proof.
  destruct example_zero_order_run as (r & g' & Hrun).
  exists r, g'. split; [exact Hrun|].
  destruct (zero_order_costs_nothing _ _ _ _ _ _ _ _ _ _ _
              (Qeq_refl 0) Hrun) as (Hexpected & _ & Hmax & _).
  split; [exact Hexpected | exact Hmax].
Defined.

Lemma example_zero_volume_run :
  exists r g',
    calculate_logistics_costs 0 0 logistics_example 3 0%Z = Some (r, g').
Proof. eexists _, _. vm_compute. reflexivity. Qed.

Lemma zero_volume_ships_for_nothing_witness :
  exists r g',
    calculate_logistics_costs 0 0 logistics_example 3 0%Z = Some (r, g')
    /\ lc_total_cost r = 0%Z /\ lc_optimal_strategy r = Contractor.
Proof.
  destruct example_zero_volume_run as (r & g' & Hrun).
  exists r, g'. split; [exact Hrun|].
  destruct (zero_volume_ships_for_nothing _ _ _ _ _ _ _ (Qeq_refl (0 + 0))
              Hrun) as (_ & Htotal & _ & _ & Hbest).
  split; [exact Htotal | exact Hbest].
Defined.

(** ** Optimization.py: what the objective adds *)


Section Penalties.
Context {G : Type} `{RandomSource G}.
Variables (target_boxes : Q).
Variables (material_per_box base_prices price_volatility : Py.dict).
Variables (defect_rate delivery_risk safety_stock_days : Q).
Variable (n_simulations : nat).
Variables (production_params storage_params logistics_params labor_params
           : Py.dict).
Variables (n_months : nat) (risk_tolerance : Q).



End Penalties.


